(** * PowerAutomation MCP test executor and predictive performance analyzer

    A shallow embedding of

    - [mcp_integration_workspace/adapter/test_execution_engine/framework/test_executor.py]
      (class [MCPTestExecutor] and [main]),
    - [mcp_integration_workspace/adapter/test_execution_engine/test_manage_mcp.py]
      ([TestManageMCP.get_test_status]), and
    - [mcp/integrated_test_management/shared/predictive_performance.py]
      (class [PredictivePerformanceAnalyzer]),

    followed by the properties of the runner, the schedulers, the report
    aggregator and the trend analyzer.

    Conventions of the embedding.
    - A Python [float] is idealised as a real number ([R]); rounding, infinities
      and NaN are outside the model.  Python [int] is [Z] (or [nat] for lengths
      and counters that only count up from zero).
    - A Python call that may raise returns a [res]: [Ok v] or [Raise e].
      [try ... except] is [try_except].
    - [datetime] values are microseconds on a common time line ([Z]).
    - What the program reads from its surroundings (the clock, the outcome of a
      subprocess, the order in which futures complete, the file system) is an
      explicit argument. *)

From Stdlib Require Import Reals Lra Lia ZArith List String Permutation.
From stdpp Require Import gmap strings list fin_maps pretty.

(* ===================================================================== *)
(** * Python results and exceptions *)
(* ===================================================================== *)

Module Py.

(** The exception classes that the modelled code can meet.  Every one of
    them is a subclass of Python's [Exception]. *)
Inductive exn : Type :=
| TimeoutExpired (cmd : string) (timeout : Z)
    (* subprocess.TimeoutExpired; [cmd] is the text of [str(e.cmd)], the
       argument list as Python prints it *)
| FileNotFoundError (msg : string)  (* an OSError: the interpreter is missing *)
| OSError (msg : string)
| RuntimeError (msg : string)
| ValueError (msg : string)
| KeyError (msg : string)
| IndexError (msg : string)
| ZeroDivisionError (msg : string)
| StatisticsError (msg : string).

(** [str(e)] *)
Definition exn_str (e : exn) : string :=
  match e with
  | TimeoutExpired cmd t =>
      "Command '" +:+ cmd +:+ "' timed out after " +:+ pretty t +:+ " seconds"
  | FileNotFoundError m | OSError m | RuntimeError m | ValueError m
  | KeyError m | IndexError m | ZeroDivisionError m | StatisticsError m => m
  end.

Inductive res (A : Type) : Type :=
| Ok (a : A)
| Raise (e : exn).
Arguments Ok {A} a.
Arguments Raise {A} e.

#[global] Instance res_ret : MRet res := fun A a => Ok a.
#[global] Instance res_bind : MBind res := fun A B f m =>
  match m with
  | Ok a => f a
  | Raise e => Raise e
  end.

(** [try: body  except ...: handler].  The handler receives the exception
    and decides by its class; an [except Exception] clause covers all of
    [exn]. *)
Definition try_except {A} (body : res A) (handler : exn -> res A) : res A :=
  match body with
  | Ok a => Ok a
  | Raise e => handler e
  end.

(** [a / b] on floats. *)
Definition truediv (a b : R) : res R :=
  if Req_dec_T b 0 then Raise (ZeroDivisionError "float division by zero")
  else Ok (a / b)%R.

(** [a / b] where [b] is an [int]. *)
Definition truediv_int (a : R) (b : Z) : res R :=
  if (b =? 0)%Z then Raise (ZeroDivisionError "division by zero")
  else Ok (a / IZR b)%R.

(** [values[-k:]] for a non-negative [k]: the last [k] elements, and the
    whole list when [k] is 0 (as [-0] is [0]) or exceeds the length. *)
Definition suffix {A} (k : nat) (l : list A) : list A :=
  if (k =? 0)%nat then l else drop (length l - k) l.

(** [s.replace(old, new)] for a non-empty [old]: the occurrences of [old]
    are replaced from left to right without overlap.  [skip] counts the
    characters of a replaced occurrence that are still to be passed over. *)
Fixpoint replace_from (old new : string) (skip : nat) (s : string) : string :=
  match s with
  | EmptyString => EmptyString
  | String c s' =>
      match skip with
      | S k => replace_from old new k s'
      | O =>
          if String.prefix old s
          then new +:+ replace_from old new (String.length old - 1) s'
          else String c (replace_from old new 0 s')
      end
  end.

Definition replace (old new s : string) : string := replace_from old new 0 s.

(** [values[-1]] *)
Definition last_item {A} (l : list A) : res A :=
  match last l with
  | Some a => Ok a
  | None => Raise (IndexError "list index out of range")
  end.

(** [values[0]] *)
Definition first_item {A} (l : list A) : res A :=
  match l with
  | a :: _ => Ok a
  | [] => Raise (IndexError "list index out of range")
  end.

End Py.
Import Py.

(* ===================================================================== *)
(** * test_executor.py *)
(* ===================================================================== *)

Module Executor.

(** A [pathlib.Path], as its components; [name] is the final one. *)
Definition Path := list string.
Definition name (p : Path) : string := List.last p "".

(** The descriptor built by [_discover_module_tests]. *)
Record TestInfo := {
  ti_module_name : string;
  ti_module_type : string;
  ti_test_type : string;
  ti_test_file : Path;
  ti_test_path : string
}.

(** The result dictionary built by [execute_single_test] (and by the
    error branch of [execute_tests_parallel]). *)
Record ExecutionRecord := {
  module_name : string;
  test_type : string;
  test_file : string;
  test_path : string;
  status : string;
  duration : R;
  start_time : Z;
  end_time : Z;
  stdout : string;
  stderr : string;
  return_code : Z
}.

(** What [subprocess.run] hands back: a [CompletedProcess]. *)
Record CompletedProcess := {
  returncode : Z;
  cp_stdout : string;
  cp_stderr : string
}.

(** The surroundings of one call of [execute_single_test]: the clock read
    before the run, the interpreter, what [subprocess.run(cmd, ...,
    timeout=...)] does in the project root (returns, or raises
    [TimeoutExpired] or another exception), and the clock read afterwards. *)
Record RunEnv := {
  clock_before : Z;
  sys_executable : string;
  subprocess_run : list string -> Z -> res CompletedProcess;
  clock_after : Z
}.

(** The command line of the test: the module path is the test path with
    the slashes turned into dots and [.py] removed. *)
Definition command (env : RunEnv) (test_info : TestInfo) : list string :=
  [sys_executable env; "-m"; "unittest";
   replace ".py" "" (replace "/" "." (ti_test_path test_info))].

(** [timedelta.total_seconds()] of the difference of two instants. *)
Definition total_seconds (t1 t0 : Z) : R := (IZR (t1 - t0) / 1000000)%R.

Definition execute_single_test (env : RunEnv) (test_info : TestInfo)
  : res ExecutionRecord :=
  let test_start_time := clock_before env in
  let module_name_ := ti_module_name test_info in
  let test_type_ := ti_test_type test_info in
  let test_file_ := ti_test_file test_info in
  try_except
    (let cmd := command env test_info in
     result ← subprocess_run env cmd 300;
     let test_end_time := clock_after env in
     let test_duration := total_seconds test_end_time test_start_time in
     let success := (returncode result =? 0)%Z in
     Ok {| module_name := module_name_;
           test_type := test_type_;
           test_file := name test_file_;
           test_path := ti_test_path test_info;
           status := if success then "PASS" else "FAIL";
           duration := test_duration;
           start_time := test_start_time;
           end_time := test_end_time;
           stdout := cp_stdout result;
           stderr := cp_stderr result;
           return_code := returncode result |})
    (fun e =>
       match e with
       | TimeoutExpired _ _ =>
           Ok {| module_name := module_name_;
                 test_type := test_type_;
                 test_file := name test_file_;
                 test_path := ti_test_path test_info;
                 status := "TIMEOUT";
                 duration := 300;
                 start_time := test_start_time;
                 end_time := clock_after env;
                 stdout := "";
                 stderr := "Test execution timeout (300s)";
                 return_code := -1 |}
       | _ =>
           Ok {| module_name := module_name_;
                 test_type := test_type_;
                 test_file := name test_file_;
                 test_path := ti_test_path test_info;
                 status := "ERROR";
                 duration := 0;
                 start_time := test_start_time;
                 end_time := clock_after env;
                 stdout := "";
                 stderr := exn_str e;
                 return_code := -2 |}
       end).

(** The surroundings of the thread pool.  The future of the task submitted
    at position [i] resolves to what [execute_single_test] returns in
    [task_env i], unless [worker_failure i] names an exception that the
    pool raises from [future.result()] instead.  [completion_order] is the
    order in which [as_completed] yields the futures; a future is identified
    by the position at which its task was submitted.  [handler_clock i]
    holds the two clock readings of the [except] branch that handles the
    future of position [i]. *)
Record PoolEnv := {
  task_env : nat -> RunEnv;
  worker_failure : nat -> option exn;
  completion_order : list nat;
  handler_clock : nat -> Z * Z
}.

Definition future_result (pe : PoolEnv) (i : nat) (test : TestInfo)
  : res ExecutionRecord :=
  match worker_failure pe i with
  | Some e => Raise e
  | None => execute_single_test (task_env pe i) test
  end.

(** The dictionary built in the [except] branch of the collecting loop for
    the future of position [future]. *)
Definition error_result (pe : PoolEnv) (future : nat) (test_info : TestInfo)
    (e : exn) : ExecutionRecord :=
  {| module_name := ti_module_name test_info;
     test_type := ti_test_type test_info;
     test_file := name (ti_test_file test_info);
     test_path := ti_test_path test_info;
     status := "ERROR";
     duration := 0;
     start_time := fst (handler_clock pe future);
     end_time := snd (handler_clock pe future);
     stdout := "";
     stderr := "Execution error: " +:+ exn_str e;
     return_code := -3 |}.

(** The body of the loop [for future in as_completed(future_to_test)]. *)
Definition collect (pe : PoolEnv) (future_to_test : list TestInfo)
    (results : list ExecutionRecord) (future : nat)
  : res (list ExecutionRecord) :=
  match future_to_test !! future with
  | None => Raise (KeyError "future")
  | Some test_info =>
      try_except
        (result ← future_result pe future test_info;
         Ok (results ++ [result]))
        (fun e => Ok (results ++ [error_result pe future test_info e]))
  end.

(** A [for] loop whose body may raise. *)
Fixpoint for_each {A S} (body : S -> A -> res S) (s : S) (l : list A)
  : res S :=
  match l with
  | [] => Ok s
  | a :: l' => s' ← body s a; for_each body s' l'
  end.

(** [ThreadPoolExecutor(max_workers)] refuses a worker count below 1.
    The dictionary [future_to_test] has one key per submitted task, so it
    is the list of the tasks read by position. *)
Definition execute_tests_parallel (pe : PoolEnv) (test_modules : list TestInfo)
    (max_workers : Z) : res (list ExecutionRecord) :=
  if (max_workers <=? 0)%Z
  then Raise (ValueError "max_workers must be greater than 0")
  else
    let future_to_test := test_modules in
    for_each (collect pe future_to_test) [] (completion_order pe).

(** The [i]-th call of the runner happens in [envs i]. *)
Fixpoint sequential_loop (envs : nat -> RunEnv) (i : nat)
    (results : list ExecutionRecord) (test_modules : list TestInfo)
  : res (list ExecutionRecord) :=
  match test_modules with
  | [] => Ok results
  | test_info :: rest =>
      result ← execute_single_test (envs i) test_info;
      sequential_loop envs (S i) (results ++ [result]) rest
  end.

Definition execute_tests_sequential (envs : nat -> RunEnv)
    (test_modules : list TestInfo) : res (list ExecutionRecord) :=
  sequential_loop envs 0 [] test_modules.

(** ** The report *)

(** The counters kept per module and per test type. *)
Record Stats := {
  total : nat;
  passed : nat;
  failed : nat;
  timeout : nat;
  error : nat
}.

Definition zero_stats : Stats :=
  {| total := 0; passed := 0; failed := 0; timeout := 0; error := 0 |}.

(** [stats['total'] += 1] followed by the [if]/[elif] chain on the status;
    a status outside the four leaves the other counters alone. *)
Definition bump (st : string) (s : Stats) : Stats :=
  let s := {| total := total s + 1; passed := passed s; failed := failed s;
              timeout := timeout s; error := error s |} in
  if String.eqb st "PASS" then
    {| total := total s; passed := passed s + 1; failed := failed s;
       timeout := timeout s; error := error s |}
  else if String.eqb st "FAIL" then
    {| total := total s; passed := passed s; failed := failed s + 1;
       timeout := timeout s; error := error s |}
  else if String.eqb st "TIMEOUT" then
    {| total := total s; passed := passed s; failed := failed s;
       timeout := timeout s + 1; error := error s |}
  else if String.eqb st "ERROR" then
    {| total := total s; passed := passed s; failed := failed s;
       timeout := timeout s; error := error s + 1 |}
  else s.

(** One round of the grouping loop: create the entry of [key] when it is
    missing, then count the record in it. *)
Definition count_into (key : string) (st : string)
    (stats : gmap string Stats) : gmap string Stats :=
  let stats :=
    match stats !! key with
    | None => <[key := zero_stats]> stats
    | Some _ => stats
    end in
  match stats !! key with
  | Some s => <[key := bump st s]> stats
  | None => stats
  end.

Definition group_by (key : ExecutionRecord -> string)
    (test_results : list ExecutionRecord) : gmap string Stats :=
  foldl (fun stats result => count_into (key result) (status result) stats)
        ∅ test_results.

(** [len([r for r in test_results if r['status'] == st])] *)
Definition count_status (st : string) (test_results : list ExecutionRecord)
  : nat :=
  length (List.filter (fun r => String.eqb (status r) st) test_results).

Record Summary := {
  s_start_time : Z;
  s_end_time : Z;
  total_duration : R;
  total_tests : nat;
  passed_tests : nat;
  failed_tests : nat;
  timeout_tests : nat;
  error_tests : nat;
  success_rate : R
}.

Record FailedTest := {
  f_module : string;
  f_test_type : string;
  f_test_file : string;
  f_status : string;
  f_error : string
}.

Record Report := {
  test_execution_id : Z;
  execution_summary : Summary;
  module_statistics : gmap string Stats;
  type_statistics : gmap string Stats;
  detailed_results : list ExecutionRecord;
  failed_tests_summary : list FailedTest
}.

(** [r['stderr'][:500] if r['stderr'] else 'No error message'] *)
Definition error_excerpt (err : string) : string :=
  if String.eqb err "" then "No error message" else String.substring 0 500 err.

Definition failed_entry (r : ExecutionRecord) : FailedTest :=
  {| f_module := module_name r;
     f_test_type := test_type r;
     f_test_file := test_file r;
     f_status := status r;
     f_error := error_excerpt (stderr r) |}.

Definition is_failure (r : ExecutionRecord) : bool :=
  String.eqb (status r) "FAIL" || String.eqb (status r) "TIMEOUT"
  || String.eqb (status r) "ERROR".

(** [execution_start_time] is the instant stored by [__init__]; [now] is
    the clock read at the start of the call, [id_clock] the one formatted
    into the execution id.  The division of two [int]s is Python's true
    division. *)
Definition generate_comprehensive_report (execution_start_time now id_clock : Z)
    (test_results : list ExecutionRecord) : res Report :=
  let execution_end_time := now in
  let total_duration_ := total_seconds execution_end_time execution_start_time in
  let total_tests_ := length test_results in
  let passed_tests_ := count_status "PASS" test_results in
  let failed_tests_ := count_status "FAIL" test_results in
  let timeout_tests_ := count_status "TIMEOUT" test_results in
  let error_tests_ := count_status "ERROR" test_results in
  let module_stats := group_by module_name test_results in
  let type_stats := group_by test_type test_results in
  success_rate_ ←
    (if (0 <? total_tests_)%nat
     then q ← truediv_int (INR passed_tests_) (Z.of_nat total_tests_);
          Ok (q * 100)%R
     else Ok 0%R);
  Ok {| test_execution_id := id_clock;
        execution_summary :=
          {| s_start_time := execution_start_time;
             s_end_time := execution_end_time;
             total_duration := total_duration_;
             total_tests := total_tests_;
             passed_tests := passed_tests_;
             failed_tests := failed_tests_;
             timeout_tests := timeout_tests_;
             error_tests := error_tests_;
             success_rate := success_rate_ |};
        module_statistics := module_stats;
        type_statistics := type_stats;
        detailed_results := test_results;
        failed_tests_summary :=
          failed_entry <$> List.filter is_failure test_results |}.

(** ** The whole run *)

(** What [run_all_tests] meets outside the executor: the descriptors that
    [discover_all_tests] finds on the file system, the surroundings of the
    runner and of the pool, the clocks of the report, and whether
    [save_report] manages to write its file (it returns the path, or the
    [open]/[json.dump] call raises). *)
Record World := {
  discovered : list TestInfo;
  execution_start_time : Z;
  runner_env : nat -> RunEnv;
  pool_env : PoolEnv;
  report_clock : Z;
  id_clock : Z;
  save_outcome : res string
}.

Definition discover_all_tests (w : World) : list TestInfo := discovered w.

(** The report actions of a run, in the order in which they happen. *)
Inductive event : Type :=
| Generated (report : Report)
| Saved (path : string) (report : Report).

Definition save_report (w : World) (report : Report) : res string :=
  save_outcome w.

(** Returns what the call returns (or raises) together with its report
    actions.  [print] is not modelled. *)
Definition run_all_tests (w : World) (parallel : bool) (max_workers : Z)
  : res bool * list event :=
  let test_modules := discover_all_tests w in
  match test_modules with
  | [] => (Ok false, [])
  | _ :: _ =>
      match (if parallel
             then execute_tests_parallel (pool_env w) test_modules max_workers
             else execute_tests_sequential (runner_env w) test_modules) with
      | Raise e => (Raise e, [])
      | Ok test_results =>
          match generate_comprehensive_report (execution_start_time w)
                  (report_clock w) (id_clock w) test_results with
          | Raise e => (Raise e, [])
          | Ok comprehensive_report =>
              match save_report w comprehensive_report with
              | Raise e => (Raise e, [Generated comprehensive_report])
              | Ok report_path =>
                  let summary := execution_summary comprehensive_report in
                  let all_passed :=
                    (failed_tests summary + timeout_tests summary
                     + error_tests summary =? 0)%nat in
                  (Ok all_passed,
                   [Generated comprehensive_report;
                    Saved report_path comprehensive_report])
              end
          end
      end
  end.

(** The parsed command line. *)
Record Args := {
  sequential : bool;
  workers : Z;
  project_root : string
}.

(** The exit status of the process that runs [main]: 0 when [main] returns,
    1 after [sys.exit(1)], and 1 as well when an exception escapes (the
    interpreter prints the traceback and exits with status 1). *)
Definition main (w : World) (args : Args) : Z * list event :=
  let '(success, trace) :=
    run_all_tests w (negb (sequential args)) (workers args) in
  match success with
  | Ok true => (0%Z, trace)
  | Ok false => (1%Z, trace)
  | Raise _ => (1%Z, trace)
  end.

(** ** Notions used to state the properties *)

(** The part of a descriptor that its record carries along. *)
Definition test_key (t : TestInfo) : string * string * string * string :=
  (ti_module_name t, ti_test_type t, name (ti_test_file t), ti_test_path t).

Definition record_key (r : ExecutionRecord)
  : string * string * string * string :=
  (module_name r, test_type r, test_file r, test_path r).

(** The four statuses of an ExecutionRecord. *)
Definition valid_status (st : string) : Prop :=
  st = "PASS" \/ st = "FAIL" \/ st = "TIMEOUT" \/ st = "ERROR".

(** [sum(s['total'] for s in stats.values())] *)
Definition sum_totals (stats : gmap string Stats) : nat :=
  map_fold (fun _ s acc => total s + acc) 0 stats.

(** Within a group the four outcome counters add up to the total. *)
Definition balanced (s : Stats) : Prop :=
  passed s + failed s + timeout s + error s = total s.

(** The record that the collecting loop appends for the future at position
    [i]: the future's result, or the ERROR record built from its exception. *)
Definition resolves (pe : PoolEnv) (tests : list TestInfo) (i : nat)
    (r : ExecutionRecord) : Prop :=
  ∃ t, tests !! i = Some t
       ∧ match future_result pe i t with
         | Ok r' => r = r'
         | Raise e => r = error_result pe i t e
         end.

End Executor.

(* ===================================================================== *)
(** * Python's [statistics] module and the builtins used by the analyzer *)
(* ===================================================================== *)

Module Statistics.

(** [sum(data)]; on real numbers the order of the additions is immaterial. *)
Definition sum (data : list R) : R := foldr Rplus 0%R data.

(** [sum] of a list of [int]s. *)
Definition isum (data : list Z) : Z := foldr Z.add 0%Z data.

Definition mean (data : list R) : res R :=
  match data with
  | [] => Raise (StatisticsError "mean requires at least one data point")
  | _ :: _ => Ok (sum data / INR (length data))%R
  end.

(** The sum of the squared deviations from the mean of the data. *)
Definition ss (data : list R) : R :=
  let c := (sum data / INR (length data))%R in
  sum ((fun x => (x - c) * (x - c))%R <$> data).

(** The sample standard deviation (divisor [n - 1]). *)
Definition stdev (data : list R) : res R :=
  if (length data <? 2)%nat
  then Raise (StatisticsError "stdev requires at least two data points")
  else Ok (sqrt (ss data / (INR (length data) - 1)))%R.

(** [sorted(data)] *)
Fixpoint insert_sorted (x : R) (l : list R) : list R :=
  match l with
  | [] => [x]
  | y :: l' => if Rle_dec x y then x :: l else y :: insert_sorted x l'
  end.

Definition sorted (data : list R) : list R := foldr insert_sorted [] data.

Definition median (data : list R) : res R :=
  let data := sorted data in
  let n := length data in
  if (n =? 0)%nat then Raise (StatisticsError "no median for empty data")
  else if (n mod 2 =? 1)%nat then Ok (nth (n / 2) data 0%R)
  else let i := (n / 2)%nat in
       Ok ((nth (i - 1) data 0%R + nth i data 0%R) / 2)%R.

(** The builtins [min] and [max] on a list. *)
Definition min (data : list R) : res R :=
  match data with
  | [] => Raise (ValueError "min() arg is an empty sequence")
  | x :: l => Ok (foldl Rmin x l)
  end.

Definition max (data : list R) : res R :=
  match data with
  | [] => Raise (ValueError "max() arg is an empty sequence")
  | x :: l => Ok (foldl Rmax x l)
  end.

(** [list(range(n))] *)
Definition range (n : nat) : list Z := Z.of_nat <$> seq 0 n.

End Statistics.

(* ===================================================================== *)
(** * predictive_performance.py *)
(* ===================================================================== *)

Module Performance.
Import Statistics.

Inductive TrendDirection : Type :=
| IMPROVING
| STABLE
| DEGRADING
| VOLATILE.

(** [TrendDirection.value] *)
Definition trend_value (t : TrendDirection) : string :=
  match t with
  | IMPROVING => "improving"
  | STABLE => "stable"
  | DEGRADING => "degrading"
  | VOLATILE => "volatile"
  end.

(** The [context] dictionary of a metric plays no part in the analysis and
    is left out. *)
Record PerformanceMetric := {
  name : string;
  value : R;
  unit_ : string;
  timestamp : Z;
  threshold_warning : option R;
  threshold_critical : option R
}.

(** An f-string: the literal text with a hole for each formatted number,
    and the numbers. *)
Record text := {
  template : string;
  args : list R
}.

Definition lit (s : string) : text := {| template := s; args := [] |}.

Record Anomaly := {
  index : nat;
  a_value : R;
  deviation : R;
  type_ : string
}.

Record TrendStatistics := {
  st_mean : R;
  st_median : R;
  st_std_dev : R;
  st_min : R;
  st_max : R;
  st_range : R
}.

Record TrendReport := {
  t_metric_name : string;
  t_time_window_hours : Z;
  data_points : nat;
  trend_direction : string;
  statistics : TrendStatistics;
  change_rate_percent : R;
  stability_score : R;
  anomalies_count : nat;
  anomalies : list Anomaly;
  latest_value : R;
  t_trend_analysis : text
}.

(** The two shapes of the dictionary returned by
    [analyze_performance_trends]. *)
Inductive TrendResult : Type :=
| InsufficientData (metric_name : string) (trend : string) (message : string)
| Analysis (report : TrendReport).

Record PerformancePrediction := {
  p_metric_name : string;
  current_value : R;
  predicted_values : list (Z * R);
  confidence_interval : R * R;
  p_trend_analysis : text;
  risk_factors : list string
}.

(** [sum(x[i] * y[i] for i in range(len(x)))]; [y[i]] raises when [y] is
    the shorter list. *)
Fixpoint sum_xy (x : list Z) (y : list R) : res R :=
  match x, y with
  | [], _ => Ok 0%R
  | xi :: x', yi :: y' => r ← sum_xy x' y'; Ok (IZR xi * yi + r)%R
  | _ :: _, [] => Raise (IndexError "list index out of range")
  end.

(** [sum(x[i] ** 2 for i in range(len(x)))] *)
Definition sum_x2 (x : list Z) : Z := isum ((fun xi => xi ^ 2)%Z <$> x).

(** [std_dev / mean_value if mean_value != 0 else 0] *)
Definition coefficient_of_variation (std_dev mean_value : R) : res R :=
  if Req_dec_T mean_value 0 then Ok 0%R else truediv std_dev mean_value.

Definition _calculate_trend_direction (values : list R) : res TrendDirection :=
  if (length values <? 3)%nat then Ok STABLE
  else
    let x := range (length values) in
    let y := values in
    let n := Z.of_nat (length values) in
    let sum_x := isum x in
    let sum_y := sum y in
    sum_xy_ ← sum_xy x y;
    let sum_x2_ := sum_x2 x in
    slope ← truediv_int (IZR n * sum_xy_ - IZR sum_x * sum_y)
                        (n * sum_x2_ - sum_x ^ 2);
    mean_value ← mean values;
    std_dev ← (if (1 <? length values)%nat then stdev values else Ok 0%R);
    cv ← coefficient_of_variation std_dev mean_value;
    if Rgt_dec cv 0.3 then Ok VOLATILE
    else if Rgt_dec slope 0.1 then Ok IMPROVING
    else if Rlt_dec slope (- 0.1) then Ok DEGRADING
    else Ok STABLE.

(** The loop over [enumerate(values)], from index [i] on. *)
Fixpoint scan_anomalies (mean_value threshold : R) (i : nat) (values : list R)
  : list Anomaly :=
  match values with
  | [] => []
  | v :: rest =>
      if Rgt_dec (Rabs (v - mean_value)) threshold
      then {| index := i;
              a_value := v;
              deviation := Rabs (v - mean_value);
              type_ := if Rgt_dec v mean_value then "high" else "low" |}
           :: scan_anomalies mean_value threshold (S i) rest
      else scan_anomalies mean_value threshold (S i) rest
  end.

Definition _detect_anomalies (values : list R) : res (list Anomaly) :=
  if (length values <? 3)%nat then Ok []
  else
    mean_value ← mean values;
    std_dev ← stdev values;
    let threshold := (3 * std_dev)%R in
    Ok (scan_anomalies mean_value threshold 0 values).

Definition _calculate_stability_score (values : list R) : res R :=
  if (length values <? 2)%nat then Ok 100%R
  else
    mean_value ← mean values;
    std_dev ← stdev values;
    cv ← coefficient_of_variation std_dev mean_value;
    let stability_score := Rmax 0 (100 - cv * 100) in
    Ok (Rmin 100 stability_score).

Definition _generate_trend_analysis (trend : TrendDirection)
    (change_rate stability : R) : text :=
  match trend with
  | IMPROVING =>
      {| template := "性能呈改善趋势，变化率为 {:.1f}%，稳定性评分 {:.1f}";
         args := [change_rate; stability] |}
  | DEGRADING =>
      {| template := "性能呈下降趋势，变化率为 {:.1f}%，稳定性评分 {:.1f}";
         args := [change_rate; stability] |}
  | VOLATILE =>
      {| template := "性能波动较大，稳定性评分 {:.1f}，需要关注";
         args := [stability] |}
  | STABLE =>
      {| template := "性能保持稳定，稳定性评分 {:.1f}";
         args := [stability] |}
  end.

(** [timedelta(hours=h)] in microseconds. *)
Definition hours (h : Z) : Z := (h * 3600 * 1000000)%Z.

(** [[m for m in self.metrics_history
      if m.name == metric_name and m.timestamp >= cutoff_time]] *)
Definition select (metrics_history : list PerformanceMetric)
    (metric_name : string) (cutoff_time : Z) : list PerformanceMetric :=
  List.filter (fun m => String.eqb (name m) metric_name
                        && (cutoff_time <=? timestamp m)%Z)
              metrics_history.

Definition analyze_performance_trends (metrics_history : list PerformanceMetric)
    (now : Z) (metric_name : string) (time_window_hours : Z)
  : res TrendResult :=
  let cutoff_time := (now - hours time_window_hours)%Z in
  let relevant_metrics := select metrics_history metric_name cutoff_time in
  if (length relevant_metrics <? 2)%nat
  then Ok (InsufficientData metric_name "insufficient_data"
                            "数据不足，无法分析趋势")
  else
    let values := value <$> relevant_metrics in
    mean_value ← mean values;
    median_value ← median values;
    std_dev ← (if (1 <? length values)%nat then stdev values else Ok 0%R);
    min_value ← min values;
    max_value ← max values;
    trend_direction_ ← _calculate_trend_direction values;
    change_rate ←
      (if (2 <=? length values)%nat
       then last_ ← last_item values;
            first_ ← first_item values;
            q ← truediv (last_ - first_) first_;
            Ok (q * 100)%R
       else Ok 0%R);
    anomalies_ ← _detect_anomalies values;
    stability_score_ ← _calculate_stability_score values;
    latest ← last_item values;
    Ok (Analysis
          {| t_metric_name := metric_name;
             t_time_window_hours := time_window_hours;
             data_points := length values;
             trend_direction := trend_value trend_direction_;
             statistics :=
               {| st_mean := mean_value;
                  st_median := median_value;
                  st_std_dev := std_dev;
                  st_min := min_value;
                  st_max := max_value;
                  st_range := (max_value - min_value)%R |};
             change_rate_percent := change_rate;
             stability_score := stability_score_;
             anomalies_count := length anomalies_;
             anomalies := anomalies_;
             latest_value := latest;
             t_trend_analysis :=
               _generate_trend_analysis trend_direction_ change_rate
                                        stability_score_ |}).

(** ** Prediction *)

Definition _calculate_slope (x : list Z) (y : list R) : res R :=
  let n := Z.of_nat (length x) in
  if (n <? 2)%Z then Ok 0%R
  else
    let sum_x := isum x in
    let sum_y := sum y in
    sum_xy_ ← sum_xy x y;
    let sum_x2_ := sum_x2 x in
    let denominator := (n * sum_x2_ - sum_x ^ 2)%Z in
    if (denominator =? 0)%Z then Ok 0%R
    else truediv_int (IZR n * sum_xy_ - IZR sum_x * sum_y) denominator.

(** [self.performance_thresholds]: warning and critical level per metric. *)
Definition performance_thresholds : gmap string (R * R) :=
  <["execution_time" := (30, 60)%R]>
  (<["memory_usage" := (80, 95)%R]>
  (<["cpu_usage" := (70, 90)%R]>
  (<["test_success_rate" := (90, 80)%R]>
  (<["response_time" := (2, 5)%R]>
  (<["throughput" := (100, 50)%R]> ∅))))).

(** The metrics for which a higher value is worse. *)
Definition higher_is_worse (metric_name : string) : bool :=
  existsb (String.eqb metric_name)
          ["execution_time"; "memory_usage"; "cpu_usage"; "response_time"].

Definition _identify_risk_factors (values : list R) (metric_name : string)
  : res (list string) :=
  let risk_factors : list string := [] in
  if (length values <? 5)%nat then Ok (risk_factors ++ ["历史数据不足"])
  else
    recent_trend ← _calculate_trend_direction (suffix 5 values);
    let risk_factors :=
      match recent_trend with
      | DEGRADING => risk_factors ++ ["近期性能下降趋势"]
      | VOLATILE => risk_factors ++ ["性能波动较大"]
      | _ => risk_factors
      end in
    current_value_ ← last_item values;
    let risk_factors :=
      match performance_thresholds !! metric_name with
      | Some (warning_threshold, critical_threshold) =>
          if higher_is_worse metric_name then
            if Rge_dec current_value_ critical_threshold
            then risk_factors ++ ["已达到关键阈值"]
            else if Rge_dec current_value_ warning_threshold
            then risk_factors ++ ["接近警告阈值"]
            else risk_factors
          else
            if Rle_dec current_value_ critical_threshold
            then risk_factors ++ ["已达到关键阈值"]
            else if Rle_dec current_value_ warning_threshold
            then risk_factors ++ ["接近警告阈值"]
            else risk_factors
      | None => risk_factors
      end in
    if (1 <? length values)%nat then
      std_dev ← stdev values;
      mean_value ← mean values;
      cv ← coefficient_of_variation std_dev mean_value;
      if Rgt_dec cv 0.3 then Ok (risk_factors ++ ["性能变异性过高"])
      else Ok risk_factors
    else Ok risk_factors.

Definition _generate_prediction_analysis (slope std_dev : R) : text :=
  let trend_desc :=
    if Rlt_dec (Rabs slope) 0.01 then lit "保持稳定"
    else if Rgt_dec slope 0
    then {| template := "预计将以 {:.3f} 的速率改善"; args := [slope] |}
    else {| template := "预计将以 {:.3f} 的速率下降"; args := [Rabs slope] |} in
  let stability_desc :=
    if Rlt_dec std_dev 1 then "预测稳定性较高"
    else if Rlt_dec std_dev 5 then "预测稳定性中等"
    else "预测稳定性较低" in
  {| template := "基于历史趋势，性能" +:+ template trend_desc +:+ "，"
                 +:+ stability_desc;
     args := args trend_desc |}.

(** [range(1, prediction_hours + 1)] *)
Definition hour_range (prediction_hours : Z) : list Z :=
  (fun k => Z.of_nat k) <$> seq 1 (Z.to_nat prediction_hours).

(** [self.history_window], set by [__init__]: the past seven days. *)
Definition history_window : Z := 168.

(** [now] is the clock read for the cutoff and [base_time] the one read
    before the extrapolation.  The standard deviation that the loop
    recomputes at each hour and never uses is left out. *)
Definition predict_future_performance
    (metrics_history : list PerformanceMetric) (now base_time : Z)
    (metric_name : string) (prediction_hours : Z)
  : res PerformancePrediction :=
  let cutoff_time := (now - hours history_window)%Z in
  let historical_metrics := select metrics_history metric_name cutoff_time in
  if (length historical_metrics <? 10)%nat
  then Ok {| p_metric_name := metric_name;
             current_value := 0;
             predicted_values := [];
             confidence_interval := (0, 0)%R;
             p_trend_analysis := lit "数据不足，无法进行预测";
             risk_factors := ["历史数据不足"] |}
  else
    let values := value <$> historical_metrics in
    current_value_ ← last_item values;
    let window_size := Nat.min 10 (length values) in
    let recent_values := suffix window_size values in
    moving_avg ← mean recent_values;
    slope ←
      (if (5 <=? length values)%nat
       then let y := suffix 5 values in
            let x := range (length y) in
            _calculate_slope x y
       else Ok 0%R);
    let predicted_values_ :=
      (fun hour => ((base_time + hours hour)%Z,
                    (moving_avg + slope * IZR hour)%R))
        <$> hour_range prediction_hours in
    std_dev ← (if (1 <? length values)%nat then stdev values else Ok 0%R);
    let confidence_interval_ :=
      if (1 <? length values)%nat
      then (moving_avg - 1.96 * std_dev, moving_avg + 1.96 * std_dev)%R
      else (current_value_, current_value_) in
    risk_factors_ ← _identify_risk_factors values metric_name;
    let trend_analysis := _generate_prediction_analysis slope std_dev in
    Ok {| p_metric_name := metric_name;
          current_value := current_value_;
          predicted_values := predicted_values_;
          confidence_interval := confidence_interval_;
          p_trend_analysis := trend_analysis;
          risk_factors := risk_factors_ |}.

(** ** Notions used to state the properties *)

(** Mean, sample standard deviation and coefficient of variation
    (stddev / mean, taken as 0 when the mean is 0) of a window. *)
Definition mean_of (values : list R) : R :=
  (sum values / INR (length values))%R.

Definition stdev_of (values : list R) : R :=
  sqrt (ss values / (INR (length values) - 1)).

Definition cv_of (values : list R) : R :=
  if Req_dec_T (mean_of values) 0 then 0%R
  else (stdev_of values / mean_of values)%R.

(** The sum of the products of the paired items. *)
Definition dot (x : list Z) (y : list R) : R :=
  sum (zip_with (fun xi yi => (IZR xi * yi)%R) x y).

(** The slope of the regression line of the points [(x_i, y_i)]. *)
Definition regression_slope (x : list Z) (y : list R) : R :=
  let n := Z.of_nat (length x) in
  ((IZR n * dot x y - IZR (isum x) * sum y)
   / IZR (n * sum_x2 x - isum x ^ 2))%R.

(** The squared error of the line [a + b * x] on the points. *)
Definition sq_error (a b : R) (x : list Z) (y : list R) : R :=
  sum (zip_with (fun xi yi =>
                   ((yi - (a + b * IZR xi)) * (yi - (a + b * IZR xi)))%R)
                x y).

(** [b] is the least-squares slope over the index-ordered samples: a line
    of slope [b] has the least squared error among all lines. *)
Definition least_squares_slope (b : R) (y : list R) : Prop :=
  ∃ a, ∀ a' b', (sq_error a b (range (length y)) y
                 <= sq_error a' b' (range (length y)) y)%R.

(** The classification policy, in its priority order: volatility first,
    then the two slope tests, else stable. *)
Definition classify (cv slope : R) : TrendDirection :=
  if Rgt_dec cv 0.3 then VOLATILE
  else if Rgt_dec slope 0.1 then IMPROVING
  else if Rlt_dec slope (- 0.1) then DEGRADING
  else STABLE.

End Performance.

(* ===================================================================== *)
(** * Notions for the grouped statistics and the verdict of a run *)
(* ===================================================================== *)

Module Aggregates.
Import Executor.

(** The records of the group [k]: those whose key is [k], in their order. *)
Definition group_of (key : ExecutionRecord -> string) (k : string)
    (rs : list ExecutionRecord) : list ExecutionRecord :=
  List.filter (fun r => String.eqb (key r) k) rs.

(** The counters of a list of records, each counted on its own. *)
Definition tally (g : list ExecutionRecord) : Stats :=
  {| total := length g;
     passed := count_status "PASS" g;
     failed := count_status "FAIL" g;
     timeout := count_status "TIMEOUT" g;
     error := count_status "ERROR" g |}.

Definition is_pass (r : ExecutionRecord) : bool := String.eqb (status r) "PASS".

(** The scheduler that [run_all_tests] calls for its [parallel] flag. *)
Definition scheduled (w : World) (parallel : bool) (max_workers : Z)
  : res (list ExecutionRecord) :=
  if parallel
  then execute_tests_parallel (pool_env w) (discover_all_tests w) max_workers
  else execute_tests_sequential (runner_env w) (discover_all_tests w).

End Aggregates.

(* ===================================================================== *)
(** * Discovery of the test files (test_executor.py) *)
(* ===================================================================== *)

Module Discovery.
Import Executor.

(** The part of the file system below the project root: a regular file, or
    a directory with its entries in the order in which the system lists
    them.  Symbolic links and access rights are not modelled. *)
#[local] Unset Elimination Schemes.
Inductive node : Type :=
| File (name : string)
| Dir (name : string) (entries : list node).
#[local] Set Elimination Schemes.

Definition node_name (n : node) : string :=
  match n with
  | File s => s
  | Dir s _ => s
  end.

(** [Path.is_dir()] *)
Definition is_dir (n : node) : bool :=
  match n with
  | Dir _ _ => true
  | File _ => false
  end.

Definition entries_of (n : node) : list node :=
  match n with
  | Dir _ es => es
  | File _ => []
  end.

(** [(p / name)] when [(p / name).exists()]: the entry of that name, if [p]
    is a directory that has one. *)
Definition child (n : node) (nm : string) : option node :=
  List.find (fun e => String.eqb (node_name e) nm) (entries_of n).

(** [Path.iterdir()]: the entries of a directory; on a regular file the
    call raises [NotADirectoryError], an [OSError]. *)
Definition iterdir (n : node) : res (list node) :=
  match n with
  | Dir _ es => Ok es
  | File _ => Raise (OSError "Not a directory")
  end.

Definition ends_with (suffix s : string) : bool :=
  (String.length suffix <=? String.length s)%nat
  && String.eqb (String.substring (String.length s - String.length suffix)
                                  (String.length suffix) s)
                suffix.

(** Whether a name matches the pattern [test_*.py]. *)
Definition is_test_file_name (nm : string) : bool :=
  String.prefix "test_" nm && ends_with ".py" nm.

(** [dir.glob('test_*.py')]: the entries of the directory whose name matches;
    nothing when [dir] is not a directory. *)
Definition glob_tests (dir : node) : list node :=
  List.filter (fun e => is_test_file_name (node_name e)) (entries_of dir).

(** [str] of a relative path. *)
Definition join (parts : list string) : string := String.concat "/" parts.

(** The descriptors of the directory [tests_dir_name] of a module: one per
    matching entry, when the directory exists. *)
Definition tests_in (root_path : Path) (module_dir : node)
    (module_type kind tests_dir_name : string) : list TestInfo :=
  match child module_dir tests_dir_name with
  | Some tests_dir =>
      (fun test_file =>
         let relative :=
           ["mcp"; module_type; node_name module_dir; tests_dir_name;
            node_name test_file] in
         {| ti_module_name := node_name module_dir;
            ti_module_type := module_type;
            ti_test_type := kind;
            ti_test_file := root_path ++ relative;
            ti_test_path := join relative |})
        <$> glob_tests tests_dir
  | None => []
  end.

Definition _discover_module_tests (root_path : Path) (module_dir : node)
    (module_type : string) : list TestInfo :=
  let tests := [] in
  let tests := tests ++ tests_in root_path module_dir module_type
                          "unit" "unit_tests" in
  let tests := tests ++ tests_in root_path module_dir module_type
                          "integration" "integration_tests" in
  tests.

(** The loop over one category directory, [mcp/adapter] or [mcp/workflow]:
    nothing when the path does not exist; otherwise the tests of every entry
    that is a directory and whose name does not start with a dot. *)
Definition discover_category (root_path : Path) (root : node)
    (module_type : string) : res (list TestInfo) :=
  match child root "mcp" ≫= (fun mcp => child mcp module_type) with
  | None => Ok []
  | Some category_path =>
      module_dirs ← iterdir category_path;
      Ok (List.concat
            ((fun module_dir =>
                if is_dir module_dir
                   && negb (String.prefix "." (node_name module_dir))
                then _discover_module_tests root_path module_dir module_type
                else [])
               <$> module_dirs))
  end.

(** [root_path] is [self.project_root] and [root] the directory found
    there. *)
Definition discover_all_tests (root_path : Path) (root : node)
  : res (list TestInfo) :=
  let test_modules := [] in
  adapter_tests ← discover_category root_path root "adapter";
  let test_modules := test_modules ++ adapter_tests in
  workflow_tests ← discover_category root_path root "workflow";
  let test_modules := test_modules ++ workflow_tests in
  Ok test_modules.

(** [run_all_tests] on a project root: the run of the world in which
    discovery finds what the tree holds; an exception of the discovery
    leaves the call at once. *)
Definition run_all_tests_on (root_path : Path) (root : node) (w : World)
    (parallel : bool) (max_workers : Z) : res bool * list event :=
  match discover_all_tests root_path root with
  | Raise e => (Raise e, [])
  | Ok test_modules =>
      run_all_tests
        {| discovered := test_modules;
           execution_start_time := execution_start_time w;
           runner_env := runner_env w;
           pool_env := pool_env w;
           report_clock := report_clock w;
           id_clock := id_clock w;
           save_outcome := save_outcome w |}
        parallel max_workers
  end.

(** ** Notions used to state the properties *)

(** What every discovered descriptor looks like. *)
Definition well_formed (root_path : Path) (d : TestInfo) : Prop :=
  (ti_module_type d = "adapter" \/ ti_module_type d = "workflow")
  /\ (ti_test_type d = "unit" \/ ti_test_type d = "integration")
  /\ is_test_file_name (name (ti_test_file d)) = true
  /\ String.prefix "." (ti_module_name d) = false
  /\ ti_test_file d
     = root_path ++ ["mcp"; ti_module_type d; ti_module_name d;
                     ti_test_type d +:+ "_tests"; name (ti_test_file d)]
  /\ ti_test_path d
     = join ["mcp"; ti_module_type d; ti_module_name d;
             ti_test_type d +:+ "_tests"; name (ti_test_file d)].

(** Whether the category path exists and is a regular file. *)
Definition category_is_file (root : node) (module_type : string) : bool :=
  match child root "mcp" ≫= (fun mcp => child mcp module_type) with
  | Some (File _) => true
  | _ => false
  end.

End Discovery.

(* ===================================================================== *)
(** * The status overview (test_manage_mcp.py) *)
(* ===================================================================== *)

Module Manager.
Import Executor.

Record Overview := {
  total_modules : nat;
  total_tests : nat;
  unit_tests : nat;
  integration_tests : nat;
  adapter_modules : nat;
  workflow_modules : nat
}.

(** [self.last_generation_time], [self.last_execution_time] and
    [self.last_fix_time]. *)
Record LastOperations := {
  generation : option Z;
  execution : option Z;
  fix_ : option Z
}.

(** For each kind of report the newest file of the reports directory, with
    its modification time, when there is one. *)
Definition LatestReports := list (string * option (string * Z)).

(** The two shapes of the dictionary returned by [get_test_status]. *)
Inductive TestStatus : Type :=
| StatusSuccess (overview : Overview) (last_operations : LastOperations)
    (latest_reports : LatestReports) (query_time : Z)
| StatusError (error : string) (query_time : Z).

(** [len(set(m['module_name'] for m in test_modules if keep(m)))] *)
Definition count_modules (keep : TestInfo -> bool)
    (test_modules : list TestInfo) : nat :=
  size (list_to_set (C := gset string)
          (ti_module_name <$> List.filter keep test_modules)).

(** [discovery] is what [self.executor.discover_all_tests()] does and
    [newest_reports] what the search of the reports directory does; both may
    raise, and the [except Exception] clause turns that into the error
    dictionary. *)
Definition get_test_status (discovery : res (list TestInfo))
    (newest_reports : res LatestReports) (last : LastOperations)
    (query_time : Z) : TestStatus :=
  match
    (test_modules ← discovery;
     let total_modules_ := count_modules (fun _ => true) test_modules in
     let total_tests_ := length test_modules in
     let unit_tests_ :=
       length (List.filter (fun m => String.eqb (ti_test_type m) "unit")
                           test_modules) in
     let integration_tests_ :=
       length (List.filter
                 (fun m => String.eqb (ti_test_type m) "integration")
                 test_modules) in
     let adapter_modules_ :=
       count_modules (fun m => String.eqb (ti_module_type m) "adapter")
                     test_modules in
     let workflow_modules_ :=
       count_modules (fun m => String.eqb (ti_module_type m) "workflow")
                     test_modules in
     latest_reports ← newest_reports;
     Ok (StatusSuccess
           {| total_modules := total_modules_;
              total_tests := total_tests_;
              unit_tests := unit_tests_;
              integration_tests := integration_tests_;
              adapter_modules := adapter_modules_;
              workflow_modules := workflow_modules_ |}
           last latest_reports query_time))
  with
  | Ok result => result
  | Raise e => StatusError (exn_str e) query_time
  end.

End Manager.

(* ===================================================================== *)
(** * The comprehensive analysis (predictive_performance.py) *)
(* ===================================================================== *)

Module Analysis.
Import Statistics Performance.

Inductive PerformanceLevel : Type :=
| EXCELLENT
| GOOD
| AVERAGE
| POOR
| CRITICAL.

(** A dictionary from metric names to numbers, in insertion order. *)
Definition Metrics := list (string * R).

(** [metrics.get(k)] *)
Definition assoc (k : string) (metrics : Metrics) : option R :=
  snd <$> List.find (fun item => String.eqb (fst item) k) metrics.

(** [metrics[k] = v]: the value of an existing key is replaced in place, a
    new key goes to the end. *)
Fixpoint dict_set (k : string) (v : R) (metrics : Metrics) : Metrics :=
  match metrics with
  | [] => [(k, v)]
  | (k', v') :: rest =>
      if String.eqb k' k then (k, v) :: rest
      else (k', v') :: dict_set k v rest
  end.

(** The score of a metric for which lower is better, with its three
    limits. *)
Definition score_low (v a b c : R) : R :=
  if Rle_dec v a then 100
  else if Rle_dec v b then 80
  else if Rle_dec v c then 60
  else 40.

(** The score of a metric for which higher is better. *)
Definition score_high (v a b c : R) : R :=
  if Rge_dec v a then 100
  else if Rge_dec v b then 80
  else if Rge_dec v c then 60
  else 40.

(** The scores that [_calculate_overall_score] appends, in order. *)
Definition metric_scores (metrics : Metrics) : list R :=
  let scores := [] in
  let scores :=
    match assoc "execution_time" metrics with
    | Some exec_time => scores ++ [score_low exec_time 10 30 60]
    | None => scores
    end in
  let scores :=
    match assoc "memory_usage" metrics with
    | Some memory => scores ++ [score_low memory 50 70 85]
    | None => scores
    end in
  let scores :=
    match assoc "cpu_usage" metrics with
    | Some cpu => scores ++ [score_low cpu 50 70 85]
    | None => scores
    end in
  let scores :=
    match assoc "test_success_rate" metrics with
    | Some success_rate => scores ++ [score_high success_rate 95 90 80]
    | None => scores
    end in
  scores.

Definition _calculate_overall_score (metrics : Metrics) : res R :=
  match metrics with
  | [] => Ok 50%R
  | _ :: _ =>
      match metric_scores metrics with
      | [] => Ok 50%R
      | scores => mean scores
      end
  end.

Definition _determine_performance_level (score : R) : PerformanceLevel :=
  if Rge_dec score 90 then EXCELLENT
  else if Rge_dec score 75 then GOOD
  else if Rge_dec score 60 then AVERAGE
  else if Rge_dec score 40 then POOR
  else CRITICAL.

(** [now] is the clock read by the call. *)
Definition _analyze_overall_trend (metrics_history : list PerformanceMetric)
    (now : Z) : res TrendDirection :=
  let recent_time := (now - hours 6)%Z in
  let execution_metrics := select metrics_history "execution_time" recent_time in
  if (3 <=? length execution_metrics)%nat
  then _calculate_trend_direction (value <$> execution_metrics)
  else Ok STABLE.

Record Bottleneck := {
  b_type : string;
  b_metric : string;
  b_current_value : R;
  b_threshold : R;
  b_severity : string;
  b_description : string
}.

(** What one round of the loop of [_identify_bottlenecks] appends. *)
Definition bottleneck_of (metric_name : string) (v : R) : list Bottleneck :=
  match performance_thresholds !! metric_name with
  | None => []
  | Some (warning, critical) =>
      if higher_is_worse metric_name then
        if Rge_dec v critical then
          [{| b_type := "critical_threshold"; b_metric := metric_name;
              b_current_value := v; b_threshold := critical;
              b_severity := "critical";
              b_description := metric_name +:+ " 达到关键阈值" |}]
        else if Rge_dec v warning then
          [{| b_type := "warning_threshold"; b_metric := metric_name;
              b_current_value := v; b_threshold := warning;
              b_severity := "warning";
              b_description := metric_name +:+ " 接近警告阈值" |}]
        else []
      else
        if Rle_dec v critical then
          [{| b_type := "critical_threshold"; b_metric := metric_name;
              b_current_value := v; b_threshold := critical;
              b_severity := "critical";
              b_description := metric_name +:+ " 低于关键阈值" |}]
        else if Rle_dec v warning then
          [{| b_type := "warning_threshold"; b_metric := metric_name;
              b_current_value := v; b_threshold := warning;
              b_severity := "warning";
              b_description := metric_name +:+ " 低于警告阈值" |}]
        else []
  end.

(** The loop over [metrics.items()] appends to [bottlenecks] only. *)
Definition _identify_bottlenecks (metrics : Metrics) : list Bottleneck :=
  List.flat_map (fun item => bottleneck_of (fst item) (snd item)) metrics.

Record Recommendation := {
  r_type : string;
  r_priority : string;
  r_title : string;
  r_description : string;
  r_actions : list string
}.

(** What the loop of [_generate_performance_recommendations] appends for a
    bottleneck. *)
Definition recommendation_of (bottleneck : Bottleneck) : list Recommendation :=
  let metric_name := b_metric bottleneck in
  if String.eqb metric_name "execution_time" then
    [{| r_type := "optimization"; r_priority := "high";
        r_title := "优化测试执行时间";
        r_description := "考虑并行化测试执行或优化测试代码";
        r_actions := ["启用并行测试执行"; "优化慢速测试用例"; "使用测试缓存机制"] |}]
  else if String.eqb metric_name "memory_usage" then
    [{| r_type := "resource"; r_priority := "high";
        r_title := "优化内存使用";
        r_description := "减少内存消耗或增加可用内存";
        r_actions := ["优化数据结构使用"; "实现内存池管理"; "增加系统内存"] |}]
  else if String.eqb metric_name "cpu_usage" then
    [{| r_type := "resource"; r_priority := "medium";
        r_title := "优化CPU使用";
        r_description := "减少CPU密集型操作或增加处理能力";
        r_actions := ["优化算法复杂度"; "使用异步处理"; "增加CPU核心数"] |}]
  else if String.eqb metric_name "test_success_rate" then
    [{| r_type := "quality"; r_priority := "critical";
        r_title := "提高测试成功率";
        r_description := "分析并修复失败的测试用例";
        r_actions := ["分析测试失败原因"; "修复不稳定的测试"; "改进测试环境配置"] |}]
  else [].

Definition general_recommendation : Recommendation :=
  {| r_type := "general"; r_priority := "low";
     r_title := "持续性能监控";
     r_description := "保持当前性能水平并持续监控";
     r_actions := ["定期检查性能指标"; "建立性能基准"; "实施性能回归测试"] |}.

(** The [metrics] argument is not used by the source. *)
Definition _generate_performance_recommendations (metrics : Metrics)
    (bottlenecks : list Bottleneck) : list Recommendation :=
  let recommendations := List.flat_map recommendation_of bottlenecks in
  match recommendations with
  | [] => recommendations ++ [general_recommendation]
  | _ :: _ => recommendations
  end.

(** [history_length] is [len(self.metrics_history)]. *)
Definition _calculate_analysis_confidence (metrics : Metrics)
    (history_length : nat) : R :=
  let base_confidence := 0.5%R in
  let base_confidence :=
    if (4 <=? length metrics)%nat then (base_confidence + 0.3)%R
    else if (2 <=? length metrics)%nat then (base_confidence + 0.2)%R
    else base_confidence in
  let base_confidence :=
    if (100 <=? history_length)%nat then (base_confidence + 0.2)%R
    else if (50 <=? history_length)%nat then (base_confidence + 0.1)%R
    else base_confidence in
  Rmin 1 base_confidence.

Record PredictionSummary := {
  ps_current_value : R;
  ps_trend : text;
  ps_risk_factors : list string
}.

(** The loop of [_generate_predictions_summary] over the given metric names.
    [clocks] gives, for each name, the two clock readings of its call of
    [predict_future_performance]; an exception of that call is logged and
    the name is skipped. *)
Fixpoint predictions_loop (metrics_history : list PerformanceMetric)
    (clocks : string -> Z * Z) (names : list string)
    (predictions_summary : list (string * PredictionSummary))
  : list (string * PredictionSummary) :=
  match names with
  | [] => predictions_summary
  | metric_name :: rest =>
      let '(now, base_time) := clocks metric_name in
      match predict_future_performance metrics_history now base_time
              metric_name 12 with
      | Ok prediction =>
          predictions_loop metrics_history clocks rest
            (predictions_summary
             ++ [(metric_name,
                  {| ps_current_value := current_value prediction;
                     ps_trend := p_trend_analysis prediction;
                     ps_risk_factors := risk_factors prediction |})])
      | Raise _ =>
          predictions_loop metrics_history clocks rest predictions_summary
      end
  end.

Definition _generate_predictions_summary
    (metrics_history : list PerformanceMetric) (clocks : string -> Z * Z)
  : list (string * PredictionSummary) :=
  predictions_loop metrics_history clocks
    ["execution_time"; "memory_usage"; "test_success_rate"] [].

Record PerformanceAnalysis := {
  a_analysis_id : Z;
  a_timestamp : Z;
  a_overall_score : R;
  a_performance_level : PerformanceLevel;
  a_trend_direction : TrendDirection;
  a_key_metrics : Metrics;
  a_bottlenecks : list Bottleneck;
  a_predictions : list (string * PredictionSummary);
  a_recommendations : list Recommendation;
  a_confidence : R
}.

(** The loop that fills [key_metrics]: the mean of the samples of the last
    hour, for each name that has any. *)
Fixpoint key_metrics_loop (metrics_history : list PerformanceMetric)
    (recent_time : Z) (names : list string) (key_metrics : Metrics)
  : res Metrics :=
  match names with
  | [] => Ok key_metrics
  | metric_name :: rest =>
      match select metrics_history metric_name recent_time with
      | [] => key_metrics_loop metrics_history recent_time rest key_metrics
      | recent_metrics =>
          m ← mean (value <$> recent_metrics);
          key_metrics_loop metrics_history recent_time rest
            (dict_set metric_name m key_metrics)
      end
  end.

(** The clock readings of one call of [generate_performance_analysis]. *)
Record Clocks := {
  id_now : Z;
  recent_now : Z;
  trend_now : Z;
  predict_clocks : string -> Z * Z;
  stamp_now : Z
}.

(** Returns the analysis and [self.analysis_history] after the call. *)
Definition generate_performance_analysis
    (metrics_history : list PerformanceMetric)
    (analysis_history : list PerformanceAnalysis) (c : Clocks)
  : res (PerformanceAnalysis * list PerformanceAnalysis) :=
  let analysis_id := id_now c in
  let recent_time := (recent_now c - hours 1)%Z in
  key_metrics ←
    key_metrics_loop metrics_history recent_time
      ["execution_time"; "memory_usage"; "cpu_usage"; "test_success_rate"] [];
  overall_score ← _calculate_overall_score key_metrics;
  let performance_level := _determine_performance_level overall_score in
  trend_direction_ ← _analyze_overall_trend metrics_history (trend_now c);
  let bottlenecks := _identify_bottlenecks key_metrics in
  let predictions :=
    _generate_predictions_summary metrics_history (predict_clocks c) in
  let recommendations :=
    _generate_performance_recommendations key_metrics bottlenecks in
  let confidence :=
    _calculate_analysis_confidence key_metrics (length metrics_history) in
  let analysis :=
    {| a_analysis_id := analysis_id;
       a_timestamp := stamp_now c;
       a_overall_score := overall_score;
       a_performance_level := performance_level;
       a_trend_direction := trend_direction_;
       a_key_metrics := key_metrics;
       a_bottlenecks := bottlenecks;
       a_predictions := predictions;
       a_recommendations := recommendations;
       a_confidence := confidence |} in
  Ok (analysis, analysis_history ++ [analysis]).

(** ** Collecting the metrics *)

(** The entries of the [test_results] dictionary that the collection
    reads; [None] stands for a missing key.  [total_tests] and
    [passed_tests] are counts. *)
Record TestResults := {
  tr_execution_time : option R;
  tr_memory_usage : option R;
  tr_cpu_usage : option R;
  tr_total_tests : option Z;
  tr_passed_tests : option Z;
  tr_response_times : option (list R);
  tr_throughput : option R
}.

(** A metric with the warning and critical levels of its name. *)
Definition metric (metric_name unit : string) (v : R) (now : Z)
  : PerformanceMetric :=
  {| name := metric_name;
     value := v;
     unit_ := unit;
     timestamp := now;
     threshold_warning := fst <$> performance_thresholds !! metric_name;
     threshold_critical := snd <$> performance_thresholds !! metric_name |}.

(** The metrics built by [collect_performance_metrics], before they are
    stored. *)
Definition collected (timestamp : Z) (test_results : TestResults)
  : res (list PerformanceMetric) :=
  let metrics := [] in
  let metrics :=
    match tr_execution_time test_results with
    | Some v => metrics ++ [metric "execution_time" "seconds" v timestamp]
    | None => metrics
    end in
  let metrics :=
    match tr_memory_usage test_results with
    | Some v => metrics ++ [metric "memory_usage" "percentage" v timestamp]
    | None => metrics
    end in
  let metrics :=
    match tr_cpu_usage test_results with
    | Some v => metrics ++ [metric "cpu_usage" "percentage" v timestamp]
    | None => metrics
    end in
  metrics ←
    match tr_total_tests test_results, tr_passed_tests test_results with
    | Some total, Some passed =>
        q ← truediv_int (IZR passed) total;
        let success_rate := (q * 100)%R in
        Ok (metrics ++ [metric "test_success_rate" "percentage" success_rate
                               timestamp])
    | _, _ => Ok metrics
    end;
  metrics ←
    match tr_response_times test_results with
    | Some response_times =>
        avg_response_time ← mean response_times;
        Ok (metrics ++ [metric "response_time" "seconds" avg_response_time
                               timestamp])
    | None => Ok metrics
    end;
  let metrics :=
    match tr_throughput test_results with
    | Some v =>
        metrics ++ [metric "throughput" "requests_per_second" v timestamp]
    | None => metrics
    end in
  Ok metrics.

(** Returns the new metrics and [self.metrics_history] after the call:
    the history is extended and, beyond 10000 entries, cut to its last
    5000. *)
Definition collect_performance_metrics
    (metrics_history : list PerformanceMetric) (timestamp : Z)
    (test_results : TestResults)
  : res (list PerformanceMetric * list PerformanceMetric) :=
  metrics ← collected timestamp test_results;
  let metrics_history := metrics_history ++ metrics in
  let metrics_history :=
    if (10000 <? Z.of_nat (length metrics_history))%Z
    then suffix (Z.to_nat 5000) metrics_history
    else metrics_history in
  Ok (metrics, metrics_history).

(** ** Notions used to state the properties *)

(** Whether a value is on the bad side of a level of its metric. *)
Definition beyond (metric_name : string) (v level : R) : Prop :=
  if higher_is_worse metric_name then (v >= level)%R else (v <= level)%R.

(** The metric of a name when there is a value for it. *)
Definition optional_metric (metric_name unit : string) (v : option R)
    (now : Z) : list PerformanceMetric :=
  match v with
  | Some x => [metric metric_name unit x now]
  | None => []
  end.

(** The names of the metrics that a collection can produce, in the order in
    which it produces them. *)
Definition collected_names : list string :=
  ["execution_time"; "memory_usage"; "cpu_usage"; "test_success_rate";
   "response_time"; "throughput"].

(** The four metrics for which a bottleneck has a recommendation. *)
Definition advised (metric_name : string) : bool :=
  existsb (String.eqb metric_name)
          ["execution_time"; "memory_usage"; "cpu_usage"; "test_success_rate"].

End Analysis.

(* ===================================================================== *)
(** * Sample inputs *)
(* ===================================================================== *)

Module Samples.
Import Executor Performance.

Definition descriptor (module_ kind file : string) : TestInfo :=
  {| ti_module_name := module_;
     ti_module_type := "adapter";
     ti_test_type := kind;
     ti_test_file := ["mcp"; "adapter"; module_; kind +:+ "_tests"; file];
     ti_test_path := "mcp/adapter/" +:+ module_ +:+ "/" +:+ kind
                     +:+ "_tests/" +:+ file |}.

Definition three_tests : list TestInfo :=
  [descriptor "alpha" "unit" "test_alpha.py";
   descriptor "alpha" "integration" "test_alpha_flow.py";
   descriptor "beta" "unit" "test_beta.py"].

Definition exits (code : Z) : RunEnv :=
  {| clock_before := 0;
     sys_executable := "/usr/bin/python3";
     subprocess_run := fun _ _ =>
       Ok {| returncode := code; cp_stdout := "ran"; cp_stderr := "" |};
     clock_after := 1500000 |}.

Definition fails_with (e : exn) : RunEnv :=
  {| clock_before := 0;
     sys_executable := "/usr/bin/python3";
     subprocess_run := fun _ _ => Raise e;
     clock_after := 1500000 |}.

(** The first test passes, the second runs into the timeout, the
    interpreter of the third cannot be started. *)
Definition three_envs (i : nat) : RunEnv :=
  match i with
  | 0 => exits 0
  | 1 => fails_with
           (TimeoutExpired
              "['/usr/bin/python3', '-m', 'unittest', 'mcp.adapter.alpha.integration_tests.test_alpha_flow']"
              300)
  | _ => fails_with (FileNotFoundError "No such file or directory")
  end.

(** The futures complete in the order 2, 0, 1, and the pool itself fails
    on the third task. *)
Definition three_pool : PoolEnv :=
  {| task_env := three_envs;
     worker_failure := fun i =>
       if (i =? 2)%nat then Some (RuntimeError "pool is broken") else None;
     completion_order := [2; 0; 1];
     handler_clock := fun _ => (2000000%Z, 2000001%Z) |}.

Definition result_of (module_ kind st : string) : ExecutionRecord :=
  {| module_name := module_;
     test_type := kind;
     test_file := "test_" +:+ module_ +:+ ".py";
     test_path := "mcp/adapter/" +:+ module_;
     status := st;
     duration := 1;
     start_time := 0;
     end_time := 1000000;
     stdout := "";
     stderr := "";
     return_code := 0 |}.

Definition three_results : list ExecutionRecord :=
  [result_of "alpha" "unit" "PASS";
   result_of "alpha" "integration" "TIMEOUT";
   result_of "beta" "unit" "PASS"].

(** An installation in which discovery finds nothing. *)
Definition empty_world : World :=
  {| discovered := [];
     execution_start_time := 0;
     runner_env := three_envs;
     pool_env := three_pool;
     report_clock := 3000000;
     id_clock := 3000000;
     save_outcome := Ok "test/mcp_comprehensive_test_report.json" |}.

Definition default_args : Args :=
  {| sequential := false; workers := 4; project_root := "/opt/powerautomation" |}.

(** The instant of the analysis, and a history of samples of one metric,
    all taken one hour before it. *)
Definition now : Z := hours 1000.

Definition sample (v : R) : PerformanceMetric :=
  {| name := "execution_time";
     value := v;
     unit_ := "seconds";
     timestamp := (now - hours 1)%Z;
     threshold_warning := Some 30%R;
     threshold_critical := Some 60%R |}.

Definition history_of (values : list R) : list PerformanceMetric :=
  sample <$> values.

(** Nine samples of value 10 and one of value 1000. *)
Definition spike : list R := replicate 9 10%R ++ [1000%R].

(** Ten samples rising by one each. *)
Definition ramp : list R :=
  [10; 11; 12; 13; 14; 15; 16; 17; 18; 19]%R.

End Samples.

(** Further inputs: a run in which the pool itself does not fail, two
    project trees and the results of one test run. *)
Module Scenarios.
Import Executor Performance Discovery Analysis.

Definition quiet_pool : PoolEnv :=
  {| task_env := Samples.three_envs;
     worker_failure := fun _ => None;
     completion_order := [2; 0; 1];
     handler_clock := fun _ => (2000000%Z, 2000001%Z) |}.

(** An installation in which discovery finds the three tests. *)
Definition three_world : World :=
  {| discovered := Samples.three_tests;
     execution_start_time := 0;
     runner_env := Samples.three_envs;
     pool_env := quiet_pool;
     report_clock := 3000000;
     id_clock := 3000000;
     save_outcome := Ok "test/mcp_comprehensive_test_report.json" |}.

Definition root_path : Path := ["opt"; "powerautomation"].

(** A project with one adapter module and one workflow module; beside
    them a hidden directory, a regular file and a file that is no test. *)
Definition project : node :=
  Dir "powerautomation"
    [Dir "mcp"
       [Dir "adapter"
          [Dir "alpha"
             [Dir "unit_tests" [File "test_alpha.py"; File "helper.py"];
              Dir "integration_tests" [File "test_alpha_flow.py"]];
           Dir ".cache" [Dir "unit_tests" [File "test_hidden.py"]];
           File "README.md"];
        Dir "workflow"
          [Dir "beta" [Dir "unit_tests" [File "test_beta.py"]]]]].

(** A project without the directory [mcp]. *)
Definition bare_project : node :=
  Dir "powerautomation" [Dir "docs" [File "index.md"]].

(** The results of one run: nine of ten tests passed; CPU usage and
    throughput were not measured. *)
Definition one_run : TestResults :=
  {| tr_execution_time := Some 12%R;
     tr_memory_usage := Some 40%R;
     tr_cpu_usage := None;
     tr_total_tests := Some 10%Z;
     tr_passed_tests := Some 9%Z;
     tr_response_times := Some [1; 3]%R;
     tr_throughput := None |}.

End Scenarios.

(* ===================================================================== *)
(** * Properties of the runner and the schedulers *)
(* ===================================================================== *)

Section RunnerFacts.
Import Executor.

(** Whatever the subprocess does, the runner hands back a record that
    carries the descriptor's key. *)
Lemma execute_single_test_returns (env : RunEnv) (t : TestInfo) :
  ∃ r, execute_single_test env t = Ok r ∧ record_key r = test_key t
       ∧ valid_status (status r).
Proof.
  unfold execute_single_test, try_except, valid_status.
  destruct (subprocess_run env (command env t) 300) as [cp | e]; simpl.
  - eexists; split; [reflexivity | split; [reflexivity |]]; simpl.
    destruct (returncode cp =? 0)%Z; auto.
  - destruct e; eexists; (split; [reflexivity | split; [reflexivity |]]);
      simpl; auto.
Qed.

(** C2: the runner always returns exactly one record and lets no exception
    through; exit code 0 gives PASS, any other exit code FAIL, the expiry
    of the timeout gives TIMEOUT with the 300-second ceiling as duration,
    and every other exception of the launch or the run gives ERROR with
    duration 0. *)
Theorem C2_execute_single_test_total (env : RunEnv) (t : TestInfo) :
  ∃ r, execute_single_test env t = Ok r
       ∧ record_key r = test_key t
       ∧ match subprocess_run env (command env t) 300 with
         | Ok cp =>
             status r = (if (returncode cp =? 0)%Z then "PASS" else "FAIL")
             ∧ return_code r = returncode cp
             ∧ duration r = total_seconds (clock_after env) (clock_before env)
         | Raise (TimeoutExpired _ _) =>
             status r = "TIMEOUT" ∧ duration r = 300%R
         | Raise e =>
             status r = "ERROR" ∧ duration r = 0%R ∧ stderr r = exn_str e
         end.
Proof.
  unfold execute_single_test, try_except.
  destruct (subprocess_run env (command env t) 300) as [cp | e]; simpl.
  - eexists; repeat split.
  - destruct e; eexists; repeat split.
Qed.

Lemma sequential_loop_spec (envs : nat → RunEnv) (tests : list TestInfo) :
  ∀ i results,
    ∃ rs, sequential_loop envs i results tests = Ok (results ++ rs)
          ∧ length rs = length tests
          ∧ record_key <$> rs = test_key <$> tests
          ∧ Forall (λ r, valid_status (status r)) rs.
Proof.
  induction tests as [| t tests IH]; intros i results; simpl.
  - exists []. rewrite app_nil_r. auto.
  - destruct (execute_single_test_returns (envs i) t) as (r & -> & Hk & Hv).
    simpl. destruct (IH (S i) (results ++ [r])) as (rs & -> & Hl & Hks & Hvs).
    exists (r :: rs). rewrite <- app_assoc.
    split; [reflexivity |]. split; [simpl; lia |].
    split; [| by constructor].
    change (record_key r :: (record_key <$> rs) = test_key t :: (test_key <$> tests)).
    congruence.
Qed.

Lemma resolves_key pe tests i r t :
  tests !! i = Some t → resolves pe tests i r → record_key r = test_key t.
Proof.
  intros Ht (t' & Ht' & Hr). rewrite Ht in Ht'. injection Ht' as <-.
  unfold future_result in Hr.
  destruct (worker_failure pe i) as [e |]; [by subst r |].
  destruct (execute_single_test_returns (task_env pe i) t) as (r' & He & Hk & _).
  rewrite He in Hr. by subst r.
Qed.

Lemma resolves_valid pe tests i r :
  resolves pe tests i r → valid_status (status r).
Proof.
  intros (t & Ht & Hr). unfold future_result in Hr.
  destruct (worker_failure pe i) as [e |].
  - subst r. unfold valid_status; simpl; auto.
  - destruct (execute_single_test_returns (task_env pe i) t) as (r' & He & _ & Hv).
    rewrite He in Hr. by subst r.
Qed.

(** The collecting loop appends one record per future that it is given. *)
Lemma for_each_collect pe (tests : list TestInfo) (order : list nat) :
  Forall (λ i, i < length tests) order →
  ∀ results,
    ∃ rs, for_each (collect pe tests) results order = Ok (results ++ rs)
          ∧ Forall2 (resolves pe tests) order rs.
Proof.
  induction order as [| i order IH]; intros Hin results; simpl.
  - exists []. rewrite app_nil_r. split; [reflexivity | constructor].
  - apply Forall_cons in Hin as [Hi Hin].
    destruct (lookup_lt_is_Some_2 tests i Hi) as [t Ht].
    assert (∃ r, collect pe tests results i = Ok (results ++ [r])
                 ∧ resolves pe tests i r) as (r & Hc & Hr).
    { unfold collect, resolves. rewrite Ht. unfold try_except.
      destruct (future_result pe i t) as [r | e] eqn:Hf; simpl.
      - exists r. split; [reflexivity |]. exists t. by rewrite Hf.
      - eexists. split; [reflexivity |]. exists t. by rewrite Hf. }
    rewrite Hc. simpl.
    destruct (IH Hin (results ++ [r])) as (rs & -> & Hrs).
    exists (r :: rs). rewrite <- app_assoc. split; [reflexivity |].
    by constructor.
Qed.

(** Reading the descriptors by position, along all positions in order,
    gives the descriptors back. *)
Lemma lookup_all_positions {A B} (f : A → B) (d : B) (l : list A) :
  (λ i, from_option f d (l !! i)) <$> seq 0 (length l) = f <$> l.
Proof.
  apply list_eq. intros i. rewrite !list_lookup_fmap.
  destruct (decide (i < length l)) as [Hlt | Hge].
  - rewrite lookup_seq_lt by done. simpl.
    destruct (lookup_lt_is_Some_2 l i Hlt) as [a Ha]. by rewrite Ha.
  - rewrite lookup_seq_ge by lia. rewrite lookup_ge_None_2 by lia. done.
Qed.

Lemma resolved_keys pe tests order rs :
  Forall2 (resolves pe tests) order rs →
  record_key <$> rs
  = (λ i, from_option test_key (""%string, ""%string, ""%string, ""%string)
                      (tests !! i)) <$> order.
Proof.
  induction 1 as [| i r order rs Hr _ IH]; [reflexivity |].
  rewrite !fmap_cons, IH. f_equal.
  destruct Hr as (t & Ht & Hr). rewrite Ht. simpl.
  eapply resolves_key; [exact Ht |]. exists t. by split.
Qed.

(** C1: both schedulers return exactly one record per descriptor.  The
    sequential one keeps the order of the descriptors; the parallel one
    (any worker count from 1 up) returns the records in the order in which
    [as_completed] yields the futures, each submitted future once.  The
    record of a future that returns is the record it returns; a future
    that raises is not lost: its record names the module, test type, file
    and path of its descriptor and has status ERROR, return code -3,
    duration 0, no output, the text of the exception after
    [Execution error: ] as error output, and as start and end time the two
    clock readings of the handler. *)
Theorem C1_schedulers_complete (pe : PoolEnv) (envs : nat → RunEnv)
    (tests : list TestInfo) (max_workers : Z) :
  (1 ≤ max_workers)%Z →
  completion_order pe ≡ₚ seq 0 (length tests) →
  (∃ rs, execute_tests_sequential envs tests = Ok rs
         ∧ length rs = length tests
         ∧ record_key <$> rs = test_key <$> tests)
  ∧ (∃ rs, execute_tests_parallel pe tests max_workers = Ok rs
           ∧ length rs = length tests
           ∧ record_key <$> rs ≡ₚ test_key <$> tests
           ∧ Forall2 (resolves pe tests) (completion_order pe) rs
           ∧ Forall2
               (λ i r,
                  ∃ t, tests !! i = Some t
                       ∧ match future_result pe i t with
                         | Ok r' => r = r'
                         | Raise e =>
                             module_name r = ti_module_name t
                             ∧ test_type r = ti_test_type t
                             ∧ test_file r = name (ti_test_file t)
                             ∧ test_path r = ti_test_path t
                             ∧ status r = "ERROR"
                             ∧ return_code r = (-3)%Z
                             ∧ duration r = 0%R
                             ∧ stdout r = ""
                             ∧ stderr r = "Execution error: " +:+ exn_str e
                             ∧ start_time r = fst (handler_clock pe i)
                             ∧ end_time r = snd (handler_clock pe i)
                         end)
               (completion_order pe) rs).
Proof.
  intros Hw Hperm. split.
  - unfold execute_tests_sequential.
    destruct (sequential_loop_spec envs tests 0 []) as (rs & -> & Hl & Hk & _).
    exists rs. auto.
  - unfold execute_tests_parallel.
    destruct (Z.leb_spec max_workers 0) as [Hle | _]; [lia |].
    assert (Forall (λ i, i < length tests) (completion_order pe)) as Hin.
    { rewrite Hperm. apply Forall_forall. intros i Hi.
      apply elem_of_seq in Hi. lia. }
    destruct (for_each_collect pe tests _ Hin []) as (rs & -> & Hrs).
    exists rs. split; [reflexivity |].
    split; [| split; [| split; [exact Hrs |]]].
    + apply Forall2_length in Hrs. rewrite <- Hrs, Hperm. apply length_seq.
    + rewrite (resolved_keys _ _ _ _ Hrs), Hperm.
      by rewrite lookup_all_positions.
    + eapply Forall2_impl; [exact Hrs |].
      intros i r (t & Ht & Hr). exists t. split; [exact Ht |].
      destruct (future_result pe i t) as [r' | e]; [exact Hr |].
      subst r. repeat split.
Qed.

(** The records that the schedulers hand to the report carry one of the
    four statuses. *)
Lemma scheduler_statuses_valid (pe : PoolEnv) (envs : nat → RunEnv)
    (tests : list TestInfo) (max_workers : Z) (rs : list ExecutionRecord) :
  completion_order pe ≡ₚ seq 0 (length tests) →
  execute_tests_sequential envs tests = Ok rs
  ∨ execute_tests_parallel pe tests max_workers = Ok rs →
  Forall (λ r, valid_status (status r)) rs.
Proof.
  intros Hperm [Hs | Hp].
  - unfold execute_tests_sequential in Hs.
    destruct (sequential_loop_spec envs tests 0 []) as (rs' & Hrs & _ & _ & Hv).
    rewrite Hrs in Hs. injection Hs as <-. exact Hv.
  - unfold execute_tests_parallel in Hp.
    destruct (max_workers <=? 0)%Z; [discriminate |].
    assert (Forall (λ i, i < length tests) (completion_order pe)) as Hin.
    { rewrite Hperm. apply Forall_forall. intros i Hi.
      apply elem_of_seq in Hi. lia. }
    destruct (for_each_collect pe tests _ Hin []) as (rs' & Hrs & Hres).
    rewrite Hrs in Hp. injection Hp as <-.
    clear -Hres. induction Hres as [| i r order rs' Hr _ IH]; constructor;
      [by eapply resolves_valid | exact IH].
Qed.

(** The module path handed to [unittest]. *)
Example command_of_descriptor :
  command (Samples.exits 0) (Samples.descriptor "alpha" "unit" "test_alpha.py")
  = ["/usr/bin/python3"; "-m"; "unittest";
     "mcp.adapter.alpha.unit_tests.test_alpha"]%string.
Proof. reflexivity. Qed.

Lemma C1_schedulers_complete_witness :
  (1 ≤ 4)%Z
  ∧ completion_order Samples.three_pool
    ≡ₚ seq 0 (length Samples.three_tests)
  ∧ (∃ rs, execute_tests_sequential Samples.three_envs Samples.three_tests
           = Ok rs
           ∧ length rs = 3)
  ∧ (∃ rs, execute_tests_parallel Samples.three_pool Samples.three_tests 4
           = Ok rs
           ∧ length rs = 3
           ∧ record_key <$> rs ≡ₚ test_key <$> Samples.three_tests
           ∧ ∃ r, rs !! 0 = Some r
                  ∧ module_name r = "beta"%string
                  ∧ status r = "ERROR"%string
                  ∧ return_code r = (-3)%Z
                  ∧ stderr r = "Execution error: pool is broken"%string).
Proof.
  assert (completion_order Samples.three_pool
          ≡ₚ seq 0 (length Samples.three_tests)) as Hperm.
  { simpl. apply perm_trans with [0; 2; 1].
    - apply perm_swap.
    - apply perm_skip, perm_swap. }
  split; [lia |]. split; [exact Hperm |].
  destruct (C1_schedulers_complete Samples.three_pool Samples.three_envs
              Samples.three_tests 4 ltac:(lia) Hperm)
    as [(rs & Hs & Hl & _) (rp & Hp & Hlp & Hk & _ & Herr)].
  split; [exists rs; auto |].
  exists rp. split; [exact Hp |]. split; [exact Hlp |].
  split; [exact Hk |].
  apply Forall2_cons_inv_l in Herr as (r & rest & (t & Ht & Hr) & _ & ->).
  injection Ht as <-.
  destruct Hr as (Hm & _ & _ & _ & Hst & Hrc & _ & _ & Herr & _).
  exists r. split; [reflexivity |]. auto.
Defined.

End RunnerFacts.

(* ===================================================================== *)
(** * Properties of the report *)
(* ===================================================================== *)

Section ReportFacts.
Import Executor.

Lemma bump_total (st : string) (s : Stats) :
  total (bump st s) = total s + 1.
Proof.
  unfold bump.
  repeat (match goal with |- context [String.eqb ?a ?b] =>
                            destruct (String.eqb a b) end);
    reflexivity.
Qed.

Lemma bump_balanced (st : string) (s : Stats) :
  valid_status st → balanced s → balanced (bump st s).
Proof.
  unfold valid_status, balanced, bump.
  intros [-> | [-> | [-> | ->]]] Hs; simpl; lia.
Qed.

(** Adding totals is insensitive to the order in which a dictionary is
    walked. *)
Lemma add_total_comm (z1 z2 : Stats) (y : nat) :
  total z1 + (total z2 + y) = total z2 + (total z1 + y).
Proof. lia. Qed.

Lemma sum_totals_insert (k : string) (s : Stats) (m : gmap string Stats) :
  sum_totals (<[k := s]> m) = total s + sum_totals (delete k m).
Proof.
  unfold sum_totals. rewrite <- insert_delete_eq.
  rewrite map_fold_insert_L; [reflexivity | | apply lookup_delete_eq].
  intros. apply add_total_comm.
Qed.

Lemma sum_totals_lookup (k : string) (s : Stats) (m : gmap string Stats) :
  m !! k = Some s → sum_totals m = total s + sum_totals (delete k m).
Proof.
  intros Hk. unfold sum_totals.
  apply (map_fold_delete_L (λ _ s acc, total s + acc)); [| exact Hk].
  intros. apply add_total_comm.
Qed.

Lemma sum_totals_fresh (k : string) (m : gmap string Stats) :
  m !! k = None → sum_totals (delete k m) = sum_totals m.
Proof. intros Hk. by rewrite delete_id. Qed.

(** Counting one record raises the sum of the totals by one. *)
Lemma sum_totals_count_into (k st : string) (m : gmap string Stats) :
  sum_totals (count_into k st m) = S (sum_totals m).
Proof.
  unfold count_into. destruct (m !! k) as [s |] eqn:Hk.
  - rewrite Hk, sum_totals_insert, (sum_totals_lookup k s m Hk), bump_total.
    lia.
  - rewrite lookup_insert_eq, insert_insert_eq, sum_totals_insert,
      bump_total, (sum_totals_fresh k m Hk).
    simpl. lia.
Qed.

Lemma count_into_balanced (k st : string) (m : gmap string Stats) :
  valid_status st →
  map_Forall (λ _ s, balanced s) m →
  map_Forall (λ _ s, balanced s) (count_into k st m).
Proof.
  intros Hst Hm. unfold count_into. destruct (m !! k) as [s |] eqn:Hk.
  - rewrite Hk. apply map_Forall_insert_2; [| exact Hm].
    apply bump_balanced; [exact Hst | exact (Hm k s Hk)].
  - rewrite lookup_insert_eq, insert_insert_eq.
    apply map_Forall_insert_2; [| exact Hm].
    apply bump_balanced; [exact Hst | reflexivity].
Qed.

Lemma grouping_totals (key : ExecutionRecord → string)
    (rs : list ExecutionRecord) :
  ∀ m, sum_totals
         (foldl (λ stats r, count_into (key r) (status r) stats) m rs)
       = sum_totals m + length rs.
Proof.
  induction rs as [| r rs IH]; intros m; simpl; [lia |].
  rewrite IH, sum_totals_count_into. lia.
Qed.

Lemma group_by_totals (key : ExecutionRecord → string)
    (rs : list ExecutionRecord) :
  sum_totals (group_by key rs) = length rs.
Proof.
  unfold group_by. rewrite grouping_totals.
  unfold sum_totals. by rewrite map_fold_empty.
Qed.

Lemma grouping_balanced (key : ExecutionRecord → string)
    (rs : list ExecutionRecord) :
  Forall (λ r, valid_status (status r)) rs →
  ∀ m, map_Forall (λ _ s, balanced s) m →
       map_Forall (λ _ s, balanced s)
         (foldl (λ stats r, count_into (key r) (status r) stats) m rs).
Proof.
  induction 1 as [| r rs Hr _ IH]; intros m Hm; simpl; [exact Hm |].
  apply IH. by apply count_into_balanced.
Qed.

Lemma group_by_balanced (key : ExecutionRecord → string)
    (rs : list ExecutionRecord) :
  Forall (λ r, valid_status (status r)) rs →
  map_Forall (λ _ s, balanced s) (group_by key rs).
Proof.
  intros Hrs. unfold group_by. apply grouping_balanced; [exact Hrs |].
  apply map_Forall_empty.
Qed.

(** The four status counts of the summary split the records. *)
Lemma count_status_partition (rs : list ExecutionRecord) :
  Forall (λ r, valid_status (status r)) rs →
  count_status "PASS" rs + count_status "FAIL" rs
  + count_status "TIMEOUT" rs + count_status "ERROR" rs = length rs.
Proof.
  unfold count_status.
  induction 1 as [| r rs Hr _ IH]; [reflexivity |].
  simpl. destruct Hr as [-> | [-> | [-> | ->]]]; simpl; lia.
Qed.

(** The report is always produced: the only division is guarded. *)
Lemma generate_comprehensive_report_returns (t0 now idc : Z)
    (rs : list ExecutionRecord) :
  ∃ rep, generate_comprehensive_report t0 now idc rs = Ok rep
         ∧ detailed_results rep = rs
         ∧ module_statistics rep = group_by module_name rs
         ∧ type_statistics rep = group_by test_type rs
         ∧ total_tests (execution_summary rep) = length rs
         ∧ passed_tests (execution_summary rep) = count_status "PASS" rs
         ∧ failed_tests (execution_summary rep) = count_status "FAIL" rs
         ∧ timeout_tests (execution_summary rep) = count_status "TIMEOUT" rs
         ∧ error_tests (execution_summary rep) = count_status "ERROR" rs
         ∧ success_rate (execution_summary rep)
           = match length rs with
             | O => 0%R
             | S _ => (INR (count_status "PASS" rs) / INR (length rs) * 100)%R
             end.
Proof.
  unfold generate_comprehensive_report, truediv_int.
  destruct rs as [| r rs'].
  - simpl. eexists. repeat split.
  - set (rs := r :: rs').
    assert (length rs = S (length rs')) as Hlen by reflexivity.
    replace (0 <? length rs)%nat with true
      by (symmetry; apply Nat.ltb_lt; lia).
    replace (Z.of_nat (length rs) =? 0)%Z with false
      by (symmetry; apply Z.eqb_neq; lia).
    simpl mbind. eexists. repeat split.
    rewrite Hlen at 1. simpl. by rewrite <- INR_IZR_INZ.
Qed.

(** C3: in every generated report the per-module totals add up to
    [total_tests], which is the number of detailed results, and so do the
    per-type totals; in every group and in the summary the passed, failed,
    timeout and error counts add up to the total.  The records are
    ExecutionRecords: their status is one of the four. *)
Theorem C3_report_consistency (t0 now idc : Z) (rs : list ExecutionRecord) :
  Forall (λ r, valid_status (status r)) rs →
  ∃ rep, generate_comprehensive_report t0 now idc rs = Ok rep
         ∧ sum_totals (module_statistics rep)
           = total_tests (execution_summary rep)
         ∧ total_tests (execution_summary rep)
           = length (detailed_results rep)
         ∧ sum_totals (type_statistics rep)
           = total_tests (execution_summary rep)
         ∧ map_Forall (λ _ s, balanced s) (module_statistics rep)
         ∧ map_Forall (λ _ s, balanced s) (type_statistics rep)
         ∧ passed_tests (execution_summary rep)
           + failed_tests (execution_summary rep)
           + timeout_tests (execution_summary rep)
           + error_tests (execution_summary rep)
           = total_tests (execution_summary rep).
Proof.
  intros Hrs.
  destruct (generate_comprehensive_report_returns t0 now idc rs)
    as (rep & Hrep & Hd & Hm & Ht & Hn & Hp & Hf & Hto & He & _).
  exists rep. split; [exact Hrep |].
  rewrite Hm, Ht, Hn, Hd, Hp, Hf, Hto, He, !group_by_totals.
  repeat split; auto using group_by_balanced, count_status_partition.
Qed.

(** The comprehension that counts a status, as a filter of the records. *)
Lemma count_status_filter (st : string) (rs : list ExecutionRecord) :
  count_status st rs = length (filter (λ r, status r = st) rs).
Proof.
  unfold count_status. induction rs as [| r rs IH]; [reflexivity |].
  rewrite filter_cons. simpl List.filter.
  destruct (String.eqb_spec (status r) st) as [Heq | Hne];
    destruct (decide (status r = st)) as [Hd | Hd]; try contradiction;
    simpl; by rewrite IH.
Qed.

(** C4: producing the report never raises.  Its total is the number of the
    records and its passed count the number of the records with status
    PASS; its success rate is 0 when there is no record, and otherwise
    100 × (number of records with status PASS) / (number of records), which
    is 100 × passed / total on the report's own counters. *)
Theorem C4_success_rate (t0 now idc : Z) (rs : list ExecutionRecord) :
  ∃ rep, generate_comprehensive_report t0 now idc rs = Ok rep
         ∧ total_tests (execution_summary rep) = length rs
         ∧ passed_tests (execution_summary rep)
           = length (filter (λ r, status r = "PASS"%string) rs)
         ∧ match rs with
           | [] => success_rate (execution_summary rep) = 0%R
           | _ :: _ =>
               success_rate (execution_summary rep)
               = (100 * INR (length (filter (λ r, status r = "PASS"%string)
                                       rs))
                  / INR (length rs))%R
           end
         ∧ match total_tests (execution_summary rep) with
           | O => success_rate (execution_summary rep) = 0%R
           | S _ =>
               success_rate (execution_summary rep)
               = (100 * INR (passed_tests (execution_summary rep))
                  / INR (total_tests (execution_summary rep)))%R
           end.
Proof.
  destruct (generate_comprehensive_report_returns t0 now idc rs)
    as (rep & Hrep & _ & _ & _ & Hn & Hp & _ & _ & _ & Hs).
  exists rep. split; [exact Hrep |]. split; [exact Hn |].
  rewrite Hn, Hp, Hs, <- count_status_filter.
  split; [reflexivity |]. split.
  - destruct rs as [| r rs']; [reflexivity |].
    change (length (r :: rs')) with (S (length rs')) at 1. cbv iota.
    field. apply not_0_INR. simpl. lia.
  - destruct (length rs) as [| n] eqn:Hlen; [reflexivity |].
    field. apply not_0_INR. lia.
Qed.

(** C10: when discovery finds no descriptor, [run_all_tests] returns
    [False] without generating or saving a report, and the command line
    entry point ends with exit status 1. *)
Theorem C10_no_tests_is_failure (w : World) (parallel : bool)
    (max_workers : Z) (args : Args) :
  discover_all_tests w = [] →
  run_all_tests w parallel max_workers = (Ok false, [])
  ∧ main w args = (1%Z, []).
Proof.
  intros Hd. unfold main, run_all_tests. rewrite Hd. split; reflexivity.
Qed.

(** The two groupings of the three sample records. *)
Example module_statistics_of_three :
  group_by module_name Samples.three_results !! "alpha"%string
  = Some {| total := 2; passed := 1; failed := 0; timeout := 1; error := 0 |}
  ∧ group_by module_name Samples.three_results !! "beta"%string
    = Some {| total := 1; passed := 1; failed := 0; timeout := 0; error := 0 |}
  ∧ group_by test_type Samples.three_results !! "unit"%string
    = Some {| total := 2; passed := 2; failed := 0; timeout := 0; error := 0 |}.
Proof. repeat split; reflexivity. Qed.

Lemma C3_report_consistency_witness :
  Forall (λ r, valid_status (status r)) Samples.three_results
  ∧ ∃ rep, generate_comprehensive_report 0 3000000 3000000
             Samples.three_results = Ok rep
           ∧ sum_totals (module_statistics rep) = 3
           ∧ sum_totals (type_statistics rep) = 3
           ∧ length (detailed_results rep) = 3.
Proof.
  assert (Forall (λ r, valid_status (status r)) Samples.three_results)
    as Hvalid.
  { unfold Samples.three_results.
    repeat (apply List.Forall_cons; [unfold valid_status; simpl; auto |]).
    apply List.Forall_nil. }
  split; [exact Hvalid |].
  destruct (C3_report_consistency 0 3000000 3000000 Samples.three_results
              Hvalid) as (rep & Hrep & Hm & Hd & Ht & _).
  exists rep. split; [exact Hrep |].
  assert (total_tests (execution_summary rep) = 3) as Hn.
  { destruct (generate_comprehensive_report_returns 0 3000000 3000000
                Samples.three_results) as (rep' & Hrep' & _ & _ & _ & Hn & _).
    rewrite Hrep in Hrep'. injection Hrep' as <-. exact Hn. }
  rewrite Hm, Ht, <- Hd, Hn. auto.
Defined.

Lemma C10_no_tests_is_failure_witness :
  discover_all_tests Samples.empty_world = []
  ∧ run_all_tests Samples.empty_world true 4 = (Ok false, [])
  ∧ main Samples.empty_world Samples.default_args = (1%Z, []).
Proof.
  split; [reflexivity |].
  apply (C10_no_tests_is_failure Samples.empty_world true 4
           Samples.default_args).
  reflexivity.
Defined.

End ReportFacts.

(* ===================================================================== *)
(** * Properties of the statistics *)
(* ===================================================================== *)

Section StatisticsFacts.
Import Statistics.
Local Open Scope R_scope.

Lemma mean_returns (data : list R) :
  data ≠ [] → mean data = Ok (sum data / INR (length data)).
Proof. destruct data; [congruence | reflexivity]. Qed.

Lemma stdev_returns (data : list R) :
  (2 ≤ length data)%nat →
  stdev data = Ok (sqrt (ss data / (INR (length data) - 1))).
Proof.
  intros Hn. unfold stdev.
  destruct (Nat.ltb_spec (length data) 2); [lia | reflexivity].
Qed.

Lemma length_insert_sorted (x : R) (l : list R) :
  length (insert_sorted x l) = S (length l).
Proof.
  induction l as [| y l IH]; simpl; [reflexivity |].
  destruct (Rle_dec x y); simpl; congruence.
Qed.

Lemma length_sorted (data : list R) : length (sorted data) = length data.
Proof.
  induction data as [| x data IH]; simpl; [reflexivity |].
  unfold sorted in *. rewrite length_insert_sorted. congruence.
Qed.

Lemma median_returns (data : list R) :
  data ≠ [] → ∃ v, median data = Ok v.
Proof.
  intros Hne. unfold median. rewrite length_sorted.
  destruct data as [| x data]; [congruence |]. simpl length.
  destruct (Nat.eqb_spec (S (length data)) 0); [lia |].
  destruct (_ =? 1)%nat; eauto.
Qed.

Lemma min_returns (data : list R) : data ≠ [] → ∃ v, min data = Ok v.
Proof. destruct data; [congruence | simpl; eauto]. Qed.

Lemma max_returns (data : list R) : data ≠ [] → ∃ v, max data = Ok v.
Proof. destruct data; [congruence | simpl; eauto]. Qed.

Lemma sum_app (l1 l2 : list R) : sum (l1 ++ l2) = sum l1 + sum l2.
Proof.
  unfold sum. induction l1 as [| x l1 IH]; simpl; [lra |]. rewrite IH. lra.
Qed.

Lemma isum_app (l1 l2 : list Z) : isum (l1 ++ l2) = (isum l1 + isum l2)%Z.
Proof.
  unfold isum. induction l1 as [| x l1 IH]; simpl; [lia |]. rewrite IH. lia.
Qed.

Lemma range_S (n : nat) : range (S n) = range n ++ [Z.of_nat n].
Proof. unfold range. rewrite seq_S, fmap_app. reflexivity. Qed.

Lemma length_range (n : nat) : length (range n) = n.
Proof. unfold range. by rewrite length_fmap, length_seq. Qed.

(** [0 + 1 + ... + (n-1)] *)
Lemma isum_range (n : nat) :
  (2 * isum (range n) = Z.of_nat n * (Z.of_nat n - 1))%Z.
Proof.
  induction n as [| n IH]; [reflexivity |].
  rewrite range_S, isum_app. simpl isum. lia.
Qed.

(** [0² + 1² + ... + (n-1)²] *)
Lemma sum_squares_range (n : nat) :
  (6 * isum ((λ xi, xi ^ 2) <$> range n)
   = (Z.of_nat n - 1) * Z.of_nat n * (2 * Z.of_nat n - 1))%Z.
Proof.
  induction n as [| n IH]; [reflexivity |].
  rewrite range_S, fmap_app, isum_app. simpl isum. lia.
Qed.

(** The denominator of the regression over the indices [0 .. n-1]. *)
Lemma regression_denominator (n : nat) :
  let x := range n in
  (12 * (Z.of_nat n * isum ((λ xi, xi ^ 2) <$> x) - isum x ^ 2)
   = Z.of_nat n ^ 2 * (Z.of_nat n - 1) * (Z.of_nat n + 1))%Z.
Proof.
  intros x. subst x.
  pose proof (isum_range n) as H1. pose proof (sum_squares_range n) as H2.
  nia.
Qed.

Lemma regression_denominator_pos (n : nat) :
  (2 ≤ n)%nat →
  (0 < Z.of_nat n * isum ((λ xi, xi ^ 2) <$> range n) - isum (range n) ^ 2)%Z.
Proof.
  intros Hn. pose proof (regression_denominator n) as H. simpl in H.
  assert (0 < Z.of_nat n ^ 2 * (Z.of_nat n - 1) * (Z.of_nat n + 1))%Z by nia.
  lia.
Qed.

End StatisticsFacts.

(* ===================================================================== *)
(** * Properties of the trend analysis *)
(* ===================================================================== *)

Section TrendFacts.
Import Statistics Performance.
Local Open Scope R_scope.

Lemma mean_Ok (values : list R) :
  values ≠ [] → mean values = Ok (mean_of values).
Proof. apply mean_returns. Qed.

Lemma stdev_Ok (values : list R) :
  (2 ≤ length values)%nat → stdev values = Ok (stdev_of values).
Proof. apply stdev_returns. Qed.

Lemma coefficient_of_variation_Ok (values : list R) :
  coefficient_of_variation (stdev_of values) (mean_of values)
  = Ok (cv_of values).
Proof.
  unfold coefficient_of_variation, cv_of, truediv.
  destruct (Req_dec_T (mean_of values) 0); reflexivity.
Qed.

Lemma sum_xy_Ok (x : list Z) :
  ∀ y, (length x ≤ length y)%nat → sum_xy x y = Ok (dot x y).
Proof.
  induction x as [| xi x IH]; intros y Hlen; [reflexivity |].
  destruct y as [| yi y]; simpl in Hlen; [lia |].
  simpl. rewrite IH by lia. reflexivity.
Qed.

Lemma nonempty_of_length {A} (l : list A) (n : nat) :
  (S n ≤ length l)%nat → l ≠ [].
Proof. destruct l; simpl; [lia | congruence]. Qed.

(** From three samples on, the trend is the classification of the
    window's coefficient of variation and regression slope. *)
Lemma trend_direction_classifies (values : list R) :
  (3 ≤ length values)%nat →
  _calculate_trend_direction values
  = Ok (classify (cv_of values)
                 (regression_slope (range (length values)) values)).
Proof.
  intros Hn. unfold _calculate_trend_direction.
  destruct (Nat.ltb_spec (length values) 3) as [| _]; [lia |].
  rewrite sum_xy_Ok by (rewrite length_range; lia). simpl mbind.
  unfold truediv_int.
  pose proof (regression_denominator_pos (length values)) as Hpos.
  unfold sum_x2.
  destruct (Z.eqb_spec
              (Z.of_nat (length values)
               * isum ((λ xi, xi ^ 2)%Z <$> range (length values))
               - isum (range (length values)) ^ 2) 0) as [Hz | _];
    [lia |].
  simpl mbind. rewrite mean_Ok by (eapply nonempty_of_length; eassumption).
  simpl mbind.
  destruct (Nat.ltb_spec 1 (length values)) as [_ |]; [| lia].
  rewrite stdev_Ok by lia. simpl mbind.
  rewrite coefficient_of_variation_Ok. simpl mbind.
  unfold classify, regression_slope, sum_x2. rewrite length_range.
  repeat match goal with |- context [if ?c then _ else _] => destruct c end;
    reflexivity.
Qed.

Lemma trend_direction_short (values : list R) :
  (length values < 3)%nat → _calculate_trend_direction values = Ok STABLE.
Proof.
  intros Hn. unfold _calculate_trend_direction.
  destruct (Nat.ltb_spec (length values) 3); [reflexivity | lia].
Qed.

Lemma trend_direction_returns (values : list R) :
  ∃ d, _calculate_trend_direction values = Ok d.
Proof.
  destruct (le_lt_dec 3 (length values)).
  - rewrite trend_direction_classifies by done. eauto.
  - rewrite trend_direction_short by done. eauto.
Qed.

Lemma detect_anomalies_Ok (values : list R) :
  _detect_anomalies values
  = Ok (if (length values <? 3)%nat then []
        else scan_anomalies (mean_of values) (3 * stdev_of values) 0 values).
Proof.
  unfold _detect_anomalies.
  destruct (Nat.ltb_spec (length values) 3) as [| Hn]; [reflexivity |].
  rewrite mean_Ok by (eapply nonempty_of_length; eassumption).
  simpl mbind. rewrite stdev_Ok by lia. reflexivity.
Qed.

Lemma stability_score_Ok (values : list R) :
  _calculate_stability_score values
  = Ok (if (length values <? 2)%nat then 100
        else Rmin 100 (Rmax 0 (100 - cv_of values * 100))).
Proof.
  unfold _calculate_stability_score.
  destruct (Nat.ltb_spec (length values) 2) as [| Hn]; [reflexivity |].
  rewrite mean_Ok by (eapply nonempty_of_length; eassumption).
  simpl mbind. rewrite stdev_Ok by lia. simpl mbind.
  rewrite coefficient_of_variation_Ok. reflexivity.
Qed.

Lemma last_item_returns {A} (l : list A) :
  l ≠ [] → ∃ a, last_item l = Ok a.
Proof.
  intros Hne. unfold last_item.
  destruct (last l) as [a |] eqn:Hl; [eauto |].
  apply last_None in Hl. congruence.
Qed.

(** The shape of the analysis of a window of at least two samples: every
    step up to the change rate returns, and the change rate divides by the
    earliest sample. *)
Lemma analyze_window (metrics_history : list PerformanceMetric) (now : Z)
    (metric_name : string) (time_window_hours : Z) :
  let values :=
    value <$> select metrics_history metric_name
                     (now - hours time_window_hours) in
  (2 ≤ length values)%nat →
  ∃ median_value min_value max_value first_ last_ d,
    median values = Ok median_value
    ∧ min values = Ok min_value
    ∧ max values = Ok max_value
    ∧ first_item values = Ok first_
    ∧ last_item values = Ok last_
    ∧ _calculate_trend_direction values = Ok d
    ∧ analyze_performance_trends metrics_history now metric_name
        time_window_hours
      = (q ← truediv (last_ - first_) first_;
         let change_rate := q * 100 in
         let stability :=
           Rmin 100 (Rmax 0 (100 - cv_of values * 100)) in
         let found :=
           if (length values <? 3)%nat then []
           else scan_anomalies (mean_of values) (3 * stdev_of values)
                               0 values in
         Ok (Analysis
               {| t_metric_name := metric_name;
                  t_time_window_hours := time_window_hours;
                  data_points := length values;
                  trend_direction := trend_value d;
                  statistics :=
                    {| st_mean := mean_of values;
                       st_median := median_value;
                       st_std_dev := stdev_of values;
                       st_min := min_value;
                       st_max := max_value;
                       st_range := max_value - min_value |};
                  change_rate_percent := change_rate;
                  stability_score := stability;
                  anomalies_count := length found;
                  anomalies := found;
                  latest_value := last_;
                  t_trend_analysis :=
                    _generate_trend_analysis d change_rate stability |})).
Proof.
  intros values Hn.
  assert (values ≠ []) as Hne by (eapply nonempty_of_length; eassumption).
  destruct (median_returns values Hne) as [md Hmd].
  destruct (min_returns values Hne) as [mn Hmn].
  destruct (max_returns values Hne) as [mx Hmx].
  destruct (last_item_returns values Hne) as [vl Hvl].
  destruct (trend_direction_returns values) as [d Hd].
  assert (∃ v0, first_item values = Ok v0) as [v0 Hv0]
    by (destruct values; [congruence | simpl; eauto]).
  exists md, mn, mx, v0, vl, d. repeat (split; [assumption |]).
  unfold analyze_performance_trends. fold values.
  assert (length (select metrics_history metric_name
                    (now - hours time_window_hours)) = length values) as ->
    by (unfold values; by rewrite length_fmap).
  assert ((length values <? 2)%nat = false) as Hb1 by (apply Nat.ltb_ge; lia).
  assert ((1 <? length values)%nat = true) as Hb2 by (apply Nat.ltb_lt; lia).
  assert ((2 <=? length values)%nat = true) as Hb3 by (apply Nat.leb_le; lia).
  rewrite Hb1, Hb2, Hb3.
  rewrite (mean_Ok values Hne), Hmd, (stdev_Ok values Hn), Hmn, Hmx, Hd,
    Hvl, Hv0, detect_anomalies_Ok, stability_score_Ok, Hb1.
  simpl mbind.
  destruct (truediv (vl - v0) v0) as [q | e]; reflexivity.
Qed.

End TrendFacts.

(* ===================================================================== *)
(** * The regression slope is the least-squares slope *)
(* ===================================================================== *)

Section RegressionFacts.
Import Statistics Performance.
Local Open Scope R_scope.

(** The squared error, written out in the sums that the code computes. *)
Lemma sq_error_expand (a b : R) (x : list Z) :
  ∀ y, length x = length y →
       sq_error a b x y
       = sum ((λ v, v * v) <$> y) - 2 * a * sum y - 2 * b * dot x y
         + INR (length x) * a * a + 2 * a * b * IZR (isum x)
         + b * b * IZR (sum_x2 x).
Proof.
  induction x as [| xi x IH]; intros y Hlen.
  - destruct y; [| discriminate]. unfold sq_error, dot, sum_x2. simpl. lra.
  - destruct y as [| yi y]; [discriminate |].
    injection Hlen as Hlen. specialize (IH y Hlen).
    unfold sq_error, dot, sum_x2 in *.
    change (length (xi :: x)) with (S (length x)). rewrite S_INR.
    simpl. rewrite IH. unfold fmap.
    rewrite !plus_IZR, Z.pow_2_r, mult_IZR. ring.
Qed.

(** When the normal equations hold and the denominator is positive, no
    line does better. *)
Lemma normal_equations_optimal (n sx sxx sy sxy syy a b a' b' : R) :
  0 < n → 0 < n * sxx - sx * sx →
  n * a + b * sx = sy →
  a * sx + b * sxx = sxy →
  syy - 2 * a * sy - 2 * b * sxy + n * a * a + 2 * a * b * sx + b * b * sxx
  <= syy - 2 * a' * sy - 2 * b' * sxy + n * a' * a' + 2 * a' * b' * sx
     + b' * b' * sxx.
Proof.
  intros Hn Hd H1 H2. subst sy sxy.
  set (A := a' - a). set (B := b' - b).
  assert (0 <= n * A * A + 2 * A * B * sx + B * B * sxx) as HQ.
  { assert (n * (n * A * A + 2 * A * B * sx + B * B * sxx)
            = (n * A + B * sx) * (n * A + B * sx)
              + B * B * (n * sxx - sx * sx)) as Hid by ring.
    assert (0 <= (n * A + B * sx) * (n * A + B * sx)) as H1
      by apply (Rle_0_sqr (n * A + B * sx)).
    assert (0 <= B * B * (n * sxx - sx * sx)) as H2
      by (apply Rmult_le_pos; [apply (Rle_0_sqr B) | lra]).
    apply (Rmult_le_reg_l n); [exact Hn |]. rewrite Hid. lra. }
  match goal with |- ?l <= ?r =>
    assert (r - l = n * A * A + 2 * A * B * sx + B * B * sxx) as Hdiff
      by (unfold A, B; ring)
  end.
  lra.
Qed.

Lemma regression_slope_least_squares (y : list R) :
  (2 ≤ length y)%nat →
  least_squares_slope (regression_slope (range (length y)) y) y.
Proof.
  intros Hlen. unfold least_squares_slope.
  set (x := range (length y)).
  assert (length x = length y) as Hx by apply length_range.
  set (b := regression_slope x y).
  remember (INR (length x)) as n eqn:Hn'.
  assert (0 < n) as Hn by (subst n; apply lt_0_INR; lia).
  assert (0 < n * IZR (sum_x2 x) - IZR (isum x) * IZR (isum x)) as Hd.
  { pose proof (regression_denominator_pos (length y) Hlen) as Hpos.
    apply IZR_lt in Hpos. fold x in Hpos.
    rewrite minus_IZR, mult_IZR, Z.pow_2_r, mult_IZR in Hpos.
    subst n. unfold sum_x2. rewrite Hx, INR_IZR_INZ. exact Hpos. }
  assert (b = (n * dot x y - IZR (isum x) * sum y)
              / (n * IZR (sum_x2 x) - IZR (isum x) * IZR (isum x))) as Hb.
  { unfold b, regression_slope. rewrite Hn'.
    by rewrite minus_IZR, mult_IZR, Z.pow_2_r, mult_IZR, <- INR_IZR_INZ. }
  clearbody b.
  exists ((sum y - b * IZR (isum x)) / n). intros a' b'.
  rewrite !sq_error_expand by exact Hx. rewrite <- Hn'.
  apply normal_equations_optimal; [exact Hn | exact Hd | |].
  - field. lra.
  - rewrite Hb. field. split; lra.
Qed.

End RegressionFacts.

(* ===================================================================== *)
(** * The trend analysis: sentinel, failure on a zero sample, precedence *)
(* ===================================================================== *)

Section AnalysisFacts.
Import Statistics Performance.
Local Open Scope R_scope.

(** The window of a sample history is the history itself. *)
Lemma window_of_history (values : list R) (h : Z) :
  (1 ≤ h)%Z →
  value <$> select (Samples.history_of values) "execution_time"
                   (Samples.now - hours h)
  = values.
Proof.
  intros Hh.
  assert (∀ v, String.eqb (name (Samples.sample v)) "execution_time"
               && (Samples.now - hours h <=? timestamp (Samples.sample v))%Z
               = true) as Hin.
  { intros v. apply andb_true_intro. split; [reflexivity |].
    apply Z.leb_le. unfold Samples.sample, timestamp, hours. lia. }
  unfold Samples.history_of, select.
  induction values as [| v values IH]; [reflexivity |].
  rewrite fmap_cons. cbn [List.filter]. rewrite Hin, fmap_cons, IH.
  reflexivity.
Qed.

(** C6: a window of 0 or 1 samples yields the [insufficient_data] result:
    no exception and no trend classification. *)
Theorem C6_insufficient_data (metrics_history : list PerformanceMetric)
    (now : Z) (metric_name : string) (time_window_hours : Z) :
  (length (select metrics_history metric_name
             (now - hours time_window_hours)) < 2)%nat →
  analyze_performance_trends metrics_history now metric_name
    time_window_hours
  = Ok (InsufficientData metric_name "insufficient_data"
          "数据不足，无法分析趋势").
Proof.
  intros Hn. unfold analyze_performance_trends.
  destruct (Nat.ltb_spec
              (length (select metrics_history metric_name
                         (now - hours time_window_hours))) 2);
    [reflexivity | lia].
Qed.

Lemma C6_insufficient_data_witness :
  (length (select (Samples.history_of [5%R]) "execution_time"
             (Samples.now - hours 24)) < 2)%nat
  ∧ analyze_performance_trends (Samples.history_of [5%R]) Samples.now
      "execution_time" 24
    = Ok (InsufficientData "execution_time" "insufficient_data"
            "数据不足，无法分析趋势").
Proof.
  assert (length (select (Samples.history_of [5%R]) "execution_time"
                    (Samples.now - hours 24)) < 2)%nat as Hn
    by (simpl; lia).
  split; [exact Hn |].
  exact (C6_insufficient_data (Samples.history_of [5%R]) Samples.now
           "execution_time" 24 Hn).
Defined.

(** With two samples or more, the analysis returns exactly when the
    earliest sample of the window is not zero. *)
Lemma analyze_returns (metrics_history : list PerformanceMetric) (now : Z)
    (metric_name : string) (time_window_hours : Z) :
  let values :=
    value <$> select metrics_history metric_name
                     (now - hours time_window_hours) in
  (2 ≤ length values)%nat →
  ∀ first_ d,
    first_item values = Ok first_ → first_ ≠ 0 →
    _calculate_trend_direction values = Ok d →
    ∃ rep, analyze_performance_trends metrics_history now metric_name
             time_window_hours = Ok (Analysis rep)
           ∧ trend_direction rep = trend_value d
           ∧ st_mean (statistics rep) = mean_of values
           ∧ st_std_dev (statistics rep) = stdev_of values.
Proof.
  intros values Hn first_ d Hfirst Hnz Hd.
  destruct (analyze_window metrics_history now metric_name
              time_window_hours Hn)
    as (md & mn & mx & v0 & vl & d' & _ & _ & _ & Hv0 & _ & Hd' & ->).
  fold values in Hv0, Hd'. rewrite Hfirst in Hv0. injection Hv0 as <-.
  rewrite Hd in Hd'. injection Hd' as <-.
  unfold truediv. destruct (Req_dec_T first_ 0); [contradiction |].
  simpl. eexists. repeat split.
Qed.

Lemma analyze_raises_on_zero (metrics_history : list PerformanceMetric)
    (now : Z) (metric_name : string) (time_window_hours : Z) :
  let values :=
    value <$> select metrics_history metric_name
                     (now - hours time_window_hours) in
  (2 ≤ length values)%nat →
  first_item values = Ok 0 →
  analyze_performance_trends metrics_history now metric_name
    time_window_hours
  = Raise (ZeroDivisionError "float division by zero").
Proof.
  intros values Hn Hfirst.
  destruct (analyze_window metrics_history now metric_name
              time_window_hours Hn)
    as (md & mn & mx & v0 & vl & d' & _ & _ & _ & Hv0 & _ & _ & ->).
  fold values in Hv0. rewrite Hfirst in Hv0. injection Hv0 as <-.
  unfold truediv. destruct (Req_dec_T 0 0); [reflexivity | congruence].
Qed.

(** C9: on the window of the two samples 0 and 5 the analysis does not
    return statistics: the change rate divides by the earliest sample and
    the call raises [ZeroDivisionError]. *)
Theorem C9_zero_first_sample_raises :
  analyze_performance_trends (Samples.history_of [0%R; 5%R]) Samples.now
    "execution_time" 24
  = Raise (ZeroDivisionError "float division by zero").
Proof.
  apply analyze_raises_on_zero; rewrite window_of_history by lia.
  - simpl. lia.
  - reflexivity.
Qed.

Lemma cv_of_quotient (values : list R) :
  cv_of values = stdev_of values / mean_of values.
Proof.
  unfold cv_of. destruct (Req_dec_T (mean_of values) 0) as [-> |];
    [| reflexivity].
  unfold Rdiv. rewrite Rinv_0. ring.
Qed.

Lemma classify_volatile (cv slope : R) :
  cv > 0.3 → classify cv slope = VOLATILE.
Proof. intros H. unfold classify. destruct (Rgt_dec cv 0.3); tauto. Qed.

Lemma sqrt_lower (c x : R) : 0 <= c → c * c < x → c < sqrt x.
Proof.
  intros Hc Hx. rewrite <- (sqrt_square c Hc) at 1.
  apply sqrt_lt_1_alt. split; [apply (Rle_0_sqr c) | exact Hx].
Qed.

(** C5: a window of fewer than three samples is classified STABLE.  In a
    window of at least three samples the direction is the classification of
    the coefficient of variation (stddev / mean) and of the least-squares
    slope over the index-ordered samples, volatility first: when the
    coefficient of variation exceeds 0.3 the direction is VOLATILE whatever
    the slope, otherwise slope > 0.1 gives IMPROVING, slope < -0.1
    DEGRADING, and anything else STABLE.  The analysis reports that
    direction when the earliest sample of the window is not zero. *)
Theorem C5_volatility_precedence (metrics_history : list PerformanceMetric)
    (now : Z) (metric_name : string) (time_window_hours : Z) :
  let values :=
    value <$> select metrics_history metric_name
                     (now - hours time_window_hours) in
  let cv := stdev_of values / mean_of values in
  ((length values < 3)%nat → _calculate_trend_direction values = Ok STABLE)
  ∧ ((3 ≤ length values)%nat →
     ∃ slope,
       least_squares_slope slope values
       ∧ _calculate_trend_direction values = Ok (classify cv slope)
       ∧ (cv > 0.3 → classify cv slope = VOLATILE)
       ∧ (∀ first_,
            first_item values = Ok first_ → first_ ≠ 0 →
            ∃ rep, analyze_performance_trends metrics_history now metric_name
                     time_window_hours = Ok (Analysis rep)
                   ∧ trend_direction rep = trend_value (classify cv slope))).
Proof.
  intros values cv. split; [apply trend_direction_short |]. intros Hn.
  exists (regression_slope (range (length values)) values).
  assert (_calculate_trend_direction values
          = Ok (classify cv
                  (regression_slope (range (length values)) values)))
    as Hd.
  { rewrite trend_direction_classifies by exact Hn.
    by rewrite cv_of_quotient. }
  split; [apply regression_slope_least_squares; lia |].
  split; [exact Hd |].
  split; [apply classify_volatile |].
  intros first_ Hfirst Hnz.
  destruct (analyze_returns metrics_history now metric_name
              time_window_hours ltac:(fold values; lia) first_ _
              Hfirst Hnz Hd) as (rep & Hrep & Ht & _).
  exists rep. auto.
Qed.

(** The samples 1, 2, 10: a rising series (slope 4.5) whose coefficient of
    variation is above 1. *)
Lemma C5_volatility_precedence_witness :
  (3 ≤ length (value <$> select (Samples.history_of [1; 2; 10]%R)
                           "execution_time" (Samples.now - hours 24)))%nat
  ∧ ∃ rep, analyze_performance_trends (Samples.history_of [1; 2; 10]%R)
             Samples.now "execution_time" 24 = Ok (Analysis rep)
           ∧ trend_direction rep = "volatile"%string.
Proof.
  assert (3 ≤ length (value <$> select (Samples.history_of [1; 2; 10]%R)
                        "execution_time" (Samples.now - hours 24)))%nat
    as Hn by (rewrite window_of_history by lia; simpl; lia).
  split; [exact Hn |].
  destruct (C5_volatility_precedence (Samples.history_of [1; 2; 10]%R)
              Samples.now "execution_time" 24) as [_ Hlong].
  destruct (Hlong Hn) as (slope & _ & _ & Hv & Hrep).
  rewrite window_of_history in Hv, Hrep by lia.
  destruct (Hrep 1 eq_refl ltac:(lra)) as (rep & Ha & Ht).
  exists rep. split; [exact Ha |]. rewrite Ht, Hv; [reflexivity |].
  assert (mean_of [1; 2; 10] = 13 / 3) as Hm
    by (unfold mean_of; simpl; lra).
  assert (4 < stdev_of [1; 2; 10]) as Hs.
  { apply sqrt_lower; [lra |]. unfold ss. fold (mean_of [1; 2; 10]).
    rewrite Hm. simpl. lra. }
  rewrite Hm. lra.
Defined.

(** The window of the two samples 1 and 10 has a coefficient of variation
    above 0.3, and its direction is reported as stable. *)
Lemma C5_two_samples_stable :
  (2 ≤ length (value <$> select (Samples.history_of [1; 10]%R)
                           "execution_time" (Samples.now - hours 24)))%nat
  ∧ stdev_of [1; 10] / mean_of [1; 10] > 0.3
  ∧ ∃ rep, analyze_performance_trends (Samples.history_of [1; 10]%R)
             Samples.now "execution_time" 24 = Ok (Analysis rep)
           ∧ trend_direction rep = "stable"%string
           ∧ trend_direction rep ≠ "volatile"%string.
Proof.
  assert (2 ≤ length (value <$> select (Samples.history_of [1; 10]%R)
                        "execution_time" (Samples.now - hours 24)))%nat
    as Hn by (rewrite window_of_history by lia; simpl; lia).
  split; [exact Hn |]. split.
  - assert (mean_of [1; 10] = 11 / 2) as Hm
      by (unfold mean_of; simpl; lra).
    assert (6 < stdev_of [1; 10]) as Hs.
    { apply sqrt_lower; [lra |]. unfold ss. fold (mean_of [1; 10]).
      rewrite Hm. simpl. lra. }
    rewrite Hm. lra.
  - destruct (analyze_returns (Samples.history_of [1; 10]%R) Samples.now
                "execution_time" 24 Hn 1 STABLE) as (rep & Ha & Ht & _).
    + by rewrite window_of_history by lia.
    + lra.
    + rewrite window_of_history by lia. reflexivity.
    + exists rep. rewrite Ht. simpl. repeat split; [exact Ha | discriminate].
Qed.

End AnalysisFacts.

(* ===================================================================== *)
(** * The anomaly detector *)
(* ===================================================================== *)

Section AnomalyFacts.
Import Statistics Performance.
Local Open Scope R_scope.

(** Nothing is flagged when no deviation exceeds the threshold. *)
Lemma scan_anomalies_none (m t : R) (values : list R) :
  Forall (λ v, Rabs (v - m) <= t) values →
  ∀ i, scan_anomalies m t i values = [].
Proof.
  induction 1 as [| v values Hv _ IH]; intros i; simpl; [reflexivity |].
  destruct (Rgt_dec (Rabs (v - m)) t); [lra | apply IH].
Qed.

(** The flagged entries are exactly the samples whose deviation exceeds
    the threshold, each with its position and its side of the mean. *)
Lemma scan_anomalies_flags (m t : R) (values : list R) :
  ∀ i a,
    a ∈ scan_anomalies m t i values
    ↔ ∃ k v, values !! k = Some v
             ∧ Rabs (v - m) > t
             ∧ a = {| index := i + k;
                      a_value := v;
                      deviation := Rabs (v - m);
                      type_ := if Rgt_dec v m then "high" else "low" |}.
Proof.
  induction values as [| v values IH]; intros i a; simpl.
  - split; [intros H; inversion H | intros (k & w & Hk & _); discriminate].
  - split.
    + intros Ha.
      destruct (Rgt_dec (Rabs (v - m)) t) as [Hgt | Hle].
      * apply elem_of_cons in Ha as [-> | Ha].
        -- exists 0%nat, v. rewrite Nat.add_0_r. auto.
        -- apply IH in Ha as (k & w & Hk & Hw & ->).
           exists (S k), w. rewrite Nat.add_succ_r. auto.
      * apply IH in Ha as (k & w & Hk & Hw & ->).
        exists (S k), w. rewrite Nat.add_succ_r. auto.
    + intros (k & w & Hk & Hw & ->).
      destruct k as [| k]; simpl in Hk.
      * injection Hk as ->. rewrite Nat.add_0_r.
        destruct (Rgt_dec (Rabs (w - m)) t); [left | contradiction].
      * assert ({| index := i + S k; a_value := w;
                   deviation := Rabs (w - m);
                   type_ := if Rgt_dec w m then "high" else "low" |}
                ∈ scan_anomalies m t (S i) values) as Hin.
        { apply IH. exists k, w. rewrite Nat.add_succ_r. auto. }
        destruct (Rgt_dec (Rabs (v - m)) t); [by right | exact Hin].
Qed.

Lemma sum_squares_nonneg (c : R) (l : list R) :
  0 <= sum ((λ x, (x - c) * (x - c)) <$> l).
Proof.
  induction l as [| x l IH]; simpl; [lra |].
  pose proof (Rle_0_sqr (x - c)) as Hx. unfold Rsqr in Hx.
  change (0 <= (x - c) * (x - c) + sum ((λ x, (x - c) * (x - c)) <$> l)).
  lra.
Qed.

Lemma sum_squares_zero (c : R) (l : list R) :
  sum ((λ x, (x - c) * (x - c)) <$> l) = 0 → Forall (λ x, x = c) l.
Proof.
  induction l as [| x l IH]; intros Hs; [constructor |].
  change ((x - c) * (x - c) + sum ((λ x, (x - c) * (x - c)) <$> l) = 0)
    in Hs.
  pose proof (Rle_0_sqr (x - c)) as Hx. unfold Rsqr in Hx.
  pose proof (sum_squares_nonneg c l) as Hl.
  constructor.
  - assert ((x - c) * (x - c) = 0) as H0 by lra.
    apply Rmult_integral in H0. lra.
  - apply IH. lra.
Qed.

(** A window whose standard deviation is zero is constant. *)
Lemma stdev_zero_constant (values : list R) :
  (2 ≤ length values)%nat → stdev_of values = 0 →
  Forall (λ x, x = mean_of values) values.
Proof.
  intros Hn Hs. apply sum_squares_zero.
  change (ss values = 0).
  assert (0 < INR (length values) - 1) as Hd.
  { apply le_INR in Hn. simpl in Hn. lra. }
  assert (0 <= ss values) as Hss by apply sum_squares_nonneg.
  unfold stdev_of in Hs. apply sqrt_eq_0 in Hs.
  - apply (Rmult_eq_compat_r (INR (length values) - 1)) in Hs.
    unfold Rdiv in Hs. rewrite Rmult_assoc, Rinv_l, Rmult_1_r, Rmult_0_l in Hs;
      [exact Hs | lra].
  - apply Rmult_le_pos; [exact Hss |]. left. by apply Rinv_0_lt_compat.
Qed.

Lemma spike_mean : mean_of Samples.spike = 109.
Proof. unfold mean_of, Samples.spike. simpl. lra. Qed.

Lemma spike_stdev : 313 < stdev_of Samples.spike.
Proof.
  apply sqrt_lower; [lra |]. unfold ss. fold (mean_of Samples.spike).
  rewrite spike_mean. unfold Samples.spike. simpl. lra.
Qed.

Lemma spike_not_flagged : _detect_anomalies Samples.spike = Ok [].
Proof.
  rewrite detect_anomalies_Ok. simpl length. simpl Nat.ltb. cbv iota.
  rewrite scan_anomalies_none; [reflexivity |].
  rewrite spike_mean.
  assert (939 < 3 * stdev_of Samples.spike) as Ht
    by (pose proof spike_stdev; lra).
  revert Ht. generalize (3 * stdev_of Samples.spike). intros t Ht.
  unfold Samples.spike. simpl.
  repeat (apply List.Forall_cons;
          [unfold Rabs; destruct (Rcase_abs _); lra |]).
  apply List.Forall_nil.
Qed.

(** C7: for the series of nine samples 10 and one sample 1000 the detector
    flags nothing, since the deviation 891 of the sample 1000 from the mean
    109 does not exceed three standard deviations; a series whose standard
    deviation is zero (or undefined) yields the empty list, with no
    division; in general the detector returns, and from three samples on
    it flags exactly the samples whose absolute deviation from the mean
    exceeds three standard deviations, as [high] above the mean and [low]
    below. *)
Theorem C7_three_sigma :
  _detect_anomalies Samples.spike = Ok []
  ∧ (∀ values,
       (∀ sd, stdev values = Ok sd → sd = 0) →
       _detect_anomalies values = Ok [])
  ∧ (∀ values,
       ∃ found, _detect_anomalies values = Ok found
         ∧ ((3 ≤ length values)%nat →
            ∀ a, a ∈ found
                 ↔ ∃ k v, values !! k = Some v
                          ∧ Rabs (v - mean_of values) > 3 * stdev_of values
                          ∧ a = {| index := k;
                                   a_value := v;
                                   deviation := Rabs (v - mean_of values);
                                   type_ := if Rgt_dec v (mean_of values)
                                            then "high" else "low" |})).
Proof.
  split; [exact spike_not_flagged |]. split.
  - intros values Hsd. rewrite detect_anomalies_Ok.
    destruct (Nat.ltb_spec (length values) 3) as [| Hn]; [reflexivity |].
    assert (stdev_of values = 0) as H0
      by (apply Hsd, stdev_Ok; lia).
    rewrite scan_anomalies_none; [reflexivity |].
    rewrite H0, Rmult_0_r.
    eapply Forall_impl; [apply stdev_zero_constant; [lia | exact H0] |].
    intros v ->. simpl. rewrite Rminus_diag, Rabs_R0. lra.
  - intros values. rewrite detect_anomalies_Ok. eexists.
    split; [reflexivity |]. intros Hn a.
    destruct (Nat.ltb_spec (length values) 3) as [| _]; [lia |].
    apply (scan_anomalies_flags (mean_of values) (3 * stdev_of values)
             values 0 a).
Qed.

(** On the spike series the detector does not return the single anomaly
    1000 tagged [high]. *)
Lemma C7_spike_is_not_flagged :
  ¬ ∃ a, _detect_anomalies Samples.spike = Ok [a]
         ∧ a_value a = 1000
         ∧ type_ a = "high"%string.
Proof.
  intros (a & Ha & _). rewrite spike_not_flagged in Ha. discriminate.
Qed.

End AnomalyFacts.

(* ===================================================================== *)
(** * The prediction *)
(* ===================================================================== *)

Section PredictionFacts.
Import Statistics Performance.
Local Open Scope R_scope.

(** [values[-k:]] is the list of the [k] most recent samples. *)
Lemma suffix_recent {A} (k : nat) (l : list A) :
  (0 < k ≤ length l)%nat →
  ∃ older, l = older ++ suffix k l ∧ length (suffix k l) = k.
Proof.
  intros [Hk Hl]. unfold suffix.
  destruct (Nat.eqb_spec k 0) as [| _]; [lia |].
  exists (take (length l - k) l). split.
  - by rewrite take_drop.
  - rewrite length_drop. lia.
Qed.

Lemma calculate_slope_Ok (y : list R) :
  (2 ≤ length y)%nat →
  _calculate_slope (range (length y)) y
  = Ok (regression_slope (range (length y)) y).
Proof.
  intros Hn. unfold _calculate_slope. rewrite length_range.
  destruct (Z.ltb_spec (Z.of_nat (length y)) 2) as [| _]; [lia |].
  rewrite sum_xy_Ok by (rewrite length_range; lia). simpl mbind.
  pose proof (regression_denominator_pos (length y) Hn) as Hpos.
  unfold sum_x2, truediv_int.
  destruct (Z.eqb_spec
              (Z.of_nat (length y)
               * isum ((λ xi, xi ^ 2)%Z <$> range (length y))
               - isum (range (length y)) ^ 2) 0) as [Hz | _];
    [lia |].
  unfold regression_slope, sum_x2. by rewrite length_range.
Qed.

Lemma identify_risk_factors_returns (values : list R)
    (metric_name : string) :
  ∃ found, _identify_risk_factors values metric_name = Ok found.
Proof.
  unfold _identify_risk_factors.
  destruct (Nat.ltb_spec (length values) 5) as [| Hn]; [eauto |].
  destruct (trend_direction_returns (suffix 5 values)) as [d ->].
  assert (values ≠ []) as Hne by (eapply nonempty_of_length; eassumption).
  destruct (last_item_returns values Hne) as [vl ->].
  assert ((1 <? length values)%nat = true) as -> by (apply Nat.ltb_lt; lia).
  rewrite stdev_Ok by lia. rewrite (mean_Ok values Hne).
  simpl mbind. rewrite coefficient_of_variation_Ok. simpl mbind.
  destruct (Rgt_dec (cv_of values) 0.3); eauto.
Qed.

Lemma length_hour_range (horizon : Z) :
  length (hour_range horizon) = Z.to_nat horizon.
Proof. unfold hour_range. by rewrite length_fmap, length_seq. Qed.

(** The hours of the horizon are 1, 2, ..., [horizon], in this order. *)
Lemma lookup_hour_range (horizon h : Z) :
  (1 ≤ h ≤ horizon)%Z → hour_range horizon !! Z.to_nat (h - 1) = Some h.
Proof.
  intros Hh. unfold hour_range. rewrite list_lookup_fmap.
  rewrite lookup_seq_lt by lia. simpl. f_equal. lia.
Qed.

(** C8: with fewer than 10 samples in the 168-hour window the prediction
    is the insufficient-data one, whose only risk factor names the
    shortfall; with at least 10 samples the call returns one value per hour
    [h] of the horizon, [moving_avg + slope * h], where [moving_avg] is the
    mean of the 10 = min(10, N) most recent samples and [slope] the
    least-squares slope of the 5 most recent ones, and one confidence
    interval [moving_avg ± 1.96 * stddev] for the whole horizon. *)
Theorem C8_prediction (metrics_history : list PerformanceMetric)
    (now base_time : Z) (metric_name : string) (prediction_hours : Z) :
  let values :=
    value <$> select metrics_history metric_name
                     (now - hours history_window) in
  history_window = 168%Z
  ∧ ((length values < 10)%nat →
     predict_future_performance metrics_history now base_time metric_name
       prediction_hours
     = Ok {| p_metric_name := metric_name;
             current_value := 0;
             predicted_values := [];
             confidence_interval := (0, 0);
             p_trend_analysis := lit "数据不足，无法进行预测";
             risk_factors := ["历史数据不足"%string] |})
  ∧ ((10 ≤ length values)%nat →
     ∃ p older recent older5 recent5 slope,
       predict_future_performance metrics_history now base_time metric_name
         prediction_hours = Ok p
       ∧ values = older ++ recent
       ∧ length recent = Nat.min 10 (length values)
       ∧ values = older5 ++ recent5
       ∧ length recent5 = 5%nat
       ∧ least_squares_slope slope recent5
       ∧ length (predicted_values p) = Z.to_nat prediction_hours
       ∧ (∀ h, (1 ≤ h ≤ prediction_hours)%Z →
               predicted_values p !! Z.to_nat (h - 1)
               = Some ((base_time + hours h)%Z,
                       mean_of recent + slope * IZR h))
       ∧ confidence_interval p
         = (mean_of recent - 1.96 * stdev_of values,
            mean_of recent + 1.96 * stdev_of values)).
Proof.
  intros values. split; [reflexivity |].
  assert (length (select metrics_history metric_name
                    (now - hours history_window)) = length values) as Hlen
    by (unfold values; by rewrite length_fmap).
  split; intros Hn; unfold predict_future_performance; rewrite Hlen.
  - destruct (Nat.ltb_spec (length values) 10); [reflexivity | lia].
  - destruct (Nat.ltb_spec (length values) 10) as [| _]; [lia |].
    fold values.
    assert (values ≠ []) as Hne by (eapply nonempty_of_length; eassumption).
    destruct (last_item_returns values Hne) as [vl ->].
    destruct (suffix_recent (Nat.min 10 (length values)) values
                ltac:(lia)) as (older & Hold & Hrecent).
    destruct (suffix_recent 5 values ltac:(lia)) as (older5 & Hold5 & Hrecent5).
    set (recent := suffix (Nat.min 10 (length values)) values) in *.
    set (recent5 := suffix 5 values) in *.
    assert (recent ≠ []) as Hrne
      by (apply (nonempty_of_length recent 0); lia).
    assert ((5 <=? length values)%nat = true) as -> by (apply Nat.leb_le; lia).
    assert ((1 <? length values)%nat = true) as -> by (apply Nat.ltb_lt; lia).
    rewrite (mean_Ok recent Hrne), (calculate_slope_Ok recent5) by lia.
    rewrite stdev_Ok by lia.
    destruct (identify_risk_factors_returns values metric_name) as [rf ->].
    simpl mbind.
    eexists _, older, recent, older5, recent5,
      (regression_slope (range (length recent5)) recent5).
    split; [reflexivity |].
    repeat (split; [first [assumption | lia] |]).
    split; [apply regression_slope_least_squares; lia |].
    simpl predicted_values. simpl confidence_interval.
    split; [by rewrite length_fmap, length_hour_range |].
    split; [| reflexivity].
    intros h Hh. rewrite list_lookup_fmap, lookup_hour_range by exact Hh.
    reflexivity.
Qed.

Lemma C8_prediction_witness :
  (length (value <$> select (Samples.history_of [5%R]) "execution_time"
                        (Samples.now - hours history_window)) < 10)%nat
  ∧ (10 ≤ length (value <$> select (Samples.history_of Samples.ramp)
                              "execution_time"
                              (Samples.now - hours history_window)))%nat
  ∧ (∃ q, predict_future_performance (Samples.history_of [5%R])
            Samples.now Samples.now "execution_time" 24 = Ok q
          ∧ risk_factors q = ["历史数据不足"%string])
  ∧ ∃ p, predict_future_performance (Samples.history_of Samples.ramp)
           Samples.now Samples.now "execution_time" 24 = Ok p
         ∧ length (predicted_values p) = 24%nat.
Proof.
  assert (length (value <$> select (Samples.history_of [5%R])
                    "execution_time"
                    (Samples.now - hours history_window)) < 10)%nat as H1
    by (rewrite window_of_history by (unfold history_window; lia);
        simpl; lia).
  assert (10 ≤ length (value <$> select (Samples.history_of Samples.ramp)
                         "execution_time"
                         (Samples.now - hours history_window)))%nat as H2
    by (rewrite window_of_history by (unfold history_window; lia);
        simpl; lia).
  split; [exact H1 |]. split; [exact H2 |]. split.
  - destruct (C8_prediction (Samples.history_of [5%R]) Samples.now
                Samples.now "execution_time" 24) as (_ & Hfew & _).
    rewrite (Hfew H1). eexists. split; reflexivity.
  - destruct (C8_prediction (Samples.history_of Samples.ramp) Samples.now
                Samples.now "execution_time" 24) as (_ & _ & Hmany).
    destruct (Hmany H2)
      as (p & older & recent & older5 & recent5 & slope
          & Hp & _ & _ & _ & _ & _ & Hl & _).
    exists p. split; [exact Hp | exact Hl].
Defined.

End PredictionFacts.

(* ===================================================================== *)
(** * The grouped statistics, read off the records *)
(* ===================================================================== *)

Section GroupingFacts.
Import Executor Aggregates.

Lemma group_by_snoc (key : ExecutionRecord → string)
    (rs : list ExecutionRecord) (r : ExecutionRecord) :
  group_by key (rs ++ [r])
  = count_into (key r) (status r) (group_by key rs).
Proof. unfold group_by. by rewrite foldl_app. Qed.

Lemma count_into_lookup (k' st : string) (m : gmap string Stats) (k : string) :
  count_into k' st m !! k
  = if decide (k' = k) then Some (bump st (default zero_stats (m !! k)))
    else m !! k.
Proof.
  unfold count_into. destruct (decide (k' = k)) as [-> | Hne].
  - destruct (m !! k) as [s |] eqn:Hk.
    + by rewrite Hk, lookup_insert_eq.
    + by rewrite lookup_insert_eq, insert_insert_eq, lookup_insert_eq.
  - destruct (m !! k') as [s |] eqn:Hk'.
    + by rewrite Hk', lookup_insert_ne.
    + by rewrite lookup_insert_eq, insert_insert_eq, lookup_insert_ne.
Qed.

Lemma count_status_snoc (st : string) (g : list ExecutionRecord)
    (r : ExecutionRecord) :
  count_status st (g ++ [r])
  = count_status st g + (if String.eqb (status r) st then 1 else 0).
Proof.
  unfold count_status. rewrite List.filter_app, length_app. simpl.
  by destruct (String.eqb (status r) st).
Qed.

(** Counting a record into the counters of a list gives the counters of the
    list with the record appended. *)
Lemma bump_tally (g : list ExecutionRecord) (r : ExecutionRecord) :
  bump (status r) (tally g) = tally (g ++ [r]).
Proof.
  unfold tally. rewrite !count_status_snoc, length_app. unfold bump. simpl.
  destruct (String.eqb_spec (status r) "PASS") as [-> | H1];
    [simpl; f_equal; lia |].
  destruct (String.eqb_spec (status r) "FAIL") as [-> | H2];
    [simpl; f_equal; lia |].
  destruct (String.eqb_spec (status r) "TIMEOUT") as [-> | H3];
    [simpl; f_equal; lia |].
  destruct (String.eqb_spec (status r) "ERROR") as [_ | _];
    simpl; f_equal; lia.
Qed.

Lemma group_of_snoc (key : ExecutionRecord → string) (k : string)
    (rs : list ExecutionRecord) (r : ExecutionRecord) :
  group_of key k (rs ++ [r])
  = group_of key k rs ++ (if String.eqb (key r) k then [r] else []).
Proof.
  unfold group_of. rewrite List.filter_app. simpl.
  by destruct (String.eqb (key r) k).
Qed.

Lemma group_by_entry (key : ExecutionRecord → string)
    (rs : list ExecutionRecord) (k : string) :
  group_by key rs !! k
  = match group_of key k rs with
    | [] => None
    | g => Some (tally g)
    end.
Proof.
  induction rs as [| r rs IH] using rev_ind; [reflexivity |].
  rewrite group_by_snoc, count_into_lookup, group_of_snoc, IH.
  destruct (decide (key r = k)) as [Hk | Hk].
  - rewrite (proj2 (String.eqb_eq _ _) Hk).
    destruct (group_of key k rs) as [| r0 g] eqn:Hg.
    + change (default zero_stats None) with (tally []).
      by rewrite bump_tally.
    + change (default zero_stats (Some (tally (r0 :: g))))
        with (tally (r0 :: g)).
      by rewrite bump_tally.
  - rewrite (proj2 (String.eqb_neq _ _) Hk), app_nil_r. reflexivity.
Qed.

(** The entry of a group is absent when no record belongs to the group, and
    otherwise holds the number of the group's records and, of these, the
    numbers with status PASS, FAIL, TIMEOUT and ERROR.  So the groups that
    have an entry are exactly the keys of the records. *)
Theorem group_by_lookup (key : ExecutionRecord → string)
    (rs : list ExecutionRecord) (k : string) :
  group_by key rs !! k
  = match group_of key k rs with
    | [] => None
    | g => Some (tally g)
    end
  ∧ (is_Some (group_by key rs !! k) ↔ ∃ r, In r rs ∧ key r = k).
Proof.
  split; [apply group_by_entry |]. rewrite group_by_entry.
  destruct (group_of key k rs) as [| r0 g] eqn:Hg.
  - split.
    + intros [s Hs]. discriminate.
    + intros (r & Hr & Hk). exfalso.
      assert (In r (group_of key k rs)) as Hin.
      { apply filter_In. split; [exact Hr |]. by apply String.eqb_eq. }
      rewrite Hg in Hin. destruct Hin.
  - split; [intros _ | by eauto].
    assert (In r0 (group_of key k rs)) as Hin by (rewrite Hg; by left).
    apply filter_In in Hin as [Hr Hk]. exists r0.
    split; [exact Hr | by apply String.eqb_eq].
Qed.

Lemma filter_Permutation_list {A} (f : A → bool) (l l' : list A) :
  l ≡ₚ l' → List.filter f l ≡ₚ List.filter f l'.
Proof.
  induction 1 as [| x l l' _ IH | x y l | l1 l2 l3 _ IH1 _ IH2]; simpl.
  - constructor.
  - destruct (f x); [by constructor | exact IH].
  - destruct (f x), (f y); try reflexivity. apply perm_swap.
  - by etrans.
Qed.

Lemma count_status_Permutation (st : string) (rs rs' : list ExecutionRecord) :
  rs ≡ₚ rs' → count_status st rs = count_status st rs'.
Proof.
  intros H. unfold count_status.
  apply Permutation_length. by apply filter_Permutation_list.
Qed.

Lemma tally_Permutation (g g' : list ExecutionRecord) :
  g ≡ₚ g' → tally g = tally g'.
Proof.
  intros H. unfold tally.
  rewrite (Permutation_length H), !(count_status_Permutation _ g g' H).
  reflexivity.
Qed.

(** The grouped statistics do not depend on the order of the records. *)
Lemma group_by_Permutation (key : ExecutionRecord → string)
    (rs rs' : list ExecutionRecord) :
  rs ≡ₚ rs' → group_by key rs = group_by key rs'.
Proof.
  intros H. apply map_eq. intros k. rewrite !group_by_entry.
  assert (group_of key k rs ≡ₚ group_of key k rs') as Hg
    by (by apply filter_Permutation_list).
  destruct (group_of key k rs) as [| r g] eqn:E1;
    destruct (group_of key k rs') as [| r' g'] eqn:E2.
  - reflexivity.
  - by apply Permutation_nil_cons in Hg.
  - symmetry in Hg. by apply Permutation_nil_cons in Hg.
  - f_equal. by apply tally_Permutation.
Qed.

(** Two runs whose records agree up to their order produce reports with the
    same summary counts, the same success rate and the same statistics per
    module and per test type. *)
Theorem report_order_independent (t0 now idc : Z)
    (rs rs' : list ExecutionRecord) :
  rs ≡ₚ rs' →
  ∃ rep rep',
    generate_comprehensive_report t0 now idc rs = Ok rep
    ∧ generate_comprehensive_report t0 now idc rs' = Ok rep'
    ∧ module_statistics rep = module_statistics rep'
    ∧ type_statistics rep = type_statistics rep'
    ∧ total_tests (execution_summary rep)
      = total_tests (execution_summary rep')
    ∧ passed_tests (execution_summary rep)
      = passed_tests (execution_summary rep')
    ∧ failed_tests (execution_summary rep)
      = failed_tests (execution_summary rep')
    ∧ timeout_tests (execution_summary rep)
      = timeout_tests (execution_summary rep')
    ∧ error_tests (execution_summary rep)
      = error_tests (execution_summary rep')
    ∧ success_rate (execution_summary rep)
      = success_rate (execution_summary rep').
Proof.
  intros H.
  destruct (generate_comprehensive_report_returns t0 now idc rs)
    as (rep & Hrep & _ & Hm & Ht & Hn & Hp & Hf & Hto & He & Hs).
  destruct (generate_comprehensive_report_returns t0 now idc rs')
    as (rep' & Hrep' & _ & Hm' & Ht' & Hn' & Hp' & Hf' & Hto' & He' & Hs').
  exists rep, rep'. split; [exact Hrep |]. split; [exact Hrep' |].
  rewrite Hm, Hm', Ht, Ht', Hn, Hn', Hp, Hp', Hf, Hf', Hto, Hto', He, He',
    Hs, Hs'.
  rewrite !(group_by_Permutation _ rs rs' H),
    !(count_status_Permutation _ rs rs' H), (Permutation_length H).
  repeat split; reflexivity.
Qed.

Lemma report_order_independent_witness :
  Samples.three_results ≡ₚ reverse Samples.three_results
  ∧ ∃ rep rep',
      generate_comprehensive_report 0 3000000 3000000 Samples.three_results
      = Ok rep
      ∧ generate_comprehensive_report 0 3000000 3000000
          (reverse Samples.three_results) = Ok rep'
      ∧ module_statistics rep = module_statistics rep'
      ∧ success_rate (execution_summary rep)
        = success_rate (execution_summary rep').
Proof.
  assert (Samples.three_results ≡ₚ reverse Samples.three_results) as H
    by (symmetry; apply reverse_Permutation).
  split; [exact H |].
  destruct (report_order_independent 0 3000000 3000000 _ _ H)
    as (rep & rep' & H1 & H2 & H3 & _ & _ & _ & _ & _ & _ & H4).
  exists rep, rep'. auto.
Defined.

End GroupingFacts.

(* ===================================================================== *)
(** * The failed-tests summary, the success rate and the verdict of a run *)
(* ===================================================================== *)

Section VerdictFacts.
Import Executor Aggregates.

(** What a returned report holds. *)
Lemma generate_comprehensive_report_inv (t0 now idc : Z)
    (rs : list ExecutionRecord) (rep : Report) :
  generate_comprehensive_report t0 now idc rs = Ok rep →
  failed_tests_summary rep = failed_entry <$> List.filter is_failure rs
  ∧ failed_tests (execution_summary rep) = count_status "FAIL" rs
  ∧ timeout_tests (execution_summary rep) = count_status "TIMEOUT" rs
  ∧ error_tests (execution_summary rep) = count_status "ERROR" rs
  ∧ passed_tests (execution_summary rep) = count_status "PASS" rs
  ∧ total_tests (execution_summary rep) = length rs
  ∧ detailed_results rep = rs.
Proof.
  unfold generate_comprehensive_report, truediv_int.
  destruct (0 <? length rs)%nat; [destruct (Z.of_nat (length rs) =? 0)%Z |];
    simpl; intros H; try discriminate; injection H as <-; repeat split.
Qed.

Lemma length_substring_le (m : nat) :
  ∀ s, String.length (String.substring 0 m s) ≤ m.
Proof.
  induction m as [| m IH]; intros s; destruct s as [| c s]; simpl; try lia.
  specialize (IH s). lia.
Qed.

Lemma error_excerpt_bounds (err : string) :
  error_excerpt err ≠ ""%string ∧ String.length (error_excerpt err) ≤ 500.
Proof.
  unfold error_excerpt. destruct (String.eqb_spec err "") as [-> | Hne].
  - split; [discriminate | simpl; lia].
  - split; [| apply length_substring_le].
    destruct err as [| c err]; [congruence | discriminate].
Qed.

Lemma fmap_filter_comm {A B} (f : A → B) (p : B → bool) (l : list A) :
  f <$> List.filter (λ a, p (f a)) l = List.filter p (f <$> l).
Proof.
  induction l as [| a l IH]; [reflexivity |].
  rewrite fmap_cons. simpl List.filter.
  destruct (p (f a)); [rewrite fmap_cons |]; by rewrite IH.
Qed.

Lemma length_failures (rs : list ExecutionRecord) :
  length (List.filter is_failure rs)
  = count_status "FAIL" rs + count_status "TIMEOUT" rs
    + count_status "ERROR" rs.
Proof.
  unfold count_status, is_failure.
  induction rs as [| r rs IH]; [reflexivity |]. simpl.
  destruct (String.eqb_spec (status r) "FAIL") as [-> | H1]; [simpl; lia |].
  destruct (String.eqb_spec (status r) "TIMEOUT") as [-> | H2]; [simpl; lia |].
  destruct (String.eqb_spec (status r) "ERROR") as [_ | _]; simpl; lia.
Qed.

(** The failed-tests summary of a report has one entry per record counted as
    failed, timed out or in error, in the order of the records; every entry
    has one of these three statuses and carries an error excerpt that is not
    empty and has at most 500 characters. *)
Theorem failed_tests_summary_complete (t0 now idc : Z)
    (rs : list ExecutionRecord) :
  ∃ rep,
    generate_comprehensive_report t0 now idc rs = Ok rep
    ∧ length (failed_tests_summary rep)
      = failed_tests (execution_summary rep)
        + timeout_tests (execution_summary rep)
        + error_tests (execution_summary rep)
    ∧ f_status <$> failed_tests_summary rep
      = List.filter (λ st, String.eqb st "FAIL" || String.eqb st "TIMEOUT"
                           || String.eqb st "ERROR")
          (status <$> rs)
    ∧ Forall (λ f, (f_status f = "FAIL" ∨ f_status f = "TIMEOUT"
                    ∨ f_status f = "ERROR")%string
                   ∧ f_error f ≠ ""%string
                   ∧ String.length (f_error f) ≤ 500)
        (failed_tests_summary rep).
Proof.
  destruct (generate_comprehensive_report_returns t0 now idc rs)
    as (rep & Hrep & _).
  destruct (generate_comprehensive_report_inv t0 now idc rs rep Hrep)
    as (Hs & Hf & Ht & He & _).
  exists rep. split; [exact Hrep |].
  rewrite Hs, Hf, Ht, He, length_fmap, length_failures.
  split; [reflexivity |]. split.
  - rewrite <- list_fmap_compose.
    apply (fmap_filter_comm status
             (λ st, String.eqb st "FAIL" || String.eqb st "TIMEOUT"
                    || String.eqb st "ERROR")).
  - apply Forall_fmap, Forall_forall. intros r Hr.
    apply list_elem_of_In, List.filter_In in Hr as [_ Hr].
    split; [| apply error_excerpt_bounds].
    unfold is_failure in Hr. simpl.
    destruct (String.eqb_spec (status r) "FAIL"); [by left |].
    destruct (String.eqb_spec (status r) "TIMEOUT"); [by right; left |].
    destruct (String.eqb_spec (status r) "ERROR"); [by right; right |].
    discriminate.
Qed.

Lemma count_status_le_length (st : string) (rs : list ExecutionRecord) :
  count_status st rs ≤ length rs.
Proof. unfold count_status. apply List.filter_length_le. Qed.

(** A status is counted for every record exactly when every record has
    it, and for none exactly when no record has it. *)
Lemma count_status_all (st : string) (rs : list ExecutionRecord) :
  count_status st rs = length rs ↔ Forall (λ r, status r = st) rs.
Proof.
  induction rs as [| r rs IH]; [split; [constructor | reflexivity] |].
  pose proof (count_status_le_length st rs) as Hle.
  unfold count_status in *. simpl.
  destruct (String.eqb_spec (status r) st) as [Heq | Hne]; simpl.
  - split.
    + intros H. constructor; [exact Heq | apply IH; lia].
    + intros H. apply Forall_cons in H as [_ H]. apply IH in H. lia.
  - split; [lia |]. intros H. apply Forall_cons in H as [H _]. contradiction.
Qed.

Lemma count_status_none (st : string) (rs : list ExecutionRecord) :
  count_status st rs = 0 ↔ Forall (λ r, status r ≠ st) rs.
Proof.
  induction rs as [| r rs IH]; [split; [constructor | reflexivity] |].
  unfold count_status in *. simpl.
  destruct (String.eqb_spec (status r) st) as [Heq | Hne]; simpl.
  - split; [lia |]. intros H. apply Forall_cons in H as [H _]. contradiction.
  - split.
    + intros H. constructor; [exact Hne | by apply IH].
    + intros H. apply Forall_cons in H as [_ H]. by apply IH.
Qed.

(** The success rate lies between 0 and 100.  It is 100 exactly when there
    is at least one record and every record has status PASS, and 0 exactly
    when no record has status PASS (in particular when there is none).  On
    the report's own counters: it is 100 exactly when the total is at least
    1 and equals the passed count. *)
Theorem success_rate_bounds (t0 now idc : Z) (rs : list ExecutionRecord) :
  ∃ rep,
    generate_comprehensive_report t0 now idc rs = Ok rep
    ∧ (0 <= success_rate (execution_summary rep) <= 100)%R
    ∧ (success_rate (execution_summary rep) = 100%R
       ↔ rs ≠ [] ∧ Forall (λ r, status r = "PASS"%string) rs)
    ∧ (success_rate (execution_summary rep) = 0%R
       ↔ Forall (λ r, status r ≠ "PASS"%string) rs)
    ∧ (success_rate (execution_summary rep) = 100%R
       ↔ 1 ≤ total_tests (execution_summary rep)
         ∧ passed_tests (execution_summary rep)
           = total_tests (execution_summary rep)).
Proof.
  destruct (generate_comprehensive_report_returns t0 now idc rs)
    as (rep & Hrep & _ & _ & _ & Hn & Hp & _ & _ & _ & Hs).
  exists rep. split; [exact Hrep |]. rewrite Hs, Hn, Hp.
  rewrite <- (count_status_all "PASS" rs), <- (count_status_none "PASS" rs).
  pose proof (count_status_le_length "PASS" rs) as Hle.
  assert (rs ≠ [] ↔ 1 ≤ length rs) as Hne.
  { destruct rs; simpl; split; try congruence; lia. }
  rewrite Hne. clear Hne.
  destruct (length rs) as [| n] eqn:Hlen.
  - assert (count_status "PASS" rs = 0) as -> by lia.
    split; [lra |]. split; [split; [lra | lia] |].
    split; [split; [reflexivity | reflexivity] |]. split; [lra | lia].
  - set (p := count_status "PASS" rs) in *.
    assert (0 < INR (S n))%R as Hpos by (apply lt_0_INR; lia).
    assert (0 <= INR p)%R as Hp0 by apply pos_INR.
    assert (INR p <= INR (S n))%R as Hp1 by (by apply le_INR).
    assert (INR p / INR (S n) * 100 = 100 * INR p / INR (S n))%R as ->
      by (field; lra).
    assert ((100 * INR p / INR (S n))%R = 100%R ↔ p = S n) as H100.
    { split.
      - intros Heq. apply (Rmult_eq_compat_r (INR (S n))) in Heq.
        unfold Rdiv in Heq. rewrite Rmult_assoc, Rinv_l in Heq by lra.
        apply INR_eq. lra.
      - intros ->. field. lra. }
    assert ((100 * INR p / INR (S n))%R = 0%R ↔ p = 0) as H0.
    { split.
      - intros Heq. apply (Rmult_eq_compat_r (INR (S n))) in Heq.
        unfold Rdiv in Heq. rewrite Rmult_assoc, Rinv_l in Heq by lra.
        apply INR_eq. simpl INR. lra.
      - intros ->. simpl INR. unfold Rdiv. ring. }
    split.
    + split.
      * apply Rmult_le_pos; [lra |]. left. by apply Rinv_0_lt_compat.
      * apply (Rmult_le_reg_r (INR (S n))); [exact Hpos |].
        unfold Rdiv. rewrite Rmult_assoc, Rinv_l by lra. lra.
    + rewrite H100, H0. intuition lia.
Qed.

End VerdictFacts.

(* ===================================================================== *)
(** * What a whole run returns *)
(* ===================================================================== *)

Section RunFacts.
Import Executor Aggregates.

(** For records with one of the four statuses, no failure, timeout or
    error means that every record passed. *)
Lemma no_failures_all_pass (rs : list ExecutionRecord) :
  Forall (λ r, valid_status (status r)) rs →
  (count_status "FAIL" rs + count_status "TIMEOUT" rs
   + count_status "ERROR" rs =? 0)%nat
  = forallb is_pass rs.
Proof.
  unfold count_status, is_pass.
  induction 1 as [| r rs Hr _ IH]; [reflexivity |].
  simpl. destruct Hr as [-> | [-> | [-> | ->]]]; simpl; try exact IH;
    try reflexivity;
    match goal with |- (?n =? 0)%nat = false =>
      destruct (Nat.eqb_spec n 0); [lia | reflexivity] end.
Qed.

(** Both schedulers return, with one valid record per descriptor. *)
Lemma scheduled_returns (w : World) (parallel : bool) (max_workers : Z) :
  (parallel = true →
   (1 ≤ max_workers)%Z
   ∧ completion_order (pool_env w)
     ≡ₚ seq 0 (length (discover_all_tests w))) →
  ∃ rs, scheduled w parallel max_workers = Ok rs
        ∧ length rs = length (discover_all_tests w)
        ∧ Forall (λ r, valid_status (status r)) rs.
Proof.
  intros Hpar. unfold scheduled. destruct parallel.
  - destruct (Hpar eq_refl) as [Hw Hperm].
    unfold execute_tests_parallel.
    destruct (Z.leb_spec max_workers 0) as [| _]; [lia |].
    assert (Forall (λ i, i < length (discover_all_tests w))
              (completion_order (pool_env w))) as Hin.
    { rewrite Hperm. apply Forall_forall. intros i Hi.
      apply elem_of_seq in Hi. lia. }
    destruct (for_each_collect (pool_env w) (discover_all_tests w) _ Hin [])
      as (rs & -> & Hres).
    exists rs. split; [reflexivity |]. split.
    + apply Forall2_length in Hres. rewrite <- Hres, Hperm. apply length_seq.
    + clear -Hres. induction Hres as [| i r order rs' Hr _ IH]; constructor;
        [by eapply resolves_valid | exact IH].
  - unfold execute_tests_sequential.
    destruct (sequential_loop_spec (runner_env w) (discover_all_tests w) 0 [])
      as (rs & -> & Hl & _ & Hv).
    exists rs. auto.
Qed.

(** When discovery finds at least one test, the run schedules every test,
    generates the report and tries to save it.  If the report is saved the
    run returns whether every record passed, and [main] ends with status 0
    exactly in that case; if saving raises, the exception leaves
    [run_all_tests] after the report was generated, and [main] ends with
    status 1. *)
Theorem run_all_tests_outcome (w : World) (args : Args) :
  let parallel := negb (sequential args) in
  let max_workers := workers args in
  discover_all_tests w ≠ [] →
  (parallel = true →
   (1 ≤ max_workers)%Z
   ∧ completion_order (pool_env w)
     ≡ₚ seq 0 (length (discover_all_tests w))) →
  ∃ rs rep,
    scheduled w parallel max_workers = Ok rs
    ∧ length rs = length (discover_all_tests w)
    ∧ generate_comprehensive_report (execution_start_time w)
        (report_clock w) (id_clock w) rs = Ok rep
    ∧ detailed_results rep = rs
    ∧ run_all_tests w parallel max_workers
      = match save_report w rep with
        | Ok path =>
            (Ok (forallb is_pass rs), [Generated rep; Saved path rep])
        | Raise e => (Raise e, [Generated rep])
        end
    ∧ (fst (main w args) = 0%Z
       ↔ (∃ path, save_report w rep = Ok path) ∧ forallb is_pass rs = true).
Proof.
  intros parallel max_workers Hne Hpar.
  destruct (scheduled_returns w parallel max_workers Hpar)
    as (rs & Hrs & Hlen & Hvalid).
  destruct (generate_comprehensive_report_returns (execution_start_time w)
              (report_clock w) (id_clock w) rs)
    as (rep & Hrep & Hd & _ & _ & _ & _ & Hf & Ht & He & _).
  exists rs, rep. repeat (split; [assumption |]).
  assert (run_all_tests w parallel max_workers
          = match save_report w rep with
            | Ok path =>
                (Ok (forallb is_pass rs), [Generated rep; Saved path rep])
            | Raise e => (Raise e, [Generated rep])
            end) as Hrun.
  { unfold run_all_tests. unfold scheduled in Hrs.
    destruct (discover_all_tests w) as [| t ts] eqn:Hdisc; [congruence |].
    rewrite Hrs, Hrep.
    destruct (save_report w rep) as [path | e]; [| reflexivity].
    by rewrite Hf, Ht, He, no_failures_all_pass. }
  split; [exact Hrun |].
  unfold main. fold parallel max_workers. rewrite Hrun.
  destruct (save_report w rep) as [path | e].
  - destruct (forallb is_pass rs); simpl; split.
    + eauto.
    + reflexivity.
    + discriminate.
    + intros [_ ?]. discriminate.
  - simpl. split; [discriminate | intros [[path ?] _]; discriminate].
Qed.

Lemma run_all_tests_outcome_witness :
  discover_all_tests Scenarios.three_world ≠ []
  ∧ (negb (sequential Samples.default_args) = true →
     (1 ≤ workers Samples.default_args)%Z
     ∧ completion_order (pool_env Scenarios.three_world)
       ≡ₚ seq 0 (length (discover_all_tests Scenarios.three_world)))
  ∧ ∃ rs rep,
      scheduled Scenarios.three_world true 4 = Ok rs
      ∧ length rs = 3
      ∧ detailed_results rep = rs
      ∧ (fst (main Scenarios.three_world Samples.default_args) = 0%Z
         ↔ (∃ path, save_report Scenarios.three_world rep = Ok path)
           ∧ forallb is_pass rs = true).
Proof.
  assert (discover_all_tests Scenarios.three_world ≠ []) as Hne
    by discriminate.
  assert (negb (sequential Samples.default_args) = true →
          (1 ≤ workers Samples.default_args)%Z
          ∧ completion_order (pool_env Scenarios.three_world)
            ≡ₚ seq 0 (length (discover_all_tests Scenarios.three_world)))
    as Hpar.
  { intros _. split; [simpl; lia |]. simpl.
    apply perm_trans with [0; 2; 1].
    - apply perm_swap.
    - apply perm_skip, perm_swap. }
  split; [exact Hne |]. split; [exact Hpar |].
  destruct (run_all_tests_outcome Scenarios.three_world Samples.default_args
              Hne Hpar) as (rs & rep & Hs & Hl & _ & Hd & _ & Hmain).
  exists rs, rep. auto.
Defined.

(** A pool of fewer than one worker is refused: a parallel run that found
    tests raises [ValueError] before any test runs and before any report,
    and [main] ends with status 1.  A sequential run does not look at the
    worker count. *)
Theorem run_all_tests_worker_count (w : World) (max_workers : Z) :
  discover_all_tests w ≠ [] →
  (max_workers ≤ 0)%Z →
  run_all_tests w true max_workers
  = (Raise (ValueError "max_workers must be greater than 0"), [])
  ∧ main w {| sequential := false; workers := max_workers;
              project_root := "/opt/powerautomation" |}
    = (1%Z, [])
  ∧ ∀ n, run_all_tests w false max_workers = run_all_tests w false n.
Proof.
  intros Hne Hw.
  assert (run_all_tests w true max_workers
          = (Raise (ValueError "max_workers must be greater than 0"), []))
    as Hrun.
  { unfold run_all_tests, execute_tests_parallel.
    destruct (discover_all_tests w) as [| t ts]; [congruence |].
    destruct (Z.leb_spec max_workers 0); [reflexivity | lia]. }
  split; [exact Hrun |]. split.
  - unfold main. simpl negb. simpl workers. by rewrite Hrun.
  - intros n. reflexivity.
Qed.

Lemma run_all_tests_worker_count_witness :
  discover_all_tests Scenarios.three_world ≠ []
  ∧ (0 ≤ 0)%Z
  ∧ run_all_tests Scenarios.three_world true 0
    = (Raise (ValueError "max_workers must be greater than 0"), [])
  ∧ main Scenarios.three_world
         {| sequential := false; workers := 0;
            project_root := "/opt/powerautomation" |}
    = (1%Z, []).
Proof.
  assert (discover_all_tests Scenarios.three_world ≠ []) as Hne
    by discriminate.
  split; [exact Hne |]. split; [lia |].
  destruct (run_all_tests_worker_count Scenarios.three_world 0 Hne
              ltac:(lia)) as (Hrun & Hmain & _).
  auto.
Defined.

(** The [j]-th record of the sequential loop is the runner's record for the
    [j]-th descriptor. *)
Lemma sequential_loop_lookup (envs : nat → RunEnv) (tests : list TestInfo) :
  ∀ i results,
    ∃ rs, sequential_loop envs i results tests = Ok (results ++ rs)
          ∧ length rs = length tests
          ∧ ∀ j t, tests !! j = Some t →
                   ∃ r, rs !! j = Some r
                        ∧ execute_single_test (envs (i + j)) t = Ok r.
Proof.
  induction tests as [| t tests IH]; intros i results; simpl.
  - exists []. rewrite app_nil_r. repeat split. intros j t Hj. discriminate.
  - destruct (execute_single_test_returns (envs i) t) as (r & Hr & _).
    rewrite Hr. simpl.
    destruct (IH (S i) (results ++ [r])) as (rs & -> & Hl & Hrs).
    exists (r :: rs). rewrite <- app_assoc.
    split; [reflexivity |]. split; [simpl; lia |].
    intros [| j] t' Hj; simpl in Hj.
    + injection Hj as <-. exists r. by rewrite Nat.add_0_r.
    + destruct (Hrs j t' Hj) as (r' & Hr' & He).
      exists r'. split; [exact Hr' |].
      by replace (i + S j) with (S i + j) by lia.
Qed.

(** When the pool itself does not fail and each task meets the surroundings
    that the sequential run meets for the same descriptor, the parallel run
    returns the records of the sequential run, in the order of completion. *)
Theorem parallel_permutes_sequential (pe : PoolEnv) (envs : nat → RunEnv)
    (tests : list TestInfo) (max_workers : Z) :
  (1 ≤ max_workers)%Z →
  completion_order pe ≡ₚ seq 0 (length tests) →
  (∀ i, worker_failure pe i = None) →
  (∀ i, task_env pe i = envs i) →
  ∃ rs rp,
    execute_tests_sequential envs tests = Ok rs
    ∧ execute_tests_parallel pe tests max_workers = Ok rp
    ∧ rp ≡ₚ rs
    ∧ Forall2 (λ i r, rs !! i = Some r) (completion_order pe) rp.
Proof.
  intros Hw Hperm Hnofail Henv.
  unfold execute_tests_sequential, execute_tests_parallel.
  destruct (sequential_loop_lookup envs tests 0 []) as (rs & -> & Hl & Hrs).
  destruct (Z.leb_spec max_workers 0) as [| _]; [lia |].
  assert (Forall (λ i, i < length tests) (completion_order pe)) as Hin.
  { rewrite Hperm. apply Forall_forall. intros i Hi.
    apply elem_of_seq in Hi. lia. }
  destruct (for_each_collect pe tests _ Hin []) as (rp & -> & Hres).
  exists rs, rp. split; [reflexivity |]. split; [reflexivity |].
  assert (Forall2 (λ i r, rs !! i = Some r) (completion_order pe) rp) as Hpos.
  { eapply Forall2_impl; [exact Hres |].
    intros i r (t & Ht & Hr). unfold future_result in Hr.
    rewrite Hnofail, Henv in Hr.
    destruct (Hrs i t Ht) as (r' & Hr' & He). simpl in He.
    rewrite He in Hr. by subst r. }
  split; [| exact Hpos].
  assert (Some <$> rp = (λ i, rs !! i) <$> completion_order pe) as Heq.
  { clear -Hpos. induction Hpos as [| i r order rp Hr _ IH]; [reflexivity |].
    rewrite !fmap_cons, IH, Hr. reflexivity. }
  assert ((λ i, rs !! i) <$> seq 0 (length tests) = Some <$> rs) as Hall.
  { rewrite <- Hl. apply list_eq. intros i. rewrite !list_lookup_fmap.
    destruct (decide (i < length rs)) as [Hlt | Hge].
    - rewrite lookup_seq_lt by done. simpl.
      destruct (lookup_lt_is_Some_2 rs i Hlt) as [a Ha]. by rewrite Ha.
    - rewrite lookup_seq_ge by lia. by rewrite lookup_ge_None_2 by lia. }
  assert (Some <$> rp ≡ₚ Some <$> rs) as HP
    by (rewrite Heq, <- Hall; by apply fmap_Permutation).
  eapply (fmap_Permutation (from_option (λ r, r) (error_result pe 0
            {| ti_module_name := ""; ti_module_type := ""; ti_test_type := "";
               ti_test_file := []; ti_test_path := "" |}
            (RuntimeError "")))) in HP.
  rewrite <- !list_fmap_compose in HP.
  by rewrite !list_fmap_id in HP.
Qed.

Lemma parallel_permutes_sequential_witness :
  (1 ≤ 4)%Z
  ∧ completion_order Scenarios.quiet_pool
    ≡ₚ seq 0 (length Samples.three_tests)
  ∧ (∀ i, worker_failure Scenarios.quiet_pool i = None)
  ∧ (∀ i, task_env Scenarios.quiet_pool i = Samples.three_envs i)
  ∧ ∃ rs rp,
      execute_tests_sequential Samples.three_envs Samples.three_tests = Ok rs
      ∧ execute_tests_parallel Scenarios.quiet_pool Samples.three_tests 4
        = Ok rp
      ∧ rp ≡ₚ rs.
Proof.
  assert (completion_order Scenarios.quiet_pool
          ≡ₚ seq 0 (length Samples.three_tests)) as Hperm.
  { simpl. apply perm_trans with [0; 2; 1].
    - apply perm_swap.
    - apply perm_skip, perm_swap. }
  split; [lia |]. split; [exact Hperm |].
  split; [reflexivity |]. split; [reflexivity |].
  destruct (parallel_permutes_sequential Scenarios.quiet_pool
              Samples.three_envs Samples.three_tests 4 ltac:(lia) Hperm
              (λ i, eq_refl) (λ i, eq_refl))
    as (rs & rp & Hs & Hp & Hrp & _).
  exists rs, rp. auto.
Defined.

End RunFacts.

(* ===================================================================== *)
(** * Properties of the discovery *)
(* ===================================================================== *)

Section DiscoveryFacts.
Import Executor Discovery.

Lemma name_of_test_file (root_path : Path) (a b c d f : string) :
  name (root_path ++ [a; b; c; d; f]) = f.
Proof.
  unfold name.
  change (root_path ++ [a; b; c; d; f])
    with (root_path ++ [a; b; c; d] ++ [f]).
  rewrite app_assoc. apply List.last_last.
Qed.

Lemma tests_in_well_formed (root_path : Path) (module_dir : node)
    (module_type kind : string) :
  module_type = "adapter"%string ∨ module_type = "workflow"%string →
  kind = "unit"%string ∨ kind = "integration"%string →
  String.prefix "." (node_name module_dir) = false →
  Forall (well_formed root_path)
    (tests_in root_path module_dir module_type kind (kind +:+ "_tests")).
Proof.
  intros Hty Hkind Hvisible. unfold tests_in.
  destruct (child module_dir (kind +:+ "_tests")) as [tests_dir |];
    [| constructor].
  apply Forall_fmap, Forall_forall. intros f Hf.
  apply list_elem_of_In, List.filter_In in Hf as [_ Hf].
  unfold well_formed. simpl. rewrite name_of_test_file. auto 10.
Qed.

Lemma discover_module_tests_well_formed (root_path : Path)
    (module_dir : node) (module_type : string) :
  module_type = "adapter"%string ∨ module_type = "workflow"%string →
  String.prefix "." (node_name module_dir) = false →
  Forall (well_formed root_path)
    (_discover_module_tests root_path module_dir module_type).
Proof.
  intros Hty Hvisible. unfold _discover_module_tests. simpl.
  apply Forall_app. split.
  - apply (tests_in_well_formed root_path module_dir module_type "unit");
      auto.
  - apply (tests_in_well_formed root_path module_dir module_type
             "integration"); auto.
Qed.

Lemma discover_category_well_formed (root_path : Path) (root : node)
    (module_type : string) (ds : list TestInfo) :
  module_type = "adapter"%string ∨ module_type = "workflow"%string →
  discover_category root_path root module_type = Ok ds →
  Forall (well_formed root_path) ds.
Proof.
  intros Hty. unfold discover_category.
  destruct (child root "mcp" ≫= _) as [category_path |];
    [| intros [= <-]; constructor].
  destruct (iterdir category_path) as [module_dirs | e]; simpl;
    [| discriminate].
  intros [= <-]. apply List.Forall_concat, Forall_fmap, Forall_forall.
  intros module_dir _. unfold compose.
  destruct (is_dir module_dir); simpl; [| constructor].
  destruct (String.prefix "." (node_name module_dir)) eqn:Hdot; simpl;
    [constructor |].
  by apply discover_module_tests_well_formed.
Qed.

Lemma discover_all_tests_split (root_path : Path) (root : node)
    (ds : list TestInfo) :
  discover_all_tests root_path root = Ok ds →
  ∃ a w, discover_category root_path root "adapter" = Ok a
         ∧ discover_category root_path root "workflow" = Ok w
         ∧ ds = a ++ w.
Proof.
  unfold discover_all_tests.
  destruct (discover_category root_path root "adapter") as [a | e];
    simpl; [| discriminate].
  destruct (discover_category root_path root "workflow") as [w | e];
    simpl; [| discriminate].
  intros [= <-]. eauto.
Qed.

(** Every descriptor that discovery returns belongs to the category
    [adapter] or [workflow] and to the kind [unit] or [integration]; its file
    name matches [test_*.py], its module name does not start with a dot, its
    file lies at [mcp/<category>/<module>/<kind>_tests/<file>] below the
    project root, and its test path is that relative path. *)
Theorem discovered_tests_well_formed (root_path : Path) (root : node)
    (ds : list TestInfo) :
  discover_all_tests root_path root = Ok ds →
  Forall (well_formed root_path) ds.
Proof.
  intros H. apply discover_all_tests_split in H as (a & w & Ha & Hw & ->).
  apply Forall_app. split.
  - eapply discover_category_well_formed; [| exact Ha]. auto.
  - eapply discover_category_well_formed; [| exact Hw]. auto.
Qed.

Lemma discovered_tests_well_formed_witness :
  ∃ ds,
    discover_all_tests Scenarios.root_path Scenarios.project = Ok ds
    ∧ ti_module_name <$> ds = ["alpha"; "alpha"; "beta"]
    ∧ Forall (well_formed Scenarios.root_path) ds.
Proof.
  eexists. split; [vm_compute; reflexivity |].
  split; [reflexivity |].
  apply (discovered_tests_well_formed Scenarios.root_path Scenarios.project).
  vm_compute. reflexivity.
Defined.

Lemma discover_category_returns (root_path : Path) (root : node)
    (module_type : string) :
  (∃ ds, discover_category root_path root module_type = Ok ds)
  ↔ category_is_file root module_type = false.
Proof.
  unfold discover_category, category_is_file.
  destruct (child root "mcp" ≫= _) as [[nm | nm es] |]; simpl.
  - split; [intros [ds H]; discriminate | discriminate].
  - split; eauto.
  - split; eauto.
Qed.

(** Discovery returns exactly when neither [mcp/adapter] nor [mcp/workflow]
    is a regular file; otherwise listing that path raises.  When neither
    path exists the result is empty. *)
Theorem discovery_returns (root_path : Path) (root : node) :
  ((∃ ds, discover_all_tests root_path root = Ok ds)
   ↔ category_is_file root "adapter" = false
     ∧ category_is_file root "workflow" = false)
  ∧ (child root "mcp" ≫= (λ mcp, child mcp "adapter") = None →
     child root "mcp" ≫= (λ mcp, child mcp "workflow") = None →
     discover_all_tests root_path root = Ok []).
Proof.
  split.
  - rewrite <- !(discover_category_returns root_path).
    unfold discover_all_tests. split.
    + intros [ds H].
      destruct (discover_category root_path root "adapter") as [a | e];
        simpl in H; [| discriminate].
      destruct (discover_category root_path root "workflow") as [w | e];
        simpl in H; [| discriminate].
      eauto.
    + intros [[a ->] [w ->]]. simpl. eauto.
  - intros Ha Hw. unfold discover_all_tests, discover_category.
    rewrite Ha, Hw. reflexivity.
Qed.

(** A project root without [mcp/adapter] and without [mcp/workflow]: the
    run returns [False] and produces no report. *)
Theorem run_without_categories (root_path : Path) (root : node) (w : World)
    (parallel : bool) (max_workers : Z) :
  child root "mcp" ≫= (λ mcp, child mcp "adapter") = None →
  child root "mcp" ≫= (λ mcp, child mcp "workflow") = None →
  run_all_tests_on root_path root w parallel max_workers = (Ok false, []).
Proof.
  intros Ha Hw. unfold run_all_tests_on, discover_all_tests, discover_category.
  rewrite Ha, Hw. reflexivity.
Qed.

Lemma run_without_categories_witness :
  child Scenarios.bare_project "mcp" ≫= (λ mcp, child mcp "adapter") = None
  ∧ child Scenarios.bare_project "mcp" ≫= (λ mcp, child mcp "workflow") = None
  ∧ run_all_tests_on Scenarios.root_path Scenarios.bare_project
      Scenarios.three_world true 4 = (Ok false, []).
Proof.
  split; [reflexivity |]. split; [reflexivity |].
  apply (run_without_categories Scenarios.root_path Scenarios.bare_project
           Scenarios.three_world true 4); reflexivity.
Defined.

End DiscoveryFacts.

(* ===================================================================== *)
(** * Properties of the status overview *)
(* ===================================================================== *)

Section ManagerFacts.
Import Executor Discovery Manager.

Lemma size_union_le (X Y : gset string) : size (X ∪ Y) ≤ size X + size Y.
Proof.
  rewrite size_union_alt.
  assert (size (Y ∖ X) ≤ size Y) as Hd.
  { apply subseteq_size. apply subseteq_difference_l. reflexivity. }
  lia.
Qed.

Lemma size_list_to_set_le (l : list string) :
  size (list_to_set (C := gset string) l) ≤ length l.
Proof.
  induction l as [| x l IH].
  - by rewrite list_to_set_nil, size_empty.
  - rewrite list_to_set_cons. simpl length.
    pose proof (size_union_le {[x]} (list_to_set l)) as Hu.
    rewrite size_singleton in Hu. lia.
Qed.

Lemma count_modules_le (keep : TestInfo → bool) (ds : list TestInfo) :
  count_modules keep ds ≤ count_modules (λ _, true) ds.
Proof.
  unfold count_modules. apply subseteq_size.
  intros x. rewrite !elem_of_list_to_set, !list_elem_of_fmap.
  intros (d & -> & Hd). exists d. split; [reflexivity |].
  apply list_elem_of_In, List.filter_In in Hd as [Hd _].
  apply list_elem_of_In, List.filter_In. split; [exact Hd | reflexivity].
Qed.

Lemma kinds_partition (root_path : Path) (ds : list TestInfo) :
  Forall (well_formed root_path) ds →
  length (List.filter (λ m, String.eqb (ti_test_type m) "unit") ds)
  + length (List.filter (λ m, String.eqb (ti_test_type m) "integration") ds)
  = length ds.
Proof.
  induction 1 as [| d ds Hd _ IH]; [reflexivity |].
  destruct Hd as (_ & [Hk | Hk] & _); simpl; rewrite Hk; simpl; lia.
Qed.

Lemma categories_cover (root_path : Path) (ds : list TestInfo) :
  Forall (well_formed root_path) ds →
  count_modules (λ _, true) ds
  ≤ count_modules (λ m, String.eqb (ti_module_type m) "adapter") ds
    + count_modules (λ m, String.eqb (ti_module_type m) "workflow") ds.
Proof.
  intros Hwf. unfold count_modules.
  etrans; [| apply size_union_le]. apply subseteq_size.
  intros x. rewrite elem_of_union, !elem_of_list_to_set, !list_elem_of_fmap.
  intros (d & -> & Hd).
  apply list_elem_of_In, List.filter_In in Hd as [Hd _].
  pose proof (proj1 (List.Forall_forall _ _) Hwf d Hd) as ([Hc | Hc] & _).
  - left. exists d. split; [reflexivity |].
    apply list_elem_of_In, List.filter_In. by rewrite Hc.
  - right. exists d. split; [reflexivity |].
    apply list_elem_of_In, List.filter_In. by rewrite Hc.
Qed.

(** The status overview built on a discovery.  If the discovery raises, the
    status is the error dictionary with the exception's text.  Otherwise
    (the search of the reports directory succeeding) the overview counts
    every descriptor once as a unit or as an integration test; the number of
    distinct module names is at most the number of tests, at least the
    number of adapter modules and the number of workflow modules, and at
    most their sum (a name used in both categories counts once). *)
Theorem status_overview_consistent (root_path : Path) (root : node)
    (newest : LatestReports) (last : LastOperations) (query_time : Z) :
  match discover_all_tests root_path root with
  | Raise e =>
      get_test_status (discover_all_tests root_path root) (Ok newest) last
        query_time
      = StatusError (exn_str e) query_time
  | Ok ds =>
      ∃ ov,
        get_test_status (discover_all_tests root_path root) (Ok newest) last
          query_time
        = StatusSuccess ov last newest query_time
        ∧ total_tests ov = length ds
        ∧ unit_tests ov + integration_tests ov = total_tests ov
        ∧ total_modules ov ≤ total_tests ov
        ∧ adapter_modules ov ≤ total_modules ov
        ∧ workflow_modules ov ≤ total_modules ov
        ∧ total_modules ov ≤ adapter_modules ov + workflow_modules ov
  end.
Proof.
  destruct (discover_all_tests root_path root) as [ds | e] eqn:Hd;
    [| reflexivity].
  assert (Forall (well_formed root_path) ds) as Hwf.
  { destruct (discover_all_tests_split _ _ _ Hd) as (a & w & Ha & Hw & ->).
    apply Forall_app. split.
    - eapply discover_category_well_formed; [| exact Ha]. auto.
    - eapply discover_category_well_formed; [| exact Hw]. auto. }
  eexists. split; [reflexivity |]. simpl.
  split; [reflexivity |].
  split; [by eapply kinds_partition |].
  split.
  { unfold count_modules. etrans; [apply size_list_to_set_le |].
    rewrite length_fmap. apply List.filter_length_le. }
  split; [apply count_modules_le |].
  split; [apply count_modules_le |].
  by eapply categories_cover.
Qed.

End ManagerFacts.

(* ===================================================================== *)
(** * Score, level and confidence of the comprehensive analysis *)
(* ===================================================================== *)

Section ScoreFacts.
Import Statistics Performance Analysis.
Local Open Scope R_scope.

(** The mean of a non-empty list lies between any two bounds of its
    items. *)
Lemma sum_between (a b : R) (l : list R) :
  Forall (λ x, a <= x <= b) l →
  INR (length l) * a <= sum l <= INR (length l) * b.
Proof.
  induction 1 as [| x l Hx _ IH].
  - simpl. unfold sum. simpl. lra.
  - change (length (x :: l)) with (S (length l)). rewrite S_INR.
    change (sum (x :: l)) with (x + sum l). lra.
Qed.

Lemma mean_between (a b : R) (l : list R) :
  l ≠ [] → Forall (λ x, a <= x <= b) l →
  a <= sum l / INR (length l) <= b.
Proof.
  intros Hne Hl. pose proof (sum_between a b l Hl) as [H1 H2].
  assert (0 < INR (length l)) as Hn.
  { apply lt_0_INR. destruct l; [congruence | simpl; lia]. }
  split.
  - apply (Rmult_le_reg_r (INR (length l))); [exact Hn |].
    unfold Rdiv. rewrite Rmult_assoc, Rinv_l by lra. lra.
  - apply (Rmult_le_reg_r (INR (length l))); [exact Hn |].
    unfold Rdiv. rewrite Rmult_assoc, Rinv_l by lra. lra.
Qed.

Lemma score_low_range (v a b c : R) : 40 <= score_low v a b c <= 100.
Proof.
  unfold score_low.
  repeat match goal with |- context [Rle_dec ?x ?y] =>
                           destruct (Rle_dec x y) end; lra.
Qed.

Lemma score_high_range (v a b c : R) : 40 <= score_high v a b c <= 100.
Proof.
  unfold score_high.
  repeat match goal with |- context [Rge_dec ?x ?y] =>
                           destruct (Rge_dec x y) end; lra.
Qed.

Lemma metric_scores_range (metrics : Metrics) :
  Forall (λ x, 40 <= x <= 100) (metric_scores metrics).
Proof.
  unfold metric_scores.
  destruct (assoc "execution_time" metrics),
    (assoc "memory_usage" metrics), (assoc "cpu_usage" metrics),
    (assoc "test_success_rate" metrics); simpl;
    repeat (apply List.Forall_cons;
            [first [apply score_low_range | apply score_high_range] |]);
    apply List.Forall_nil.
Qed.

Lemma overall_score_returns (metrics : Metrics) :
  ∃ score, _calculate_overall_score metrics = Ok score
           ∧ 40 <= score <= 100
           ∧ (metric_scores metrics = [] → score = 50).
Proof.
  unfold _calculate_overall_score.
  destruct metrics as [| item metrics]; [exists 50; repeat split; lra |].
  pose proof (metric_scores_range (item :: metrics)) as Hrange.
  destruct (metric_scores (item :: metrics)) as [| s scores] eqn:Hsc.
  - exists 50. repeat split; lra.
  - rewrite mean_returns by discriminate. eexists. split; [reflexivity |].
    split; [by apply mean_between | discriminate].
Qed.

Lemma level_not_critical (score : R) :
  40 <= score → _determine_performance_level score ≠ CRITICAL.
Proof.
  intros Hs. unfold _determine_performance_level.
  repeat match goal with |- context [Rge_dec ?x ?y] =>
                           destruct (Rge_dec x y) end;
    try discriminate. lra.
Qed.

(** The overall score is always produced and lies between 40 and 100; it is
    50 when the dictionary holds none of the four scored metrics.  The
    level determined from it is therefore never CRITICAL. *)
Theorem overall_score_bounds (metrics : Metrics) :
  ∃ score,
    _calculate_overall_score metrics = Ok score
    ∧ 40 <= score <= 100
    ∧ (assoc "execution_time" metrics = None
       ∧ assoc "memory_usage" metrics = None
       ∧ assoc "cpu_usage" metrics = None
       ∧ assoc "test_success_rate" metrics = None → score = 50)
    ∧ _determine_performance_level score ≠ CRITICAL.
Proof.
  destruct (overall_score_returns metrics) as (score & Hs & Hr & H50).
  exists score. split; [exact Hs |]. split; [exact Hr |]. split.
  - intros (H1 & H2 & H3 & H4). apply H50. unfold metric_scores.
    by rewrite H1, H2, H3, H4.
  - apply level_not_critical. lra.
Qed.

(** The confidence lies between 0.5 and 1, and it is 1 exactly when the
    dictionary has at least four metrics and the history at least a hundred
    entries. *)
Theorem analysis_confidence_bounds (metrics : Metrics) (history_length : nat) :
  0.5 <= _calculate_analysis_confidence metrics history_length <= 1
  ∧ (_calculate_analysis_confidence metrics history_length = 1
     ↔ (4 ≤ length metrics)%nat ∧ (100 ≤ history_length)%nat).
Proof.
  unfold _calculate_analysis_confidence.
  destruct (Nat.leb_spec 4 (length metrics));
    [| destruct (Nat.leb_spec 2 (length metrics))];
    (destruct (Nat.leb_spec 100 history_length);
     [| destruct (Nat.leb_spec 50 history_length)]);
    unfold Rmin;
    match goal with |- context [Rle_dec ?x ?y] => destruct (Rle_dec x y) end;
    (split; [lra |]); (split; [intros ?; first [lra | split; lia]
                              | intros [? ?]; first [lra | lia]]).
Qed.

End ScoreFacts.

(* ===================================================================== *)
(** * Bottlenecks and recommendations *)
(* ===================================================================== *)

Section BottleneckFacts.
Import Statistics Performance Analysis.
Local Open Scope R_scope.

Lemma length_flat_map_le {A B} (f : A → list B) (l : list A) :
  (∀ a, length (f a) ≤ 1)%nat → (length (List.flat_map f l) ≤ length l)%nat.
Proof.
  intros Hf. induction l as [| a l IH]; simpl; [lia |].
  rewrite length_app. specialize (Hf a). lia.
Qed.

Lemma length_bottleneck_of (metric_name : string) (v : R) :
  (length (bottleneck_of metric_name v) ≤ 1)%nat.
Proof.
  unfold bottleneck_of.
  destruct (performance_thresholds !! metric_name) as [[w c] |]; [| simpl; lia].
  destruct (higher_is_worse metric_name);
    repeat match goal with |- context [if ?d then _ else _] => destruct d end;
    simpl; lia.
Qed.

Lemma bottleneck_of_sound (metric_name : string) (v : R) (b : Bottleneck) :
  In b (bottleneck_of metric_name v) →
  b_metric b = metric_name ∧ b_current_value b = v
  ∧ ∃ warning critical,
      performance_thresholds !! metric_name = Some (warning, critical)
      ∧ ((b_severity b = "critical"%string
          ∧ b_type b = "critical_threshold"%string
          ∧ b_threshold b = critical
          ∧ beyond metric_name v critical)
         ∨ (b_severity b = "warning"%string
            ∧ b_type b = "warning_threshold"%string
            ∧ b_threshold b = warning
            ∧ beyond metric_name v warning
            ∧ ¬ beyond metric_name v critical)).
Proof.
  unfold bottleneck_of, beyond.
  destruct (performance_thresholds !! metric_name) as [[w c] |];
    [| intros []].
  destruct (higher_is_worse metric_name).
  - destruct (Rge_dec v c); [| destruct (Rge_dec v w)]; simpl;
      intros H; try contradiction; destruct H as [<- | []]; simpl;
      (split; [reflexivity |]); (split; [reflexivity |]);
      exists w, c; (split; [reflexivity |]); [left | right]; auto.
  - destruct (Rle_dec v c); [| destruct (Rle_dec v w)]; simpl;
      intros H; try contradiction; destruct H as [<- | []]; simpl;
      (split; [reflexivity |]); (split; [reflexivity |]);
      exists w, c; (split; [reflexivity |]); [left | right]; auto.
Qed.

Lemma bottleneck_of_complete (metric_name : string) (v warning critical : R) :
  performance_thresholds !! metric_name = Some (warning, critical) →
  beyond metric_name v warning ∨ beyond metric_name v critical →
  ∃ b, bottleneck_of metric_name v = [b].
Proof.
  unfold bottleneck_of, beyond. intros ->.
  destruct (higher_is_worse metric_name).
  - destruct (Rge_dec v critical); [eauto |].
    destruct (Rge_dec v warning); [eauto |]. intros [? | ?]; contradiction.
  - destruct (Rle_dec v critical); [eauto |].
    destruct (Rle_dec v warning); [eauto |]. intros [? | ?]; contradiction.
Qed.

(** There is at most one bottleneck per metric of the dictionary.  Every
    bottleneck names a metric of the dictionary that has thresholds, with
    its value: a critical one when the value is beyond the critical level,
    a warning one when it is beyond the warning level only.  Conversely
    every metric with thresholds whose value is beyond one of its two levels
    has a bottleneck. *)
Theorem bottlenecks_characterised (metrics : Metrics) :
  (length (_identify_bottlenecks metrics) ≤ length metrics)%nat
  ∧ (∀ b, In b (_identify_bottlenecks metrics) →
          In (b_metric b, b_current_value b) metrics
          ∧ ∃ warning critical,
              performance_thresholds !! b_metric b = Some (warning, critical)
              ∧ ((b_severity b = "critical"%string
                  ∧ b_type b = "critical_threshold"%string
                  ∧ b_threshold b = critical
                  ∧ beyond (b_metric b) (b_current_value b) critical)
                 ∨ (b_severity b = "warning"%string
                    ∧ b_type b = "warning_threshold"%string
                    ∧ b_threshold b = warning
                    ∧ beyond (b_metric b) (b_current_value b) warning
                    ∧ ¬ beyond (b_metric b) (b_current_value b) critical)))
  ∧ (∀ metric_name v warning critical,
       In (metric_name, v) metrics →
       performance_thresholds !! metric_name = Some (warning, critical) →
       beyond metric_name v warning ∨ beyond metric_name v critical →
       ∃ b, In b (_identify_bottlenecks metrics)
            ∧ b_metric b = metric_name ∧ b_current_value b = v).
Proof.
  unfold _identify_bottlenecks. split; [| split].
  - apply length_flat_map_le. intros [n v]. apply length_bottleneck_of.
  - intros b Hb. apply List.in_flat_map in Hb as ([n v] & Hin & Hb).
    simpl in Hb. apply bottleneck_of_sound in Hb as (-> & -> & Hrest).
    split; [exact Hin | exact Hrest].
  - intros n v w c Hin Hth Hbeyond.
    destruct (bottleneck_of_complete n v w c Hth Hbeyond) as [b Hb].
    exists b. assert (In b (bottleneck_of n v)) as Hb'
      by (rewrite Hb; by left).
    split.
    + apply List.in_flat_map. exists (n, v). split; [exact Hin | exact Hb'].
    + apply bottleneck_of_sound in Hb' as (? & ? & _). auto.
Qed.

Lemma recommendation_of_advised (b : Bottleneck) :
  length (recommendation_of b) = if advised (b_metric b) then 1%nat else 0%nat.
Proof.
  unfold recommendation_of, advised. simpl.
  destruct (String.eqb (b_metric b) "execution_time"); [reflexivity |].
  destruct (String.eqb (b_metric b) "memory_usage"); [reflexivity |].
  destruct (String.eqb (b_metric b) "cpu_usage"); [reflexivity |].
  destruct (String.eqb (b_metric b) "test_success_rate"); reflexivity.
Qed.

Lemma length_recommendations_of (bottlenecks : list Bottleneck) :
  length (List.flat_map recommendation_of bottlenecks)
  = length (List.filter (λ b, advised (b_metric b)) bottlenecks).
Proof.
  induction bottlenecks as [| b bs IH]; [reflexivity |]. simpl.
  rewrite length_app, recommendation_of_advised, IH.
  destruct (advised (b_metric b)); reflexivity.
Qed.

(** There is always at least one recommendation: one for each bottleneck on
    execution time, memory usage, CPU usage or test success rate, and the
    general low-priority one when there is no such bottleneck, even if
    there are bottlenecks on other metrics. *)
Theorem recommendations_never_empty (metrics : Metrics)
    (bottlenecks : list Bottleneck) :
  let advisable := List.filter (λ b, advised (b_metric b)) bottlenecks in
  _generate_performance_recommendations metrics bottlenecks ≠ []
  ∧ length (_generate_performance_recommendations metrics bottlenecks)
    = Nat.max 1 (length advisable)
  ∧ (advisable = [] →
     _generate_performance_recommendations metrics bottlenecks
     = [general_recommendation]).
Proof.
  intros advisable. unfold _generate_performance_recommendations.
  pose proof (length_recommendations_of bottlenecks) as Hlen.
  fold advisable in Hlen.
  destruct (List.flat_map recommendation_of bottlenecks) as [| r rs] eqn:Hr.
  - simpl in *. split; [discriminate |]. split; [lia | reflexivity].
  - split; [discriminate |]. split; [simpl in *; lia |].
    intros Ha. rewrite Ha in Hlen. discriminate.
Qed.

End BottleneckFacts.

(* ===================================================================== *)
(** * Collecting the metrics *)
(* ===================================================================== *)

Section CollectFacts.
Import Statistics Performance Analysis.
Local Open Scope R_scope.

(** The collected metrics, name by name. *)
Lemma collected_shape (timestamp : Z) (tr : TestResults)
    (ms : list PerformanceMetric) :
  collected timestamp tr = Ok ms →
  ∃ rate avg,
    ms = optional_metric "execution_time" "seconds" (tr_execution_time tr)
           timestamp
         ++ optional_metric "memory_usage" "percentage" (tr_memory_usage tr)
              timestamp
         ++ optional_metric "cpu_usage" "percentage" (tr_cpu_usage tr)
              timestamp
         ++ optional_metric "test_success_rate" "percentage" rate timestamp
         ++ optional_metric "response_time" "seconds" avg timestamp
         ++ optional_metric "throughput" "requests_per_second"
              (tr_throughput tr) timestamp.
Proof.
  unfold collected.
  set (m3 := (match tr_cpu_usage tr with Some _ => _ | None => _ end)).
  assert (m3 = optional_metric "execution_time" "seconds"
                 (tr_execution_time tr) timestamp
               ++ optional_metric "memory_usage" "percentage"
                    (tr_memory_usage tr) timestamp
               ++ optional_metric "cpu_usage" "percentage" (tr_cpu_usage tr)
                    timestamp) as ->.
  { unfold m3. destruct (tr_execution_time tr), (tr_memory_usage tr),
      (tr_cpu_usage tr); reflexivity. }
  set (m := _ ++ _ ++ _).
  assert (∀ m4 : res (list PerformanceMetric),
            (∃ rate, m4 = Ok (m ++ optional_metric "test_success_rate"
                                      "percentage" rate timestamp))
            ∨ (∃ e, m4 = Raise e) →
            (m4 ≫= λ metrics,
               (match tr_response_times tr with
                | Some response_times =>
                    avg_response_time ← mean response_times;
                    Ok (metrics ++ [metric "response_time" "seconds"
                                           avg_response_time timestamp])
                | None => Ok metrics
                end) ≫= λ metrics,
                 Ok match tr_throughput tr with
                    | Some v => metrics ++ [metric "throughput"
                                  "requests_per_second" v timestamp]
                    | None => metrics
                    end) = Ok ms →
            ∃ rate avg,
              ms = m ++ optional_metric "test_success_rate" "percentage"
                          rate timestamp
                   ++ optional_metric "response_time" "seconds" avg timestamp
                   ++ optional_metric "throughput" "requests_per_second"
                        (tr_throughput tr) timestamp) as Hrest.
  { intros m4 [[rate ->] | [e ->]]; simpl; [| discriminate].
    destruct (tr_response_times tr) as [times |].
    - destruct (mean times) as [avg | e]; simpl; [| discriminate].
      intros [= <-]. exists rate, (Some avg).
      destruct (tr_throughput tr); simpl; by rewrite <- ?app_assoc.
    - simpl. intros [= <-]. exists rate, None.
      destruct (tr_throughput tr); simpl; by rewrite <- ?app_assoc, ?app_nil_r. }
  intros H. apply Hrest in H.
  - destruct H as (rate & avg & ->). exists rate, avg.
    unfold m. by rewrite <- !app_assoc.
  - destruct (tr_total_tests tr) as [total |];
      [| left; exists None; by rewrite app_nil_r].
    destruct (tr_passed_tests tr) as [passed |];
      [| left; exists None; by rewrite app_nil_r].
    unfold truediv_int. destruct (total =? 0)%Z; simpl; [right; eauto |].
    left. by eexists (Some _).
Qed.

Lemma sublist_optional (metric_name unit : string) (v : option R) (now : Z) :
  sublist (name <$> optional_metric metric_name unit v now) [metric_name].
Proof.
  destruct v; simpl; [reflexivity | apply sublist_nil_l].
Qed.

Lemma collected_facts (timestamp : Z) (tr : TestResults)
    (ms : list PerformanceMetric) :
  collected timestamp tr = Ok ms →
  sublist (name <$> ms) collected_names
  ∧ Forall (λ m, Performance.timestamp m = timestamp) ms.
Proof.
  intros H. apply collected_shape in H as (rate & avg & ->). split.
  - rewrite !fmap_app.
    change collected_names
      with (["execution_time"] ++ ["memory_usage"] ++ ["cpu_usage"]
            ++ ["test_success_rate"] ++ ["response_time"]
            ++ ["throughput"]).
    repeat (apply sublist_app; [apply sublist_optional |]).
    apply sublist_optional.
  - repeat (apply Forall_app; split);
      match goal with |- Forall _ (optional_metric _ _ ?v _) =>
        destruct v; simpl; repeat constructor end.
Qed.

Lemma NoDup_collected_names : NoDup collected_names.
Proof.
  apply (bool_decide_unpack (NoDup collected_names)). by vm_compute.
Qed.

Lemma collected_length (timestamp : Z) (tr : TestResults)
    (ms : list PerformanceMetric) :
  collected timestamp tr = Ok ms →
  (length ms ≤ 6)%nat ∧ NoDup (name <$> ms).
Proof.
  intros Hc. destruct (collected_facts _ _ _ Hc) as [Hsub _]. split.
  - apply sublist_length in Hsub. by rewrite length_fmap in Hsub.
  - eapply sublist_NoDup; [apply NoDup_collected_names | exact Hsub].
Qed.

(** A successful collection returns at most six metrics, one per name at
    most and all stamped with the time of the call, and stores them at the
    end of the history; the history is cut to its last 5000 entries as soon
    as it exceeds 10000, so it never holds more than 10000 entries after a
    collection. *)
Theorem collect_history_bounded (metrics_history : list PerformanceMetric)
    (timestamp : Z) (tr : TestResults)
    (ms history' : list PerformanceMetric) :
  collect_performance_metrics metrics_history timestamp tr
  = Ok (ms, history') →
  (length ms ≤ 6)%nat
  ∧ NoDup (name <$> ms)
  ∧ Forall (λ m, Performance.timestamp m = timestamp) ms
  ∧ (∃ older, history' = older ++ ms)
  ∧ (Z.of_nat (length history') ≤ 10000)%Z
  ∧ ((Z.of_nat (length metrics_history + length ms) ≤ 10000)%Z →
     history' = metrics_history ++ ms)
  ∧ ((10000 < Z.of_nat (length metrics_history + length ms))%Z →
     Z.of_nat (length history') = 5000%Z).
Proof.
  unfold collect_performance_metrics.
  destruct (collected timestamp tr) as [ms' | e] eqn:Hc; simpl;
    [| discriminate].
  intros [= <- <-]. destruct (collected_facts _ _ _ Hc) as [_ Hts].
  destruct (collected_length _ _ _ Hc) as [Hlen Hnodup].
  split; [exact Hlen |]. split; [exact Hnodup |]. split; [exact Hts |].
  rewrite length_app.
  destruct (Z.ltb_spec 10000
              (Z.of_nat (length metrics_history + length ms'))) as [Hbig | Hsmall].
  - unfold suffix. rewrite length_app.
    destruct (Nat.eqb_spec (Z.to_nat 5000) 0) as [| _]; [lia |].
    rewrite drop_app_le by lia.
    split; [eauto |]. rewrite length_app, length_drop.
    split; [lia |]. split; [lia |]. intros _. lia.
  - split; [eauto |]. rewrite length_app.
    split; [lia |]. split; [reflexivity | lia].
Qed.

Lemma collect_history_bounded_witness :
  ∃ ms history',
    collect_performance_metrics (Samples.history_of Samples.ramp)
      Samples.now Scenarios.one_run = Ok (ms, history')
    ∧ name <$> ms = ["execution_time"; "memory_usage"; "test_success_rate";
                     "response_time"]%string
    ∧ (length ms ≤ 6)%nat
    ∧ (Z.of_nat (length history') ≤ 10000)%Z.
Proof.
  eexists _, _. split; [reflexivity |]. split; [reflexivity |].
  destruct (collect_history_bounded (Samples.history_of Samples.ramp)
              Samples.now Scenarios.one_run _ _ eq_refl)
    as (Hlen & _ & _ & _ & Hcap & _).
  split; [exact Hlen | exact Hcap].
Defined.

(** The collection raises exactly when [total_tests] is 0 while
    [passed_tests] is present (the success rate divides by the total), or
    when [response_times] is an empty list (its mean is undefined).  In the
    first case the exception is [ZeroDivisionError]. *)
Theorem collect_raises (metrics_history : list PerformanceMetric)
    (timestamp : Z) (tr : TestResults) :
  ((∃ r, collect_performance_metrics metrics_history timestamp tr = Ok r)
   ↔ ¬ (tr_total_tests tr = Some 0%Z ∧ is_Some (tr_passed_tests tr))
     ∧ tr_response_times tr ≠ Some [])
  ∧ (tr_total_tests tr = Some 0%Z → is_Some (tr_passed_tests tr) →
     collect_performance_metrics metrics_history timestamp tr
     = Raise (ZeroDivisionError "division by zero")).
Proof.
  unfold collect_performance_metrics, collected, truediv_int, mean.
  destruct (tr_total_tests tr) as [total |];
    [destruct (Z.eqb_spec total 0) as [-> | Hnz] |];
    destruct (tr_passed_tests tr) as [passed |];
    destruct (tr_response_times tr) as [[| t times] |]; simpl;
    (split; [split |]);
    try (intros [r Hr]; discriminate);
    try (intros _; eexists; reflexivity);
    try (intros _ _; reflexivity);
    try (intros _; split; [| congruence];
         intros [H1 H2]; first [congruence | destruct H2; congruence]);
    try (intros [H1 H2]; first [congruence | exfalso; apply H1; eauto]);
    try (intros H1 H2; first [congruence | destruct H2; congruence]).
Qed.

End CollectFacts.

(* ===================================================================== *)
(** * The comprehensive analysis as a whole *)
(* ===================================================================== *)

Section ComprehensiveFacts.
Import Statistics Performance Analysis.
Local Open Scope R_scope.

Lemma select_absent (metrics_history : list PerformanceMetric)
    (metric_name : string) (cutoff : Z) :
  metric_name ∉ name <$> metrics_history →
  select metrics_history metric_name cutoff = [].
Proof.
  unfold select. induction metrics_history as [| m h IH]; [reflexivity |].
  rewrite fmap_cons, not_elem_of_cons. intros [Hm Hh]. simpl.
  destruct (String.eqb_spec (name m) metric_name) as [E | _];
    [congruence | simpl; by apply IH].
Qed.

(** A history with at most one sample per name has at most one sample in
    any window of any metric. *)
Lemma select_at_most_one (metrics_history : list PerformanceMetric)
    (metric_name : string) (cutoff : Z) :
  NoDup (name <$> metrics_history) →
  (length (select metrics_history metric_name cutoff) ≤ 1)%nat.
Proof.
  induction metrics_history as [| m h IH]; [simpl; lia |].
  rewrite fmap_cons, NoDup_cons. intros [Hm Hh].
  unfold select in *. simpl.
  destruct (String.eqb_spec (name m) metric_name) as [<- | _]; simpl.
  - pose proof (select_absent h (name m) cutoff Hm) as Hnone.
    unfold select in Hnone.
    destruct (cutoff <=? timestamp m)%Z; simpl; rewrite Hnone; simpl; lia.
  - by apply IH.
Qed.

(** After the first collection of an analyzer, whatever it collected, the
    trend analysis of any metric over any window returns the
    insufficient-data result, and so does the prediction. *)
Theorem first_collection_insufficient (timestamp : Z) (tr : TestResults)
    (ms history' : list PerformanceMetric) :
  collect_performance_metrics [] timestamp tr = Ok (ms, history') →
  history' = ms
  ∧ ∀ (now base_time : Z) (metric_name : string) (window horizon : Z),
      analyze_performance_trends history' now metric_name window
      = Ok (InsufficientData metric_name "insufficient_data"
              "数据不足，无法分析趋势")
      ∧ ∃ p, predict_future_performance history' now base_time metric_name
               horizon = Ok p
             ∧ predicted_values p = []
             ∧ risk_factors p = ["历史数据不足"%string].
Proof.
  unfold collect_performance_metrics.
  destruct (collected timestamp tr) as [ms' | e] eqn:Hc; simpl;
    [| discriminate].
  destruct (collected_length _ _ _ Hc) as [Hlen Hnodup].
  destruct (Z.ltb_spec 10000 (Z.of_nat (length ms'))) as [| _]; [lia |].
  intros [= <- <-]. split; [reflexivity |].
  intros now base_time metric_name window horizon.
  split.
  - unfold analyze_performance_trends.
    pose proof (select_at_most_one ms' metric_name (now - hours window)
                  Hnodup) as H1.
    destruct (Nat.ltb_spec (length (select ms' metric_name
                                      (now - hours window))) 2);
      [reflexivity | lia].
  - unfold predict_future_performance.
    pose proof (select_at_most_one ms' metric_name
                  (now - hours history_window) Hnodup) as H1.
    destruct (Nat.ltb_spec (length (select ms' metric_name
                                      (now - hours history_window))) 10);
      [| lia].
    eexists. repeat split.
Qed.

Lemma first_collection_insufficient_witness :
  ∃ ms history',
    collect_performance_metrics [] Samples.now Scenarios.one_run
    = Ok (ms, history')
    ∧ history' = ms
    ∧ analyze_performance_trends history' Samples.now "execution_time" 24
      = Ok (InsufficientData "execution_time" "insufficient_data"
              "数据不足，无法分析趋势").
Proof.
  eexists _, _. split; [reflexivity |].
  destruct (first_collection_insufficient Samples.now Scenarios.one_run
              _ _ eq_refl) as [Heq Hall].
  split; [exact Heq |].
  exact (proj1 (Hall Samples.now Samples.now "execution_time"%string
                     24%Z 24%Z)).
Defined.

(** The prediction never raises. *)
Lemma predict_future_performance_returns
    (metrics_history : list PerformanceMetric) (now base_time : Z)
    (metric_name : string) (prediction_hours : Z) :
  ∃ p, predict_future_performance metrics_history now base_time metric_name
         prediction_hours = Ok p.
Proof.
  unfold predict_future_performance.
  set (values := value <$> select metrics_history metric_name
                             (now - hours history_window)).
  assert (length (select metrics_history metric_name
                    (now - hours history_window)) = length values) as ->
    by (unfold values; by rewrite length_fmap).
  destruct (Nat.ltb_spec (length values) 10) as [| Hn]; [eauto |].
  assert (values ≠ []) as Hne by (eapply nonempty_of_length; eassumption).
  destruct (last_item_returns values Hne) as [vl ->].
  destruct (suffix_recent (Nat.min 10 (length values)) values ltac:(lia))
    as (older & _ & Hrecent).
  destruct (suffix_recent 5 values ltac:(lia)) as (older5 & _ & Hrecent5).
  assert (suffix (Nat.min 10 (length values)) values ≠ []) as Hrne
    by (apply (nonempty_of_length _ 0); lia).
  assert ((5 <=? length values)%nat = true) as -> by (apply Nat.leb_le; lia).
  assert ((1 <? length values)%nat = true) as -> by (apply Nat.ltb_lt; lia).
  rewrite (mean_Ok _ Hrne), (calculate_slope_Ok (suffix 5 values)) by lia.
  rewrite stdev_Ok by lia.
  destruct (identify_risk_factors_returns values metric_name) as [rf ->].
  simpl mbind. eauto.
Qed.

Lemma predictions_loop_keys (metrics_history : list PerformanceMetric)
    (clocks : string → Z * Z) (names : list string) :
  ∀ summary,
    fst <$> predictions_loop metrics_history clocks names summary
    = (fst <$> summary) ++ names.
Proof.
  induction names as [| n names IH]; intros summary; simpl.
  - by rewrite app_nil_r.
  - destruct (clocks n) as [now base_time].
    destruct (predict_future_performance_returns metrics_history now
                base_time n 12) as [p ->].
    rewrite IH, fmap_app. simpl. by rewrite <- app_assoc.
Qed.

(** The summary of the predictions always has its three entries, for
    execution time, memory usage and test success rate, in this order: the
    prediction does not raise, so no metric is skipped. *)
Theorem predictions_summary_complete
    (metrics_history : list PerformanceMetric) (clocks : string → Z * Z) :
  fst <$> _generate_predictions_summary metrics_history clocks
  = ["execution_time"; "memory_usage"; "test_success_rate"].
Proof.
  unfold _generate_predictions_summary.
  by rewrite predictions_loop_keys.
Qed.

Lemma dict_set_keys (k : string) (v : R) (metrics : Metrics) :
  (∀ x, x ∈ fst <$> dict_set k v metrics → x = k ∨ x ∈ fst <$> metrics)
  ∧ (length (dict_set k v metrics) ≤ S (length metrics))%nat.
Proof.
  induction metrics as [| [k' v'] metrics [IH1 IH2]].
  - split; [| simpl; lia]. intros x Hx.
    change (x ∈ [k]) in Hx. apply elem_of_cons in Hx. tauto.
  - simpl dict_set. destruct (String.eqb_spec k' k) as [-> | Hne].
    + split; [| simpl; lia]. intros x. rewrite !fmap_cons, !elem_of_cons.
      simpl. tauto.
    + split; [| simpl; lia]. intros x. rewrite !fmap_cons, !elem_of_cons.
      simpl. intros [-> | Hx]; [tauto |]. apply IH1 in Hx. tauto.
Qed.

Lemma key_metrics_loop_returns (metrics_history : list PerformanceMetric)
    (recent_time : Z) (names : list string) :
  ∀ key_metrics,
    ∃ key_metrics',
      key_metrics_loop metrics_history recent_time names key_metrics
      = Ok key_metrics'
      ∧ (∀ x, x ∈ fst <$> key_metrics' →
              x ∈ fst <$> key_metrics ∨ x ∈ names)
      ∧ (length key_metrics' ≤ length key_metrics + length names)%nat.
Proof.
  induction names as [| n names IH]; intros km; simpl.
  - exists km. split; [reflexivity |]. split; [tauto | lia].
  - destruct (select metrics_history n recent_time) as [| m recent] eqn:Hsel.
    + destruct (IH km) as (km' & -> & Hk & Hl).
      exists km'. split; [reflexivity |]. split; [| lia].
      intros x Hx. rewrite elem_of_cons. apply Hk in Hx. tauto.
    + match goal with |- context [dict_set n ?v km] =>
        destruct (IH (dict_set n v km)) as (km' & -> & Hk & Hl);
        destruct (dict_set_keys n v km) as [Hk' Hl']
      end.
      exists km'. split; [reflexivity |]. split; [| lia].
      intros x Hx. rewrite elem_of_cons. apply Hk in Hx as [Hx | Hx];
        [apply Hk' in Hx |]; tauto.
Qed.

Lemma analyze_overall_trend_returns
    (metrics_history : list PerformanceMetric) (now : Z) :
  ∃ d, _analyze_overall_trend metrics_history now = Ok d
       ∧ ((length (select metrics_history "execution_time" (now - hours 6))
           < 3)%nat → d = STABLE).
Proof.
  unfold _analyze_overall_trend.
  destruct (Nat.leb_spec 3 (length (select metrics_history "execution_time"
                                      (now - hours 6)))) as [Hn | Hn].
  - destruct (trend_direction_returns
                (value <$> select metrics_history "execution_time"
                             (now - hours 6))) as [d ->].
    exists d. split; [reflexivity | lia].
  - exists STABLE. auto.
Qed.

Lemma confidence_range (metrics : Metrics) (history_length : nat) :
  0.5 <= _calculate_analysis_confidence metrics history_length <= 1.
Proof.
  unfold _calculate_analysis_confidence.
  destruct (4 <=? length metrics)%nat; [| destruct (2 <=? length metrics)%nat];
    (destruct (100 <=? history_length)%nat;
     [| destruct (50 <=? history_length)%nat]);
    unfold Rmin;
    match goal with |- context [Rle_dec ?x ?y] => destruct (Rle_dec x y) end;
    lra.
Qed.

Lemma advised_key (k : string) :
  k ∈ ["execution_time"; "memory_usage"; "cpu_usage"; "test_success_rate"] →
  advised k = true.
Proof.
  rewrite !elem_of_cons, elem_of_nil.
  intros [-> | [-> | [-> | [-> | []]]]]; reflexivity.
Qed.

(** The comprehensive analysis always returns and is appended to the
    history of analyses.  Its key metrics are among the four scored ones,
    its score lies between 40 and 100 and its level is never CRITICAL; it
    has the three predictions, exactly one recommendation per bottleneck
    (and the general one when there is no bottleneck), a confidence between
    0.5 and 1, and the trend STABLE when the last six hours hold fewer than
    three samples of the execution time. *)
Theorem generate_performance_analysis_returns
    (metrics_history : list PerformanceMetric)
    (analysis_history : list PerformanceAnalysis) (c : Clocks) :
  ∃ a,
    generate_performance_analysis metrics_history analysis_history c
    = Ok (a, analysis_history ++ [a])
    ∧ fst <$> a_key_metrics a
      ⊆ ["execution_time"; "memory_usage"; "cpu_usage"; "test_success_rate"]
    ∧ 40 <= a_overall_score a <= 100
    ∧ a_performance_level a ≠ CRITICAL
    ∧ fst <$> a_predictions a
      = ["execution_time"; "memory_usage"; "test_success_rate"]
    ∧ (length (a_bottlenecks a) ≤ length (a_key_metrics a) ≤ 4)%nat
    ∧ length (a_recommendations a) = Nat.max 1 (length (a_bottlenecks a))
    ∧ 0.5 <= a_confidence a <= 1
    ∧ ((length (select metrics_history "execution_time"
                  (trend_now c - hours 6)) < 3)%nat →
       a_trend_direction a = STABLE).
Proof.
  unfold generate_performance_analysis.
  destruct (key_metrics_loop_returns metrics_history (recent_now c - hours 1)
              ["execution_time"; "memory_usage"; "cpu_usage";
               "test_success_rate"] [])
    as (km & -> & Hkeys & Hlen).
  simpl mbind.
  destruct (overall_score_returns km) as (score & -> & Hscore & _).
  simpl mbind.
  destruct (analyze_overall_trend_returns metrics_history (trend_now c))
    as (d & -> & Hd).
  simpl mbind. eexists. split; [reflexivity |]. simpl.
  assert (fst <$> km ⊆ ["execution_time"; "memory_usage"; "cpu_usage";
                        "test_success_rate"]) as Hsub.
  { intros x Hx. apply Hkeys in Hx as [Hx | Hx]; [| exact Hx].
    by apply elem_of_nil in Hx. }
  split; [exact Hsub |]. split; [exact Hscore |].
  split; [apply level_not_critical; lra |].
  split.
  { unfold _generate_predictions_summary. by rewrite predictions_loop_keys. }
  assert (length (_identify_bottlenecks km) ≤ length km)%nat as Hb.
  { apply length_flat_map_le. intros [n v]. apply length_bottleneck_of. }
  split; [simpl in Hlen; lia |].
  split; [| split; [apply confidence_range | exact Hd]].
  unfold _generate_performance_recommendations.
  pose proof (length_recommendations_of (_identify_bottlenecks km)) as Hr.
  assert (List.filter (λ b, advised (b_metric b)) (_identify_bottlenecks km)
          = _identify_bottlenecks km) as Hall.
  { apply List.forallb_filter_id, List.forallb_forall. intros b Hb'.
    apply List.in_flat_map in Hb' as ([n v] & Hin & Hb').
    apply bottleneck_of_sound in Hb' as (-> & _). simpl.
    apply advised_key, Hsub, list_elem_of_fmap.
    exists (n, v). split; [reflexivity | by apply list_elem_of_In]. }
  rewrite Hall in Hr.
  destruct (List.flat_map recommendation_of (_identify_bottlenecks km))
    as [| r rs]; simpl in *; lia.
Qed.

End ComprehensiveFacts.

(* ===================================================================== *)
(** * The stability score *)
(* ===================================================================== *)

Section StabilityFacts.
Import Statistics Performance.
Local Open Scope R_scope.

(** The stability score is always produced and lies between 0 and 100.  It
    is 100 for a window of fewer than two samples and whenever the
    coefficient of variation is not positive (a constant window, or a
    negative mean), and 0 as soon as the standard deviation reaches the
    mean. *)
Theorem stability_score_bounds (values : list R) :
  ∃ score,
    _calculate_stability_score values = Ok score
    ∧ 0 <= score <= 100
    ∧ ((length values < 2)%nat → score = 100)
    ∧ ((2 ≤ length values)%nat → cv_of values <= 0 → score = 100)
    ∧ ((2 ≤ length values)%nat → 1 <= cv_of values → score = 0).
Proof.
  rewrite stability_score_Ok. eexists. split; [reflexivity |].
  destruct (Nat.ltb_spec (length values) 2) as [Hn | Hn].
  - split; [lra |]. split; [reflexivity |]. split; intros; lia.
  - unfold Rmin, Rmax.
    destruct (Rle_dec 0 (100 - cv_of values * 100));
      match goal with |- context [Rle_dec 100 ?y] =>
        destruct (Rle_dec 100 y) end;
      (split; [lra |]); (split; [intros; lia |]); split; intros; lra.
Qed.

End StabilityFacts.

(* ===================================================================== *)
(** * The slope of the prediction and the analysis of a constant window *)
(* ===================================================================== *)

Section SlopeFacts.
Import Statistics Performance.
Local Open Scope R_scope.

Lemma sum_xy_raises (x : list Z) :
  ∀ y, (length y < length x)%nat → ∃ e, sum_xy x y = Raise e.
Proof.
  induction x as [| xi x IH]; intros y Hlen; simpl in Hlen; [lia |].
  destruct y as [| yi y]; simpl; [eauto |].
  destruct (IH y ltac:(simpl in Hlen; lia)) as [e ->]. simpl. eauto.
Qed.

(** [_calculate_slope] returns exactly when it has fewer than two abscissae
    or at least as many ordinates as abscissae: a vanishing denominator
    gives slope 0 instead of a division by zero, and the only failure is the
    missing ordinate. *)
Theorem calculate_slope_returns (x : list Z) (y : list R) :
  (∃ slope, _calculate_slope x y = Ok slope)
  ↔ (length x < 2)%nat ∨ (length x ≤ length y)%nat.
Proof.
  unfold _calculate_slope.
  destruct (Z.ltb_spec (Z.of_nat (length x)) 2) as [Hshort | Hlong].
  - split; [intros _; left; lia | eauto].
  - destruct (le_lt_dec (length x) (length y)) as [Hle | Hlt].
    + rewrite sum_xy_Ok by exact Hle. simpl mbind. unfold truediv_int.
      split; [intros _; by right |]. intros _.
      destruct (_ =? 0)%Z; eauto.
    + destruct (sum_xy_raises x y Hlt) as [e ->]. simpl.
      split; [intros [s Hs]; discriminate | intros [? | ?]; lia].
Qed.

Lemma dot_line (a b : R) (x : list Z) :
  dot x ((λ i, a + b * IZR i) <$> x)
  = a * IZR (isum x) + b * IZR (sum_x2 x).
Proof.
  unfold dot, sum_x2. induction x as [| xi x IH].
  - unfold sum, isum. simpl. lra.
  - rewrite !fmap_cons. simpl zip_with.
    change (sum (IZR xi * (a + b * IZR xi)
                 :: zip_with (λ xi yi, IZR xi * yi) x
                      ((λ i, a + b * IZR i) <$> x)))
      with (IZR xi * (a + b * IZR xi)
            + sum (zip_with (λ xi yi, IZR xi * yi) x
                     ((λ i, a + b * IZR i) <$> x))).
    rewrite IH.
    change (isum (xi :: x)) with (xi + isum x)%Z.
    change (isum ((xi ^ 2)%Z :: ((λ xi, (xi ^ 2)%Z) <$> x)))
      with (xi ^ 2 + isum ((λ xi, (xi ^ 2)%Z) <$> x))%Z.
    rewrite !plus_IZR, Z.pow_2_r, mult_IZR. ring.
Qed.

Lemma sum_line (a b : R) (x : list Z) :
  sum ((λ i, a + b * IZR i) <$> x)
  = INR (length x) * a + b * IZR (isum x).
Proof.
  induction x as [| xi x IH]; [unfold sum, isum; simpl; lra |].
  rewrite fmap_cons.
  change (sum ((a + b * IZR xi) :: ((λ i, a + b * IZR i) <$> x)))
    with (a + b * IZR xi + sum ((λ i, a + b * IZR i) <$> x)).
  change (isum (xi :: x)) with (xi + isum x)%Z.
  change (length (xi :: x)) with (S (length x)).
  rewrite IH, S_INR, plus_IZR. ring.
Qed.

Lemma regression_slope_line (a b : R) (n : nat) :
  (2 ≤ n)%nat →
  regression_slope (range n) ((λ i, a + b * IZR i) <$> range n) = b.
Proof.
  intros Hn. unfold regression_slope.
  rewrite dot_line, sum_line, !length_range.
  pose proof (regression_denominator_pos n Hn) as Hpos.
  apply IZR_lt in Hpos. unfold sum_x2.
  rewrite minus_IZR, mult_IZR, Z.pow_2_r, mult_IZR in *.
  rewrite <- INR_IZR_INZ in *.
  set (sx := IZR (isum (range n))) in *.
  set (sxx := IZR (isum ((λ xi, (xi ^ 2)%Z) <$> range n))) in *.
  field. lra.
Qed.

(** On samples that lie on a line, [a + b * i] at index [i], the slope used
    by the prediction is [b]. *)
Theorem calculate_slope_of_line (a b : R) (n : nat) :
  (2 ≤ n)%nat →
  _calculate_slope (range n) ((λ i, a + b * IZR i) <$> range n) = Ok b.
Proof.
  intros Hn.
  pose proof (calculate_slope_Ok ((λ i, a + b * IZR i) <$> range n)) as H.
  rewrite length_fmap, length_range in H.
  rewrite H by exact Hn. f_equal. by apply regression_slope_line.
Qed.

Lemma calculate_slope_of_line_witness :
  (2 ≤ 5)%nat
  ∧ _calculate_slope (range 5) ((λ i, 10 + 2 * IZR i) <$> range 5) = Ok 2.
Proof.
  split; [lia |]. apply (calculate_slope_of_line 10 2 5). lia.
Defined.

End SlopeFacts.

(* ===================================================================== *)
(** * The analysis of a constant window *)
(* ===================================================================== *)

Section ConstantFacts.
Import Statistics Performance.
Local Open Scope R_scope.

Lemma sum_replicate (n : nat) (c : R) : sum (replicate n c) = INR n * c.
Proof.
  induction n as [| n IH]; [unfold sum; simpl; lra |].
  change (sum (replicate (S n) c)) with (c + sum (replicate n c)).
  rewrite IH, S_INR. ring.
Qed.

Lemma mean_of_replicate (n : nat) (c : R) :
  (1 ≤ n)%nat → mean_of (replicate n c) = c.
Proof.
  intros Hn. unfold mean_of. rewrite sum_replicate, length_replicate.
  field. apply not_0_INR. lia.
Qed.

Lemma ss_replicate (n : nat) (c : R) : (1 ≤ n)%nat → ss (replicate n c) = 0.
Proof.
  intros Hn. unfold ss. fold (mean_of (replicate n c)).
  rewrite mean_of_replicate by exact Hn.
  clear Hn. induction n as [| n IH]; [reflexivity |].
  change (sum ((λ x, (x - c) * (x - c)) <$> replicate (S n) c))
    with ((c - c) * (c - c)
          + sum ((λ x, (x - c) * (x - c)) <$> replicate n c)).
  rewrite IH. ring.
Qed.

Lemma stdev_of_replicate (n : nat) (c : R) :
  (1 ≤ n)%nat → stdev_of (replicate n c) = 0.
Proof.
  intros Hn. unfold stdev_of. rewrite ss_replicate by exact Hn.
  unfold Rdiv. rewrite Rmult_0_l. apply sqrt_0.
Qed.

Lemma cv_of_replicate (n : nat) (c : R) :
  (1 ≤ n)%nat → cv_of (replicate n c) = 0.
Proof.
  intros Hn. rewrite cv_of_quotient, stdev_of_replicate by exact Hn.
  unfold Rdiv. apply Rmult_0_l.
Qed.

Lemma replicate_line (n : nat) (c : R) :
  replicate n c = (λ i, c + 0 * IZR i) <$> range n.
Proof.
  unfold range. rewrite <- list_fmap_compose.
  generalize 0%nat. induction n as [| n IH]; intros k; [reflexivity |].
  simpl. rewrite <- IH. f_equal. unfold compose. ring.
Qed.

Lemma trend_of_replicate (n : nat) (c : R) :
  _calculate_trend_direction (replicate n c) = Ok STABLE.
Proof.
  destruct (le_lt_dec 3 n) as [Hn | Hn].
  - rewrite trend_direction_classifies by (rewrite length_replicate; lia).
    rewrite cv_of_replicate, length_replicate by lia.
    rewrite (replicate_line n c) at 1.
    rewrite regression_slope_line by lia.
    unfold classify.
    destruct (Rgt_dec 0 0.3); [lra |]. destruct (Rgt_dec 0 0.1); [lra |].
    destruct (Rlt_dec 0 (- 0.1)); [lra | reflexivity].
  - apply trend_direction_short. rewrite length_replicate. lia.
Qed.

Lemma sorted_replicate (n : nat) (c : R) :
  sorted (replicate n c) = replicate n c.
Proof.
  unfold sorted. induction n as [| n IH]; [reflexivity |].
  simpl. rewrite IH. destruct n as [| n]; [reflexivity |]. simpl.
  destruct (Rle_dec c c); [reflexivity | lra].
Qed.

Lemma nth_replicate (n i : nat) (c : R) :
  (i < n)%nat → nth i (replicate n c) 0 = c.
Proof.
  revert i. induction n as [| n IH]; intros i Hi; [lia |].
  destruct i as [| i]; [reflexivity |]. simpl. apply IH. lia.
Qed.

Lemma median_replicate (n : nat) (c : R) :
  (1 ≤ n)%nat → median (replicate n c) = Ok c.
Proof.
  intros Hn. unfold median. rewrite sorted_replicate, length_replicate.
  destruct (Nat.eqb_spec n 0) as [| _]; [lia |].
  assert (n / 2 < n)%nat as Hhalf by (apply Nat.div_lt; lia).
  destruct (n mod 2 =? 1)%nat.
  - by rewrite nth_replicate.
  - rewrite !nth_replicate by lia. f_equal. field.
Qed.

Lemma min_replicate (n : nat) (c : R) :
  (1 ≤ n)%nat → min (replicate n c) = Ok c.
Proof.
  intros Hn. destruct n as [| n]; [lia |]. simpl. f_equal.
  clear Hn. induction n as [| n IH]; [reflexivity |]. simpl.
  rewrite Rmin_left by lra. exact IH.
Qed.

Lemma max_replicate (n : nat) (c : R) :
  (1 ≤ n)%nat → max (replicate n c) = Ok c.
Proof.
  intros Hn. destruct n as [| n]; [lia |]. simpl. f_equal.
  clear Hn. induction n as [| n IH]; [reflexivity |]. simpl.
  rewrite Rmax_left by lra. exact IH.
Qed.

Lemma last_item_replicate (n : nat) (c : R) :
  (1 ≤ n)%nat → last_item (replicate n c) = Ok c.
Proof.
  intros Hn. unfold last_item.
  destruct n as [| n]; [lia |].
  replace (replicate (S n) c) with (replicate n c ++ [c])
    by (by rewrite <- replicate_cons_app).
  by rewrite last_snoc.
Qed.

Lemma scan_replicate (n : nat) (c : R) :
  scan_anomalies c (3 * 0) 0 (replicate n c) = [].
Proof.
  apply scan_anomalies_none, Forall_forall. intros v Hv.
  apply elem_of_replicate in Hv as [-> _].
  rewrite Rminus_diag, Rabs_R0. lra.
Qed.

(** A window of at least two equal, non-zero samples is analysed as stable:
    zero change rate, stability 100, no anomalies, standard deviation 0 and
    mean, median, minimum, maximum and latest value all equal to the
    sample. *)
Theorem constant_window_is_stable (metrics_history : list PerformanceMetric)
    (now : Z) (metric_name : string) (window : Z) (n : nat) (c : R) :
  value <$> select metrics_history metric_name (now - hours window)
  = replicate n c →
  (2 ≤ n)%nat → c ≠ 0 →
  ∃ rep,
    analyze_performance_trends metrics_history now metric_name window
    = Ok (Analysis rep)
    ∧ data_points rep = n
    ∧ trend_direction rep = "stable"%string
    ∧ change_rate_percent rep = 0
    ∧ stability_score rep = 100
    ∧ anomalies rep = []
    ∧ statistics rep
      = {| st_mean := c; st_median := c; st_std_dev := 0; st_min := c;
           st_max := c; st_range := 0 |}
    ∧ latest_value rep = c.
Proof.
  intros Hv Hn Hc.
  destruct (analyze_window metrics_history now metric_name window)
    as (md & mn & mx & v0 & vl & d & Hmd & Hmn & Hmx & Hv0 & Hvl & Hd & ->).
  { rewrite Hv, length_replicate. exact Hn. }
  rewrite Hv in *.
  rewrite median_replicate in Hmd by lia. injection Hmd as <-.
  rewrite min_replicate in Hmn by lia. injection Hmn as <-.
  rewrite max_replicate in Hmx by lia. injection Hmx as <-.
  rewrite last_item_replicate in Hvl by lia. injection Hvl as <-.
  rewrite trend_of_replicate in Hd. injection Hd as <-.
  assert (v0 = c) as ->.
  { destruct n as [| n]; [lia |]. simpl in Hv0. by injection Hv0. }
  unfold truediv. destruct (Req_dec_T c 0) as [| _]; [contradiction |].
  simpl mbind. eexists. split; [reflexivity |]. simpl.
  rewrite length_replicate, cv_of_replicate, mean_of_replicate,
    stdev_of_replicate, scan_replicate by lia.
  split; [reflexivity |]. split; [reflexivity |].
  split; [unfold Rdiv; ring |].
  split.
  { unfold Rmin, Rmax. destruct (Rle_dec 0 (100 - 0 * 100)); [| lra].
    destruct (Rle_dec 100 (100 - 0 * 100)); lra. }
  split; [by destruct (n <? 3)%nat |].
  split; [| reflexivity]. f_equal. ring.
Qed.

Lemma constant_window_is_stable_witness :
  value <$> select (Samples.history_of (replicate 4 25%R)) "execution_time"
                   (Samples.now - hours 24)
  = replicate 4 25%R
  ∧ (2 ≤ 4)%nat ∧ 25 ≠ 0
  ∧ ∃ rep,
      analyze_performance_trends (Samples.history_of (replicate 4 25%R))
        Samples.now "execution_time" 24 = Ok (Analysis rep)
      ∧ trend_direction rep = "stable"%string
      ∧ stability_score rep = 100.
Proof.
  assert (value <$> select (Samples.history_of (replicate 4 25%R))
                      "execution_time" (Samples.now - hours 24)
          = replicate 4 25%R) as Hv by (apply window_of_history; lia).
  assert (25 ≠ 0) as Hc by lra.
  split; [exact Hv |]. split; [lia |]. split; [exact Hc |].
  destruct (constant_window_is_stable _ _ _ _ 4 25 Hv ltac:(lia) Hc)
    as (rep & H1 & _ & H2 & _ & H3 & _).
  exists rep. auto.
Defined.

End ConstantFacts.
